(** * infer_pipeline.py: inference runner over a serialized sklearn pipeline

    A shallow embedding of [src/infer_pipeline.py].  The script reads a CSV
    into a pandas DataFrame, loads a pipeline with joblib, derives a cleaned
    frame, predicts on the frame it read, pastes identifier / prediction /
    probability columns onto a copy of the cleaned frame, writes it and
    prints a report.  The frame it read is one object, which the calls
    to the pipeline may edit in place.

    Layout of the development:
    - [np] and [pd]: the parts of numpy and pandas the script relies on
      (array shape and slicing, column insertion and assignment, the
      DataFrame constructor, [head]);
    - exceptions, the trace of events and the small trace/exception monad
      in which the two functions of the script are written;
    - [get_cleaned_df_from_pipeline] and [main], line by line;
    - the vocabulary of the properties and a few concrete runs;
    - facts about frames, computations and the steps of the script;
    - the properties of the runner;
    - further properties of its two functions: when a run succeeds, the
      order of its outside calls, what it prints, where a failing run
      stops, and what the table it writes holds. *)

From Stdlib Require Import String Ascii ZArith QArith Bool Arith Lia List.
From Stdlib Require Import DecimalString Sorted.
Import ListNotations.
Local Open Scope string_scope.
Local Open Scope nat_scope.
Local Open Scope list_scope.

(** String concatenation, as the f-strings of the script splice text. *)
Infix "+++" := String.append (right associativity, at level 60).

(* ===================================================================== *)
(** ** Cells, labels, exceptions *)
(* ===================================================================== *)

(** A value held in a frame or an array.  The runner never computes with
    cells: it copies them, and pandas pads with NaN when it re-indexes. *)
Inductive cell : Type :=
| CInt (z : Z)
| CFloat (q : Q)
| CStr (s : string)
| CNaN.

(** Column labels.  [read_csv] produces string labels; the DataFrame
    constructor applied to a bare array produces the integer labels
    0, 1, ...; a string never equals an integer label. *)
Inductive label : Type :=
| LStr (s : string)
| LInt (z : Z).

Definition label_eqb (a b : label) : bool :=
  match a, b with
  | LStr s, LStr t => String.eqb s t
  | LInt x, LInt y => Z.eqb x y
  | _, _ => false
  end.

(** The exception classes the script can tell apart: the outer handler has
    one clause for [FileNotFoundError] and one for every other
    [Exception].  [description] is [str(e)].  Only exceptions derived
    from [Exception] are modelled, the ones the handlers of the script
    catch. *)
Inductive exception_class : Type :=
| FileNotFoundError
| ValueError
| KeyError
| IndexError
| AttributeError
| TypeError
| OtherException.

Record exception : Type := mkException {
  exc_class : exception_class;
  description : string
}.

Definition is_FileNotFoundError (e : exception) : bool :=
  match exc_class e with
  | FileNotFoundError => true
  | _ => false
  end.

(** Result of a call that may raise. *)
Inductive outcome (A : Type) : Type :=
| Ok (a : A)
| Raise (e : exception).
Arguments Ok {A} a.
Arguments Raise {A} e.

Definition raise_with {A : Type} (c : exception_class) (msg : string) : outcome A :=
  Raise (mkException c msg).

(** Decimal rendering used by the f-strings. *)
Definition show_nat (n : nat) : string := NilEmpty.string_of_uint (Nat.to_uint n).
Definition show_Z (z : Z) : string := NilZero.string_of_int (Z.to_int z).

Definition show_label (l : label) : string :=
  match l with
  | LStr s => s
  | LInt z => show_Z z
  end.

Definition nl : string := String (ascii_of_nat 10) EmptyString.

(* ===================================================================== *)
(** ** numpy arrays *)
(* ===================================================================== *)

Module np.

(** An n-dimensional array: its shape and its elements in row-major
    order. *)
Record ndarray : Type := mk_ndarray {
  shape : list nat;
  data : list cell
}.

Definition well_shaped (a : ndarray) : Prop :=
  length (data a) = fold_right Nat.mul 1 (shape a).

Definition ndim (a : ndarray) : nat := length (shape a).

(** [a.shape[k]] *)
Definition shape_at (a : ndarray) (k : nat) : nat := nth k (shape a) 0.

(** [a[i, j]] of a 2-D array. *)
Definition at2 (a : ndarray) (i j : nat) : cell :=
  nth (i * shape_at a 1 + j) (data a) CNaN.

(** [a[:, j]] of a 2-D array: one element per row. *)
Definition column (a : ndarray) (j : nat) : list cell :=
  map (fun i => at2 a i j) (seq 0 (shape_at a 0)).

(** [a.ravel()] *)
Definition ravel (a : ndarray) : list cell := data a.

(** The 2-D array of the given rows, each of [ncols] entries. *)
Definition array2 (ncols : nat) (rows : list (list cell)) : ndarray :=
  mk_ndarray [length rows; ncols] (concat rows).

(** A shape as Python prints the tuple: [()], [(3,)], [(2, 3)]. *)
Definition show_tuple (shape : list nat) : string :=
  match shape with
  | [n] => "(" +++ show_nat n +++ ",)"
  | _ => "(" +++ String.concat ", " (map show_nat shape) +++ ")"
  end.

End np.

(* ===================================================================== *)
(** ** pandas frames *)
(* ===================================================================== *)

Module pd.

(** A DataFrame: the length of its index and its columns in order.
    Index labels are not kept: pandas places an array by position, and
    the file is written with [index=False].  Where pandas goes by the
    labels of the index, when a Series is assigned, the outcome is a
    method of the Series (see [Series]). *)
Record DataFrame : Type := mkDataFrame {
  index_size : nat;
  cols : list (label * list cell)
}.

(** Every column is as long as the index. *)
Definition rectangular (df : DataFrame) : Prop :=
  Forall (fun c => length (snd c) = index_size df) (cols df).

Definition columns (df : DataFrame) : list label := map fst (cols df).

(** [df.shape] *)
Definition shape (df : DataFrame) : nat * nat :=
  (index_size df, length (cols df)).

Definition show_shape (df : DataFrame) : string :=
  "(" +++ show_nat (fst (shape df)) +++ ", " +++ show_nat (snd (shape df)) +++ ")".

(** [key in df.columns] *)
Definition label_in (key : label) (df : DataFrame) : bool :=
  existsb (label_eqb key) (columns df).

(** [df.copy()] *)
Definition copy (df : DataFrame) : DataFrame := df.

(** The number of columns labelled [key]. *)
Definition count_label (key : label) (df : DataFrame) : nat :=
  length (filter (fun c => label_eqb (fst c) key) (cols df)).

(** [df[key].values] for a label that names one column (for a label
    that names several, [df[key]] is a frame and its values a 2-D array:
    see [insert_2d]). *)
Definition getitem_values (df : DataFrame) (key : label) : outcome (list cell) :=
  match find (fun c => label_eqb (fst c) key) (cols df) with
  | Some c => Ok (snd c)
  | None => raise_with KeyError (show_label key)
  end.

(** The column stored under a label, as a lookup. *)
Definition lookup (df : DataFrame) (key : label) : option (list cell) :=
  option_map snd (find (fun c => label_eqb (fst c) key) (cols df)).

(** [df[key].iloc[i]]: the value in row [i] of the column [key]. *)
Definition iloc (df : DataFrame) (key : label) (i : nat) : option cell :=
  match lookup df key with
  | Some values => nth_error values i
  | None => None
  end.

(** [DataFrame._ensure_valid_index]: a frame whose index is empty takes
    the index of the first non-empty value assigned to it; the columns
    it already has are re-indexed and filled with NaN. *)
Definition ensure_valid_index (df : DataFrame) (value : list cell) : DataFrame :=
  if (index_size df =? 0) && (0 <? length value)
  then mkDataFrame (length value)
         (map (fun c => (fst c, repeat CNaN (length value))) (cols df))
  else df.

(** [DataFrame._sanitize_column]: fix the index if it is empty, then
    require the value to be as long as the index. *)
Definition sanitize_column (df : DataFrame) (value : list cell) : outcome DataFrame :=
  let df' := ensure_valid_index df value in
  if length value =? index_size df'
  then Ok df'
  else raise_with ValueError
         ("Length of values (" +++ show_nat (length value) +++
          ") does not match length of index (" +++ show_nat (index_size df') +++ ")").

(** [df.insert(loc, column, value)] *)
Definition insert (df : DataFrame) (loc : nat) (column : label) (value : list cell)
  : outcome DataFrame :=
  if label_in column df
  then raise_with ValueError ("cannot insert " +++ show_label column +++ ", already exists")
  else
    match sanitize_column df value with
    | Raise e => Raise e
    | Ok df' =>
        if length (cols df') <? loc
        then raise_with IndexError "index out of bounds"
        else Ok (mkDataFrame (index_size df')
                   (firstn loc (cols df') ++ (column, value) :: skipn loc (cols df')))
    end.

(** [df.insert(loc, column, value)] for the 2-D array of [rows] rows and
    [k > 1] columns that [other[column].values] is when [column] labels
    [k] columns of [other]: pandas refuses it, in [_ensure_valid_index]
    when the frame has no row, in [require_length_match] when the number
    of rows differs, in [BlockManager.insert] otherwise. *)
Definition insert_2d (df : DataFrame) (column : label) (rows k : nat) : outcome DataFrame :=
  if label_in column df
  then raise_with ValueError ("cannot insert " +++ show_label column +++ ", already exists")
  else if (index_size df =? 0) && (0 <? rows)
  then raise_with ValueError
         "Cannot set a frame with no defined index and a value that cannot be converted to a Series"
  else if negb (rows =? index_size df)
  then raise_with ValueError
         ("Length of values (" +++ show_nat rows +++
          ") does not match length of index (" +++ show_nat (index_size df) +++ ")")
  else raise_with ValueError
         ("Expected a 1D array, got an array with shape " +++ np.show_tuple [rows; k]).

(** The column [c] after [df[key] = value]. *)
Definition assign (key : label) (value : list cell) (c : label * list cell)
  : label * list cell :=
  if label_eqb (fst c) key then (fst c, value) else c.

(** The test of [DataFrame.__setitem__] for a duplicated column: [key]
    labels more than one column and the value has one element for each
    of them. *)
Definition spreads (df : DataFrame) (key : label) (n : nat) : bool :=
  (1 <? count_label key df) && (count_label key df =? n).

(** The columns after the branch for a duplicated column
    ([_setitem_array([key], value)]): the i-th column labelled [key]
    takes element [i] of the value on every row; nothing is compared
    with the length of the index. *)
Fixpoint spread (key : label) (rows : nat) (scalars : list cell)
    (cs : list (label * list cell)) : list (label * list cell) :=
  match cs with
  | [] => []
  | c :: cs =>
      if label_eqb (fst c) key
      then match scalars with
           | x :: rest => (fst c, repeat x rows) :: spread key rows rest cs
           | [] => c :: spread key rows [] cs
           end
      else c :: spread key rows scalars cs
  end.

(** The frame with [column] under [key]: an existing label keeps its
    place and takes the new values (every column of that label, should
    there be several); a new label is appended. *)
Definition place (df : DataFrame) (key : label) (column : list cell) : DataFrame :=
  if label_in key df
  then mkDataFrame (index_size df) (map (assign key column) (cols df))
  else mkDataFrame (index_size df) (cols df ++ [(key, column)]).

(** [df[key] = value] for an array: the branch for a duplicated column
    when its test holds; otherwise the empty-index rule, the check of the
    length, and the whole value under [key]. *)
Definition setitem (df : DataFrame) (key : label) (value : list cell) : outcome DataFrame :=
  if spreads df key (length value)
  then Ok (mkDataFrame (index_size df) (spread key (index_size df) value (cols df)))
  else
    match sanitize_column df value with
    | Raise e => Raise e
    | Ok df' => Ok (place df' key value)
    end.

(** A pandas Series as the runner can meet it.  Its values are kept;
    its row labels are not, so what pandas does by those labels is a
    method of the object: [s_reindex s df] is [s.reindex(df.index)], the
    element of the series for the label of each row of [df], NaN where
    the series has no such label (it raises when pandas cannot align the
    two indexes); [s_item s i] is [s[i]]. *)
Record Series : Type := mkSeries {
  s_values : list cell;
  s_reindex : DataFrame -> outcome (nat -> cell);
  s_item : nat -> outcome cell
}.

(** [[s[start], ..., s[start + n - 1]]], stopping at the first element
    that raises. *)
Fixpoint items (s : Series) (start n : nat) : outcome (list cell) :=
  match n with
  | 0 => Ok []
  | S n =>
      match s_item s start with
      | Raise e => Raise e
      | Ok x =>
          match items s (S start) n with
          | Raise e => Raise e
          | Ok xs => Ok (x :: xs)
          end
      end
  end.

(** [df[key] = s] for a Series: the branch for a duplicated column under
    the same test; otherwise a frame without rows takes the index of the
    series and its values, and a frame with rows takes the series aligned
    on its own index ([_reindex_for_setitem]): the length of the series
    is never compared with the length of the index. *)
Definition setitem_series (df : DataFrame) (key : label) (s : Series) : outcome DataFrame :=
  if spreads df key (length (s_values s))
  then
    match items s 0 (count_label key df) with
    | Raise e => Raise e
    | Ok scalars =>
        Ok (mkDataFrame (index_size df) (spread key (index_size df) scalars (cols df)))
    end
  else
    let df' := ensure_valid_index df (s_values s) in
    match
      (if index_size df =? 0
       then Ok (s_values s)
       else match s_reindex s df with
            | Ok at_row => Ok (map at_row (seq 0 (index_size df)))
            | Raise e => Raise e
            end)
    with
    | Raise e => Raise e
    | Ok column => Ok (place df' key column)
    end.

(** [df[keys]] for a list of labels: the columns of each label in the
    order asked for; a label that is not a column raises. *)
Definition getitem_list (df : DataFrame) (keys : list label) : outcome DataFrame :=
  match find (fun k => negb (label_in k df)) keys with
  | Some k => raise_with KeyError (show_label k)
  | None =>
      Ok (mkDataFrame (index_size df)
            (flat_map (fun k => filter (fun c => label_eqb (fst c) k) (cols df)) keys))
  end.

(** [df.head(n)]: the first [n] rows, or all but the last [-n] rows
    when [n] is negative. *)
Definition head (df : DataFrame) (n : Z) : DataFrame :=
  let k := if (0 <=? n)%Z
           then Nat.min (Z.to_nat n) (index_size df)
           else index_size df - Z.to_nat (- n) in
  mkDataFrame k (map (fun c => (fst c, firstn k (snd c))) (cols df)).

(** The text of [_check_values_indices_shape_match] for values of [r]
    rows and [c] columns under an index of another length. *)
Definition shape_mismatch (r c index : nat) : string :=
  if r =? 0
  then "Empty data passed with indices specified."
  else "Shape of passed values is " +++ np.show_tuple [r; c]
       +++ ", indices imply " +++ np.show_tuple [index; c].

(** [pd.DataFrame(values, index=index)] for an array: a 1-D array is one
    column, a 2-D array one column per array column, labelled 0, 1, ...;
    the array must have as many rows as the index, and no other rank is
    accepted. *)
Definition of_ndarray (values : np.ndarray) (index : nat) : outcome DataFrame :=
  match np.shape values with
  | [r] =>
      if r =? index
      then Ok (mkDataFrame index [(LInt 0, np.data values)])
      else raise_with ValueError (shape_mismatch r 1 index)
  | [r; c] =>
      if r =? index
      then Ok (mkDataFrame index
                 (map (fun j => (LInt (Z.of_nat j), np.column values j)) (seq 0 c)))
      else raise_with ValueError (shape_mismatch r c index)
  | shape => raise_with ValueError ("Must pass 2-d input. shape=" +++ np.show_tuple shape)
  end.

End pd.

(* ===================================================================== *)
(** ** Effects: the trace of a run and the monad of the script *)
(* ===================================================================== *)

Inductive stream : Type := stdout | stderr.

(** Which branch of the preview (line 124) printed the frame. *)
Inductive preview_branch : Type :=
| PreferredColumns   (* [print(results[preview_cols].head(args.head))] *)
| AllColumns.        (* [print(results.head(args.head))] *)

(** What a run does to the outside, in the order it does it.  A call to
    the pipeline is recorded with the frame it was given. *)
Inductive event : Type :=
| Print (to : stream) (text : string)
| PrintFrame (branch : preview_branch) (df : pd.DataFrame)
| ReadCsv (path : string)
| JoblibLoad (path : string)
| Transform (df : pd.DataFrame)
| Predict (df : pd.DataFrame)
| PredictProba (df : pd.DataFrame)
| ToCsv (path : string) (df : pd.DataFrame).

Definition trace : Type := list event.

(** A computation returns or raises, and leaves the events it caused, in
    order.  The script never inspects what it has printed, so a
    computation is its outcome together with its own events; what was done
    before an exception stays done. *)
Definition M (A : Type) : Type := (outcome A * trace)%type.

Definition ret {A : Type} (a : A) : M A := (Ok a, []).

Definition bind {A B : Type} (m : M A) (f : A -> M B) : M B :=
  match m with
  | (Ok a, t) => let (o, t') := f a in (o, t ++ t')
  | (Raise e, t) => (Raise e, t)
  end.

Notation "x <- m ;; k" := (bind m (fun x => k))
  (at level 61, m at next level, right associativity).
Notation "m ;; k" := (bind m (fun _ => k))
  (at level 61, right associativity).

Definition emit (ev : event) : M unit := (Ok tt, [ev]).

Definition lift {A : Type} (o : outcome A) : M A := (o, []).

(** An outside call: record it, then return or raise as it does. *)
Definition call {A : Type} (ev : event) (o : outcome A) : M A := (o, [ev]).

(** [print(text, file=to)] *)
Definition print (to : stream) (text : string) : M unit := emit (Print to text).

(** [try: body / except Exception as e: handler e] *)
Definition try_except {A : Type} (body : M A) (handler : exception -> M A) : M A :=
  match body with
  | (Ok a, t) => (Ok a, t)
  | (Raise e, t) => let (o, t') := handler e in (o, t ++ t')
  end.

(* ===================================================================== *)
(** ** The pipeline and the environment of a run *)
(* ===================================================================== *)

(** What a cleaning stage may hand back: a frame of its own, a bare
    array that the script wraps in a frame, or the very table it was
    given. *)
Inductive transformed : Type :=
| TFrame (df : pd.DataFrame)
| TArray (a : np.ndarray)
| TSame.

(** A stage of the pipeline.  The table is passed as an object, which
    the stage may edit in place: [transform_leaves df] is what the call
    leaves in the table it received as [df], whether it returns or
    raises (the identity for a stage that works on a copy). *)
Record step : Type := mkStep {
  transform : pd.DataFrame -> outcome transformed;
  transform_leaves : pd.DataFrame -> pd.DataFrame
}.

(** What [predict] may answer: an array (or a list), which pandas places
    by position, or a Series, which pandas aligns on its index. *)
Inductive answer : Type :=
| AArray (values : list cell)
| ASeries (s : pd.Series).

(** The elements of the answer, in its own order. *)
Definition values_of (predictions : answer) : list cell :=
  match predictions with
  | AArray values => values
  | ASeries s => pd.s_values s
  end.

(** [len(predictions)] *)
Definition len (predictions : answer) : nat := length (values_of predictions).

(** The unpickled object.  [named_steps] is [None] when the object has no
    such attribute; [predict_proba] is [None] when the estimator does not
    offer it (the attribute access raises).  The operations are functions
    of the table they receive, and [predict_leaves] and
    [predict_proba_leaves] are what the calls leave in that table.  A
    frame or an array that the pipeline has handed back is not edited by
    a later call, unless it is the table itself. *)
Record Pipeline : Type := mkPipeline {
  named_steps : option (list (string * step));
  predict : pd.DataFrame -> outcome answer;
  predict_leaves : pd.DataFrame -> pd.DataFrame;
  predict_proba : option (pd.DataFrame -> outcome np.ndarray);
  predict_proba_leaves : pd.DataFrame -> pd.DataFrame
}.

(** [d[key]] / [key in d] on the dict of named steps. *)
Definition dict_get (d : list (string * step)) (key : string) : option step :=
  option_map snd (find (fun kv => String.eqb (fst kv) key) d).

(** The file system and the library calls whose results the script only
    passes along. *)
Record world : Type := mkWorld {
  path_exists : string -> bool;                         (* os.path.exists *)
  read_csv : string -> outcome pd.DataFrame;            (* pd.read_csv *)
  joblib_load : string -> outcome Pipeline;             (* joblib.load *)
  to_csv : string -> pd.DataFrame -> outcome unit;      (* DataFrame.to_csv(path, index=False) *)
  bincount_astype_int : answer -> outcome string;       (* np.bincount(p.astype(int)), rendered *)
  value_counts_sort_index : answer -> outcome string    (* pd.Series(p).value_counts().sort_index(), rendered *)
}.

Record arguments : Type := mkArguments {
  csv : string;
  pkl : string;
  out : string;
  id_col : string;
  head : Z
}.

(* ===================================================================== *)
(** ** The script *)
(* ===================================================================== *)

Definition Prediccion : label := LStr "Prediccion".
Definition Probabilidad_No_Default : label := LStr "Probabilidad_No_Default".
Definition Probabilidad_Default : label := LStr "Probabilidad_Default".
Definition Probabilidad : label := LStr "Probabilidad".

Definition aviso_limpio : string := "[Aviso] No fue posible obtener el DataFrame limpio: ".
Definition aviso_proba : string :=
  "[Aviso] El estimador no soporta predict_proba; no se guardarán probabilidades.".

(** The stage [named_steps["cleaning"]], when the pipeline has one. *)
Definition cleaning_stage (pipeline : Pipeline) : option step :=
  match named_steps pipeline with
  | Some steps => dict_get steps "cleaning"
  | None => None
  end.

(** The table [df_raw] once line 31 has run: what the cleaning stage
    leaves in it, and the table itself when there is no stage to call. *)
Definition table_after_cleaning (pipeline : Pipeline) (df_raw : pd.DataFrame)
  : pd.DataFrame :=
  match cleaning_stage pipeline with
  | Some cleaning => transform_leaves cleaning df_raw
  | None => df_raw
  end.

(** Lines 24-40.  [df_raw] is the table as the function receives it.
    What is read from the table after the call to [transform] (its index
    on line 34, the copy of line 40) is read from the table as the call
    left it; the handler is reached after that call only. *)
Definition get_cleaned_df_from_pipeline (pipeline : Pipeline) (df_raw : pd.DataFrame)
  : M pd.DataFrame :=
  try_except
    (match named_steps pipeline with
     | Some steps =>
         match dict_get steps "cleaning" with
         | Some cleaning =>
             cleaned <- call (Transform df_raw) (transform cleaning df_raw) ;;
             let df_raw := transform_leaves cleaning df_raw in
             match cleaned with
             | TFrame df => ret df
             | TSame => ret df_raw
             | TArray a => lift (pd.of_ndarray a (pd.index_size df_raw))
             end
         | None => ret (pd.copy df_raw)
         end
     | None => ret (pd.copy df_raw)
     end)
    (fun e =>
       print stderr (aviso_limpio +++ description e) ;;
       ret (pd.copy (table_after_cleaning pipeline df_raw))).

(** Whether [cleaned_test_data] is the table itself: the stage handed
    back the object it was given. *)
Definition hands_back_the_table (pipeline : Pipeline) (df_raw : pd.DataFrame) : bool :=
  match cleaning_stage pipeline with
  | Some cleaning =>
      match transform cleaning df_raw with
      | Ok TSame => true
      | _ => false
      end
  | None => false
  end.

(** The table once line 77 has run: what [predict_proba] leaves in it,
    and the table itself when the estimator has no such method. *)
Definition table_after_predict_proba (pipeline : Pipeline) (test_data : pd.DataFrame)
  : pd.DataFrame :=
  match predict_proba pipeline with
  | Some _ => predict_proba_leaves pipeline test_data
  | None => test_data
  end.

(** Lines 76-82: probabilities when the estimator offers them. *)
Definition try_predict_proba (pipeline : Pipeline) (test_data : pd.DataFrame)
  : M (option np.ndarray * bool) :=
  try_except
    (probabilities <-
       match predict_proba pipeline with
       | Some f => call (PredictProba test_data) (f test_data)
       | None => lift (raise_with AttributeError "predict_proba")
       end ;;
     ret (Some probabilities, true))
    (fun _ =>
       print stdout aviso_proba ;;
       ret (None, false)).

(** [probabilities.ndim == 2 and probabilities.shape[1] >= 2] *)
Definition two_columns (probabilities : np.ndarray) : bool :=
  (np.ndim probabilities =? 2) && (2 <=? np.shape_at probabilities 1).

(** [results[key] = predictions] *)
Definition setitem_answer (results : pd.DataFrame) (key : label) (predictions : answer)
  : outcome pd.DataFrame :=
  match predictions with
  | AArray values => pd.setitem results key values
  | ASeries s => pd.setitem_series results key s
  end.

(** Lines 85-100: the results frame.  [test_data] and [cleaned_test_data]
    are the two tables as they are when line 85 is reached. *)
Definition assemble (args : arguments) (test_data cleaned_test_data : pd.DataFrame)
    (predictions : answer) (probabilities : option np.ndarray) (has_proba : bool)
  : outcome pd.DataFrame :=
  let results := pd.copy cleaned_test_data in
  match
    (if pd.label_in (LStr (id_col args)) test_data
        && negb (pd.label_in (LStr (id_col args)) results)
     then
       if pd.count_label (LStr (id_col args)) test_data =? 1
       then
         match pd.getitem_values test_data (LStr (id_col args)) with
         | Ok values => pd.insert results 0 (LStr (id_col args)) values
         | Raise e => Raise e
         end
       else pd.insert_2d results (LStr (id_col args)) (pd.index_size test_data)
              (pd.count_label (LStr (id_col args)) test_data)
     else Ok results)
  with
  | Raise e => Raise e
  | Ok results =>
      match setitem_answer results Prediccion predictions with
      | Raise e => Raise e
      | Ok results =>
          if has_proba then
            match probabilities with
            | None => raise_with AttributeError "ndim"
            | Some probabilities =>
                if two_columns probabilities then
                  match pd.setitem results Probabilidad_No_Default
                          (np.column probabilities 0) with
                  | Raise e => Raise e
                  | Ok results =>
                      pd.setitem results Probabilidad_Default (np.column probabilities 1)
                  end
                else pd.setitem results Probabilidad (np.ravel probabilities)
            end
          else Ok results
      end
  end.

(** Lines 116-127: the preview. *)
Definition cols_show (args : arguments) (results : pd.DataFrame)
    (probabilities : option np.ndarray) (has_proba : bool) : list label :=
  let cols := [Prediccion] in
  let cols :=
    if has_proba && match probabilities with
                    | Some p => two_columns p
                    | None => false
                    end
    then cols ++ [Probabilidad_Default] else cols in
  if pd.label_in (LStr (id_col args)) results
  then [LStr (id_col args)] ++ cols else cols.

Definition preview (args : arguments) (results : pd.DataFrame)
    (probabilities : option np.ndarray) (has_proba : bool) : M unit :=
  let preview_cols :=
    filter (fun c => pd.label_in c results)
           (cols_show args results probabilities has_proba) in
  print stdout (nl +++ "Primeras " +++ show_Z (head args) +++ " filas:") ;;
  match preview_cols with
  | _ :: _ =>
      shown <- lift (pd.getitem_list results preview_cols) ;;
      emit (PrintFrame PreferredColumns (pd.head shown (head args)))
  | [] => emit (PrintFrame AllColumns (pd.head results (head args)))
  end.

(** Lines 60-127: the body of the [try].  [test_data] names one object
    from line 61 on: after each call that receives it, the name stands
    for the table as that call left it; and when the cleaning stage
    handed that object back, [cleaned_test_data] names it too. *)
Definition main_body (args : arguments) (w : world) : M unit :=
  test_data <- call (ReadCsv (csv args)) (read_csv w (csv args)) ;;
  print stdout (nl +++ "=== INFERENCIA EN ARCHIVO DE PRUEBA ===") ;;
  print stdout ("Archivo de entrada: " +++ csv args) ;;
  print stdout ("Forma del archivo de prueba (crudo): " +++ pd.show_shape test_data) ;;
  pipeline <- call (JoblibLoad (pkl args)) (joblib_load w (pkl args)) ;;
  cleaned_test_data <- get_cleaned_df_from_pipeline pipeline test_data ;;
  let same_object := hands_back_the_table pipeline test_data in
  let test_data := table_after_cleaning pipeline test_data in
  print stdout ("Forma del archivo de prueba (limpio): " +++ pd.show_shape cleaned_test_data) ;;
  predictions <- call (Predict test_data) (predict pipeline test_data) ;;
  let test_data := predict_leaves pipeline test_data in
  proba <- try_predict_proba pipeline test_data ;;
  let test_data := table_after_predict_proba pipeline test_data in
  let cleaned_test_data := if same_object then test_data else cleaned_test_data in
  let probabilities := fst proba in
  let has_proba := snd proba in
  results <- lift (assemble args test_data cleaned_test_data predictions
                     probabilities has_proba) ;;
  call (ToCsv (out args) results) (to_csv w (out args) results) ;;
  print stdout ("Resultados (LIMPIO) guardados en '" +++ out args +++ "'") ;;
  binc_str <- try_except
                (lift (bincount_astype_int w predictions))
                (fun _ => lift (value_counts_sort_index w predictions)) ;;
  print stdout ("Predicciones realizadas: " +++ show_nat (len predictions)) ;;
  print stdout ("Distribución de predicciones: " +++ binc_str) ;;
  preview args results probabilities has_proba.

Definition msg_csv_missing (args : arguments) : string :=
  nl +++ "Archivo '" +++ csv args +++
  "' no encontrado. Coloca el archivo en el directorio actual o indica la ruta correcta.".

Definition msg_pkl_missing (args : arguments) : string :=
  nl +++ "Archivo de pipeline '" +++ pkl args +++ "' no encontrado.".

(** Lines 51-134, after the arguments are parsed: the exit status of the
    process (0 when [main] returns) and everything the run did. *)
Definition main (args : arguments) (w : world) : Z * trace :=
  if negb (path_exists w (csv args)) then
    (1%Z, [Print stderr (msg_csv_missing args)])
  else if negb (path_exists w (pkl args)) then
    (1%Z, [Print stderr (msg_pkl_missing args)])
  else
    match main_body args w with
    | (Ok _, t) => (0%Z, t)
    | (Raise e, t) =>
        if is_FileNotFoundError e
        then (1%Z, t ++ [Print stderr (nl +++ "Archivo no encontrado: " +++ description e)])
        else (2%Z, t ++ [Print stderr (nl +++ "Error al procesar inferencia: " +++ description e)])
    end.

(* ===================================================================== *)
(** ** Vocabulary of the properties *)
(* ===================================================================== *)

(** The table when [predict_proba] is tried, and the two tables when the
    results are assembled, for the table [raw] that was read. *)
Definition table_after_predict (pipeline : Pipeline) (raw : pd.DataFrame) : pd.DataFrame :=
  predict_leaves pipeline (table_after_cleaning pipeline raw).

Definition table_at_assembly (pipeline : Pipeline) (raw : pd.DataFrame) : pd.DataFrame :=
  table_after_predict_proba pipeline (table_after_predict pipeline raw).

Definition cleaned_at_assembly (pipeline : Pipeline) (raw cleaned : pd.DataFrame)
  : pd.DataFrame :=
  if hands_back_the_table pipeline raw then table_at_assembly pipeline raw else cleaned.

(** No call of the run edits the table that was read. *)
Definition leaves_the_table_alone (pipeline : Pipeline) (raw : pd.DataFrame) : Prop :=
  table_after_cleaning pipeline raw = raw
  /\ predict_leaves pipeline raw = raw
  /\ table_after_predict_proba pipeline raw = raw.

(** The label names at most one column of the frame. *)
Definition not_repeated (l : label) (df : pd.DataFrame) : Prop :=
  pd.count_label l df <= 1.

(** The three labels under which probabilities are stored. *)
Definition probability_label (l : label) : bool :=
  label_eqb l Probabilidad_No_Default
  || label_eqb l Probabilidad_Default
  || label_eqb l Probabilidad.

(** The labels the runner writes itself. *)
Definition output_label (l : label) : bool :=
  label_eqb l Prediccion || probability_label l.

(** The columns of a frame that carry none of the labels the runner
    writes. *)
Definition input_columns (df : pd.DataFrame) : list (label * list cell) :=
  filter (fun c => negb (output_label (fst c))) (pd.cols df).

(** Among them, the columns that do not carry the identifier label
    either. *)
Definition feature_columns (id : label) (df : pd.DataFrame) : list (label * list cell) :=
  filter (fun c => negb (output_label (fst c)) && negb (label_eqb (fst c) id)) (pd.cols df).

(** Modelled from the spec: the pipeline is unpickled at run time and is
    not part of the sources; section 6 gives its interface,
    [predict(table) -> sequence[table.row_count]] and
    [predict_proba(table) -> matrix[table.row_count][k]] (or a 1-D
    structure, section 3).  In the run that reads [raw], the pipeline
    answers with one label per row of the table it is given and with an
    array whose first dimension is the number of rows of the table it is
    given.  The script checks none of this. *)
Definition honours_interface (pipeline : Pipeline) (raw : pd.DataFrame) : Prop :=
  (forall predictions,
      predict pipeline (table_after_cleaning pipeline raw) = Ok predictions ->
      len predictions = pd.index_size (table_after_cleaning pipeline raw))
  /\ (forall f a,
         predict_proba pipeline = Some f ->
         f (table_after_predict pipeline raw) = Ok a ->
         np.well_shaped a
         /\ exists rest,
             np.shape a = pd.index_size (table_after_predict pipeline raw) :: rest).

(** [predict] answers with an array, whose elements line 91 stores by
    position; the elements of a Series would be aligned on its index. *)
Definition answers_by_position (pipeline : Pipeline) (raw : pd.DataFrame) : Prop :=
  forall predictions,
    predict pipeline (table_after_cleaning pipeline raw) = Ok predictions ->
    exists values, predictions = AArray values.

(** Exit status chosen by the two clauses of the outer handler. *)
Definition status_of (e : exception) : Z :=
  if is_FileNotFoundError e then 1%Z else 2%Z.

(** The message quotes the path. *)
Definition names (msg path : string) : Prop :=
  exists before after, msg = before +++ "'" +++ path +++ "'" +++ after.

(** The event only prints: no table is read, no pipeline is loaded or
    called, no file is written. *)
Definition light (ev : event) : Prop :=
  match ev with
  | Print _ _ | PrintFrame _ _ => True
  | _ => False
  end.

(** The five texts the script sends to the error stream. *)
Definition error_text (args : arguments) (text : string) : Prop :=
  text = msg_csv_missing args
  \/ text = msg_pkl_missing args
  \/ (exists e, text = aviso_limpio +++ description e)
  \/ (exists e, text = nl +++ "Archivo no encontrado: " +++ description e)
  \/ (exists e, text = nl +++ "Error al procesar inferencia: " +++ description e).

(** The Results Table of a run: the frame assembled on lines 85-100 from
    the table read from the input file as the calls of the run have left
    it, the pipeline loaded from the artifact, its cleaned table, its
    predictions and its probabilities. *)
Definition results_table (args : arguments) (w : world) (results : pd.DataFrame) : Prop :=
  exists raw pipeline cleaned tc predictions probabilities has_proba tp,
    read_csv w (csv args) = Ok raw
    /\ joblib_load w (pkl args) = Ok pipeline
    /\ get_cleaned_df_from_pipeline pipeline raw = (Ok cleaned, tc)
    /\ predict pipeline (table_after_cleaning pipeline raw) = Ok predictions
    /\ try_predict_proba pipeline (table_after_predict pipeline raw)
       = (Ok (probabilities, has_proba), tp)
    /\ assemble args (table_at_assembly pipeline raw)
         (cleaned_at_assembly pipeline raw cleaned)
         predictions probabilities has_proba = Ok results.

(** The table the named call receives in a run: the table read from the
    input file for [transform], that table as the cleaning stage left it
    for [predict], and as [predict] left it for [predict_proba]. *)
Definition table_given (args : arguments) (w : world)
    (after : Pipeline -> pd.DataFrame -> pd.DataFrame) (df : pd.DataFrame) : Prop :=
  exists raw pipeline,
    read_csv w (csv args) = Ok raw
    /\ joblib_load w (pkl args) = Ok pipeline
    /\ df = after pipeline raw.

(** What an event of a run can be: each outside call is made on the path
    given on the command line, every pipeline operation receives the
    table read from the input file as the calls before it have left it,
    the frame written is the Results Table, the preview prints the
    preferred columns, and the error stream receives one of the five
    texts. *)
Definition run_event (args : arguments) (w : world) (ev : event) : Prop :=
  match ev with
  | Print stdout _ => True
  | Print stderr text => error_text args text
  | PrintFrame branch _ => branch = PreferredColumns
  | ReadCsv path => path = csv args
  | JoblibLoad path => path = pkl args
  | Transform df => read_csv w (csv args) = Ok df
  | Predict df => table_given args w table_after_cleaning df
  | PredictProba df => table_given args w table_after_predict df
  | ToCsv path df => path = out args /\ results_table args w df
  end.

(** The events of a run up to and including the call to [predict_proba]. *)
Definition events_before_assembly (args : arguments) (pipeline : Pipeline)
    (raw cleaned : pd.DataFrame) (tc tp : trace) : trace :=
  [ReadCsv (csv args);
   Print stdout (nl +++ "=== INFERENCIA EN ARCHIVO DE PRUEBA ===");
   Print stdout ("Archivo de entrada: " +++ csv args);
   Print stdout ("Forma del archivo de prueba (crudo): " +++ pd.show_shape raw);
   JoblibLoad (pkl args)]
  ++ tc
  ++ [Print stdout ("Forma del archivo de prueba (limpio): " +++ pd.show_shape cleaned);
      Predict (table_after_cleaning pipeline raw)]
  ++ tp.

(** The place of an outside call in the straight line of the script:
    [read_csv] (line 61), [joblib.load] (line 66), the [transform] of the
    cleaning stage (line 31, reached from line 69), [predict] (line 73),
    [predict_proba] (line 77) and [to_csv] (line 103).  Printing is not
    an outside call. *)
Definition stage (ev : event) : option nat :=
  match ev with
  | ReadCsv _ => Some 1
  | JoblibLoad _ => Some 2
  | Transform _ => Some 3
  | Predict _ => Some 4
  | PredictProba _ => Some 5
  | ToCsv _ _ => Some 6
  | Print _ _ | PrintFrame _ _ => None
  end.

(** The outside calls of a trace, in the order they were made. *)
Definition stages (t : trace) : list nat :=
  flat_map (fun ev => match stage ev with
                      | Some k => [k]
                      | None => []
                      end) t.

(** The lines a trace sends to the error stream, in order. *)
Definition stderr_lines (t : trace) : list string :=
  flat_map (fun ev => match ev with
                      | Print stderr text => [text]
                      | _ => []
                      end) t.

(** No file is written along the trace. *)
Definition writes_nothing (t : trace) : Prop :=
  forall path df, ~ In (ToCsv path df) t.

(** The five events every run leaves once the table is read and the
    pipeline is asked for (lines 61-66). *)
Definition events_of_loading (args : arguments) (test_data : pd.DataFrame) : trace :=
  [ReadCsv (csv args);
   Print stdout (nl +++ "=== INFERENCIA EN ARCHIVO DE PRUEBA ===");
   Print stdout ("Archivo de entrada: " +++ csv args);
   Print stdout ("Forma del archivo de prueba (crudo): " +++ pd.show_shape test_data);
   JoblibLoad (pkl args)].

(** The message of the outer handler (lines 129-134) for the exception
    that left the [try]. *)
Definition closing_message (e : exception) : string :=
  (if is_FileNotFoundError e
   then nl +++ "Archivo no encontrado: "
   else nl +++ "Error al procesar inferencia: ") +++ description e.

(** The number of rows [df.head(n)] keeps of a frame of [rows] rows. *)
Definition head_rows (n : Z) (rows : nat) : nat :=
  if (0 <=? n)%Z then Nat.min (Z.to_nat n) rows else rows - Z.to_nat (- n).

(* ===================================================================== *)
(** ** Concrete runs *)
(* ===================================================================== *)

Module Examples.

(** A stage and a pipeline that work on copies of the table they are
    given: no call edits it. *)
Definition stage_on_copy (transform : pd.DataFrame -> outcome transformed) : step :=
  mkStep transform (fun df => df).

Definition on_copies (named_steps : option (list (string * step)))
    (predict : pd.DataFrame -> outcome answer)
    (predict_proba : option (pd.DataFrame -> outcome np.ndarray)) : Pipeline :=
  mkPipeline named_steps predict (fun df => df) predict_proba (fun df => df).

(** The table of the scenario of section 8: two records with an
    identifier and one feature. *)
Definition raw_table : pd.DataFrame :=
  pd.mkDataFrame 2 [(LStr "ID", [CInt 1; CInt 2]); (LStr "x", [CInt 5; CInt 7])].

Definition two_class_proba : np.ndarray :=
  np.array2 2 [[CFloat (8 # 10); CFloat (2 # 10)]; [CFloat (3 # 10); CFloat (7 # 10)]].

(** A pipeline without a cleaning stage that answers [0, 1] and the
    probabilities of the scenario. *)
Definition plain_pipeline : Pipeline :=
  on_copies None (fun _ => Ok (AArray [CInt 0; CInt 1])) (Some (fun _ => Ok two_class_proba)).

(** The same pipeline with a [predict_proba] that raises. *)
Definition no_proba_pipeline : Pipeline :=
  on_copies None (fun _ => Ok (AArray [CInt 0; CInt 1]))
    (Some (fun _ => raise_with OtherException "predict_proba failed")).

(** A cleaning stage that drops the identifier, as cleaning stages do
    before modelling. *)
Definition drop_first_column : step :=
  stage_on_copy (fun df => Ok (TFrame (pd.mkDataFrame (pd.index_size df) (tl (pd.cols df))))).

Definition cleaning_pipeline : Pipeline :=
  on_copies (Some [("cleaning", drop_first_column)])
    (fun _ => Ok (AArray [CInt 0; CInt 1])) (Some (fun _ => Ok two_class_proba)).

(** A cleaning stage that raises. *)
Definition broken_cleaning_pipeline : Pipeline :=
  on_copies (Some [("cleaning", stage_on_copy (fun _ => raise_with ValueError "bad input"))])
    (fun _ => Ok (AArray [CInt 0; CInt 1])) (Some (fun _ => Ok two_class_proba)).

Definition files (table : pd.DataFrame) (pipeline : Pipeline) : world :=
  mkWorld (fun _ => true) (fun _ => Ok table) (fun _ => Ok pipeline) (fun _ _ => Ok tt)
    (fun _ => Ok "[1 1]") (fun _ => Ok "0    1").

(** The same files for a run in which neither way of counting the
    predictions works. *)
Definition files_uncountable (table : pd.DataFrame) (pipeline : Pipeline) : world :=
  mkWorld (fun _ => true) (fun _ => Ok table) (fun _ => Ok pipeline) (fun _ _ => Ok tt)
    (fun _ => raise_with ValueError "object too deep for desired array")
    (fun _ => raise_with ValueError "Data must be 1-dimensional").

(** Both files are on disk and the table cannot be parsed. *)
Definition unreadable_table : world :=
  mkWorld (fun _ => true)
    (fun _ => raise_with OtherException "Error tokenizing data")
    (fun _ => Ok plain_pipeline)
    (fun _ _ => Ok tt) (fun _ => Ok "") (fun _ => Ok "").

(** Neither file is on disk. *)
Definition nothing_on_disk : world :=
  mkWorld (fun _ => false)
    (fun _ => raise_with FileNotFoundError "No such file or directory")
    (fun _ => raise_with FileNotFoundError "No such file or directory")
    (fun _ _ => Ok tt) (fun _ => Ok "") (fun _ => Ok "").

Definition command_line : arguments :=
  mkArguments "test_inferencia.csv" "random_forest_pipeline.pkl"
    "resultados_inferencia_limpio.csv" "ID" 10.

(** A table whose identifier column is called [Prediccion], and the
    command line that names it with [--id-col Prediccion]. *)
Definition table_with_Prediccion_id : pd.DataFrame :=
  pd.mkDataFrame 2 [(LStr "Prediccion", [CInt 101; CInt 102]); (LStr "x", [CInt 5; CInt 7])].

Definition command_line_Prediccion_id : arguments :=
  mkArguments "test_inferencia.csv" "random_forest_pipeline.pkl"
    "resultados_inferencia_limpio.csv" "Prediccion" 10.

(** The cleaned table of that run: the cleaning stage dropped the
    identifier. *)
Definition cleaned_without_id : pd.DataFrame :=
  pd.mkDataFrame 2 [(LStr "x", [CInt 5; CInt 7])].

(** The file written by an earlier run of the script on the table of the
    scenario, given back to the script as its input. *)
Definition previous_results : pd.DataFrame :=
  pd.mkDataFrame 2
    [(LStr "ID", [CInt 1; CInt 2]);
     (LStr "x", [CInt 5; CInt 7]);
     (LStr "Prediccion", [CInt 0; CInt 1]);
     (LStr "Probabilidad_No_Default", [CFloat (8 # 10); CFloat (3 # 10)]);
     (LStr "Probabilidad_Default", [CFloat (2 # 10); CFloat (7 # 10)])].

(** A cleaning stage that drops the rows with a missing value, and a
    pipeline that runs it before its model: [predict] answers with one
    label for each row the cleaning stage keeps. *)
Definition is_nan (c : cell) : bool :=
  match c with
  | CNaN => true
  | _ => false
  end.

Definition complete_rows (df : pd.DataFrame) : list nat :=
  filter (fun i => forallb (fun c => negb (is_nan (nth i (snd c) CNaN))) (pd.cols df))
         (seq 0 (pd.index_size df)).

Definition dropna (df : pd.DataFrame) : pd.DataFrame :=
  pd.mkDataFrame (length (complete_rows df))
    (map (fun c => (fst c, map (fun i => nth i (snd c) CNaN) (complete_rows df)))
         (pd.cols df)).

Definition row_dropping_pipeline : Pipeline :=
  on_copies (Some [("cleaning", stage_on_copy (fun df => Ok (TFrame (dropna df))))])
    (fun df => Ok (AArray (map (fun _ => CInt 0) (complete_rows df))))
    None.

(** Two records, the second with a missing feature. *)
Definition table_with_missing_value : pd.DataFrame :=
  pd.mkDataFrame 2 [(LStr "ID", [CInt 1; CInt 2]); (LStr "x", [CInt 5; CNaN])].

(** A pipeline whose cleaning stage drops the rows with a missing value
    while [predict] answers with one label for every row it is given. *)
Definition misaligned_pipeline : Pipeline :=
  on_copies (Some [("cleaning", stage_on_copy (fun df => Ok (TFrame (dropna df))))])
    (fun df => Ok (AArray (repeat (CInt 0) (pd.index_size df))))
    None.

(** A Series labelled 0, 1, ... as the rows of the table it was computed
    from: on a frame that keeps the first of those rows, the element for
    row [i] is element [i]. *)
Definition labelled_by_row (values : list cell) : pd.Series :=
  pd.mkSeries values
    (fun _ => Ok (fun i => nth i values CNaN))
    (fun i => Ok (nth i values CNaN)).

(** The same pipeline with a [predict] that answers with such a
    Series. *)
Definition series_pipeline : Pipeline :=
  on_copies (Some [("cleaning", stage_on_copy (fun df => Ok (TFrame (dropna df))))])
    (fun df => Ok (ASeries (labelled_by_row (repeat (CInt 0) (pd.index_size df)))))
    None.

(** A pipeline whose [predict_proba] answers with three values for the
    two rows of the table. *)
Definition flat_proba_pipeline : Pipeline :=
  on_copies None (fun _ => Ok (AArray [CInt 0; CInt 1]))
    (Some (fun _ => Ok (np.mk_ndarray [3]
                          [CFloat (8 # 10); CFloat (3 # 10); CFloat (5 # 10)]))).

(** The values of a frame as a 2-D array, row by row. *)
Definition to_numpy (df : pd.DataFrame) : np.ndarray :=
  np.array2 (length (pd.cols df))
    (map (fun i => map (fun c => nth i (snd c) CNaN) (pd.cols df))
         (seq 0 (pd.index_size df))).

(** A cleaning stage that hands back a bare array, as the transformers
    of sklearn do by default. *)
Definition array_cleaning_pipeline : Pipeline :=
  on_copies (Some [("cleaning", stage_on_copy (fun df => Ok (TArray (to_numpy df))))])
    (fun _ => Ok (AArray [CInt 0; CInt 1])) None.

(** A cleaning stage that hands back an array of a single row, whatever
    the table. *)
Definition one_row_cleaning_pipeline : Pipeline :=
  on_copies (Some [("cleaning", stage_on_copy (fun _ => Ok (TArray (np.array2 1 [[CInt 5]]))))])
    (fun _ => Ok (AArray [CInt 0; CInt 1])) None.

(** Two records, each with a missing feature: the cleaning stage that
    drops incomplete rows leaves none. *)
Definition table_without_complete_rows : pd.DataFrame :=
  pd.mkDataFrame 2 [(LStr "ID", [CInt 1; CInt 2]); (LStr "x", [CNaN; CNaN])].

(** A cleaning stage that drops the identifier from the table it is
    given, in place, and hands that table back
    ([X.drop(columns=..., inplace=True); return X]). *)
Definition drop_first_column_in_place : step :=
  mkStep (fun _ => Ok TSame)
         (fun df => pd.mkDataFrame (pd.index_size df) (tl (pd.cols df))).

Definition in_place_pipeline : Pipeline :=
  mkPipeline (Some [("cleaning", drop_first_column_in_place)])
    (fun _ => Ok (AArray [CInt 0; CInt 1])) (fun df => df)
    (Some (fun _ => Ok two_class_proba)) (fun df => df).

(** A cleaning stage that edits the table in place and then raises. *)
Definition half_done_pipeline : Pipeline :=
  mkPipeline
    (Some [("cleaning",
            mkStep (fun _ => raise_with ValueError "bad input")
                   (fun df => pd.mkDataFrame (pd.index_size df) (tl (pd.cols df))))])
    (fun _ => Ok (AArray [CInt 0; CInt 1])) (fun df => df)
    None (fun df => df).

(** A table with a column and no record, and a pipeline that answers
    with one label whatever the table. *)
Definition table_without_rows : pd.DataFrame :=
  pd.mkDataFrame 0 [(LStr "x", [])].

Definition one_label_pipeline : Pipeline :=
  on_copies None (fun _ => Ok (AArray [CInt 0])) None.

(** A pipeline whose [predict_proba] answers with a 1-D array of one
    value per row. *)
Definition flat_pipeline : Pipeline :=
  on_copies None (fun _ => Ok (AArray [CInt 0; CInt 1]))
    (Some (fun _ => Ok (np.mk_ndarray [2] [CFloat (2 # 10); CFloat (7 # 10)]))).

(** Both files were on disk when they were checked; the table is gone
    when it is read. *)
Definition vanished_table : world :=
  mkWorld (fun _ => true)
    (fun _ => raise_with FileNotFoundError "No such file or directory")
    (fun _ => Ok plain_pipeline)
    (fun _ _ => Ok tt) (fun _ => Ok "") (fun _ => Ok "").

(** A cleaned table with two columns called [Prediccion]. *)
Definition twice_Prediccion : pd.DataFrame :=
  pd.mkDataFrame 2 [(LStr "Prediccion", [CInt 9; CInt 9]); (LStr "Prediccion", [CInt 8; CInt 8])].

End Examples.


(* ===================================================================== *)
(** ** The two scenarios of section 8 *)
(* ===================================================================== *)

(** Input [{ID:1,x:5},{ID:2,x:7}], no cleaning stage, predictions
    [0, 1], probabilities [[0.8,0.2],[0.3,0.7]]: the rows written are
    [{ID:1,x:5,Prediccion:0,Probabilidad_No_Default:0.8,Probabilidad_Default:0.2}]
    and
    [{ID:2,x:7,Prediccion:1,Probabilidad_No_Default:0.3,Probabilidad_Default:0.7}]. *)
Example scenario_with_probabilities :
  fst (main Examples.command_line
         (Examples.files Examples.raw_table Examples.plain_pipeline)) = 0%Z
  /\ In (ToCsv "resultados_inferencia_limpio.csv"
           (pd.mkDataFrame 2
              [(LStr "ID", [CInt 1; CInt 2]);
               (LStr "x", [CInt 5; CInt 7]);
               (LStr "Prediccion", [CInt 0; CInt 1]);
               (LStr "Probabilidad_No_Default", [CFloat (8 # 10); CFloat (3 # 10)]);
               (LStr "Probabilidad_Default", [CFloat (2 # 10); CFloat (7 # 10)])]))
        (snd (main Examples.command_line
                (Examples.files Examples.raw_table Examples.plain_pipeline))).
Proof. split; [reflexivity|]. vm_compute. do 8 right. left. reflexivity. Qed.

(** The same input with a pipeline that raises on [predict_proba]: the
    same rows without the two probability columns, and exit status 0. *)
Example scenario_without_probabilities :
  fst (main Examples.command_line
         (Examples.files Examples.raw_table Examples.no_proba_pipeline)) = 0%Z
  /\ In (ToCsv "resultados_inferencia_limpio.csv"
           (pd.mkDataFrame 2
              [(LStr "ID", [CInt 1; CInt 2]);
               (LStr "x", [CInt 5; CInt 7]);
               (LStr "Prediccion", [CInt 0; CInt 1])]))
        (snd (main Examples.command_line
                (Examples.files Examples.raw_table Examples.no_proba_pipeline))).
Proof. split; [reflexivity|]. vm_compute. do 9 right. left. reflexivity. Qed.

(** The empty-index rule of pandas: assigning three values to a frame
    that has a column and no row gives the frame three rows and fills the
    column with NaN. *)
Example setitem_on_empty_index :
  pd.setitem (pd.mkDataFrame 0 [(LStr "a", [])]) (LStr "b") [CInt 1; CInt 2; CInt 3]
  = Ok (pd.mkDataFrame 3
          [(LStr "a", [CNaN; CNaN; CNaN]); (LStr "b", [CInt 1; CInt 2; CInt 3])]).
Proof. reflexivity. Qed.

(** A value of the wrong length on a frame that has rows raises. *)
Example setitem_length_mismatch :
  pd.setitem Examples.raw_table (LStr "b") [CInt 1; CInt 2; CInt 3]
  = raise_with ValueError "Length of values (3) does not match length of index (2)".
Proof. reflexivity. Qed.

(** The frame constructor on a 2-D array labels the columns 0, 1. *)
Example of_ndarray_two_columns :
  pd.of_ndarray Examples.two_class_proba 2
  = Ok (pd.mkDataFrame 2
          [(LInt 0, [CFloat (8 # 10); CFloat (3 # 10)]);
           (LInt 1, [CFloat (2 # 10); CFloat (7 # 10)])]).
Proof. reflexivity. Qed.

(** The frame constructor on an array with too few rows, on an array
    without rows, and on an array that is neither 1-D nor 2-D. *)
Example of_ndarray_other_rows :
  pd.of_ndarray (np.mk_ndarray [1; 1] [CInt 5]) 2
  = raise_with ValueError "Shape of passed values is (1, 1), indices imply (2, 1)".
Proof. reflexivity. Qed.

Example of_ndarray_without_rows :
  pd.of_ndarray (np.mk_ndarray [0; 2] []) 2
  = raise_with ValueError "Empty data passed with indices specified.".
Proof. reflexivity. Qed.

Example of_ndarray_three_dimensions :
  pd.of_ndarray (np.mk_ndarray [2; 1; 1] [CInt 1; CInt 2]) 2
  = raise_with ValueError "Must pass 2-d input. shape=(2, 1, 1)".
Proof. reflexivity. Qed.
(* ===================================================================== *)
(** ** Facts about labels and frames *)
(* ===================================================================== *)

Lemma label_eqb_eq (a b : label) : label_eqb a b = true <-> a = b.
Proof.
  destruct a as [s|x], b as [t|y]; simpl; split; intro H;
    try discriminate; try (inversion H; subst).
  - apply String.eqb_eq in H. now subst.
  - apply String.eqb_refl.
  - apply Z.eqb_eq in H. now subst.
  - apply Z.eqb_refl.
Qed.

Lemma label_eqb_refl (a : label) : label_eqb a a = true.
Proof. now apply label_eqb_eq. Qed.

Lemma label_eqb_neq (a b : label) : label_eqb a b = false <-> a <> b.
Proof.
  split.
  - intros H Heq. apply label_eqb_eq in Heq. congruence.
  - intro H. destruct (label_eqb a b) eqn:E; [|reflexivity].
    apply label_eqb_eq in E. contradiction.
Qed.

Lemma label_eqb_sym (a b : label) : label_eqb a b = label_eqb b a.
Proof.
  destruct (label_eqb b a) eqn:E.
  - apply label_eqb_eq in E. subst. apply label_eqb_refl.
  - apply label_eqb_neq in E. apply label_eqb_neq. congruence.
Qed.

Module pd_facts.

Import pd.

Lemma label_in_In (key : label) (df : DataFrame) :
  label_in key df = true <-> In key (columns df).
Proof.
  unfold label_in. rewrite existsb_exists. split.
  - intros [l [Hin Heq]]. apply label_eqb_eq in Heq. now subst.
  - intro Hin. exists key. split; [assumption | apply label_eqb_refl].
Qed.

Lemma getitem_values_lookup (df : DataFrame) (key : label) (v : list cell) :
  getitem_values df key = Ok v <-> lookup df key = Some v.
Proof.
  unfold getitem_values, lookup. destruct (find _ _); simpl; split; intro H;
    try discriminate; now inversion H.
Qed.

(** *** The empty-index rule *)

Lemma ensure_valid_index_same (df : DataFrame) (v : list cell) :
  index_size df = length v -> ensure_valid_index df v = df.
Proof.
  intro H. unfold ensure_valid_index.
  destruct (index_size df =? 0) eqn:E; simpl; [|reflexivity].
  apply Nat.eqb_eq in E. rewrite <- H, E. reflexivity.
Qed.

Lemma ensure_valid_index_columns (df : DataFrame) (v : list cell) :
  columns (ensure_valid_index df v) = columns df.
Proof.
  unfold ensure_valid_index, columns.
  destruct (_ && _); simpl; [|reflexivity].
  rewrite map_map. reflexivity.
Qed.

Lemma ensure_valid_index_label_in (df : DataFrame) (v : list cell) (l : label) :
  label_in l (ensure_valid_index df v) = label_in l df.
Proof. unfold label_in. now rewrite ensure_valid_index_columns. Qed.

Lemma ensure_valid_index_rectangular (df : DataFrame) (v : list cell) :
  rectangular df -> rectangular (ensure_valid_index df v).
Proof.
  unfold rectangular, ensure_valid_index. intro H.
  destruct (_ && _); simpl; [|assumption].
  apply Forall_forall. intros c Hc. apply in_map_iff in Hc.
  destruct Hc as [c0 [Hc0 _]]. subst c. simpl. apply repeat_length.
Qed.

Lemma sanitize_column_ok (df df' : DataFrame) (v : list cell) :
  sanitize_column df v = Ok df' ->
  df' = ensure_valid_index df v /\ index_size df' = length v.
Proof.
  unfold sanitize_column.
  destruct (length v =? _) eqn:E; [|discriminate].
  intro H. inversion H. subst df'. apply Nat.eqb_eq in E. auto.
Qed.

(** *** Column assignment *)

Lemma assign_fst (key : label) (v : list cell) (c : label * list cell) :
  fst (assign key v c) = fst c.
Proof. unfold assign. now destruct (label_eqb (fst c) key). Qed.

Lemma map_assign_labels (key : label) (v : list cell) (cs : list (label * list cell)) :
  map fst (map (assign key v) cs) = map fst cs.
Proof.
  rewrite map_map. apply map_ext. intro c. unfold assign.
  now destruct (label_eqb (fst c) key).
Qed.

Lemma find_map_assign_same (key : label) (v : list cell) (cs : list (label * list cell)) :
  existsb (label_eqb key) (map fst cs) = true ->
  option_map snd (find (fun c => label_eqb (fst c) key) (map (assign key v) cs)) = Some v.
Proof.
  induction cs as [|c cs IH]; simpl; [discriminate|].
  rewrite assign_fst. destruct (label_eqb (fst c) key) eqn:E; simpl.
  - intros _. unfold assign. now rewrite E.
  - rewrite label_eqb_sym, E. simpl. exact IH.
Qed.

Lemma find_map_assign_other (key l : label) (v : list cell) (cs : list (label * list cell)) :
  l <> key ->
  option_map snd (find (fun c => label_eqb (fst c) l) (map (assign key v) cs))
  = option_map snd (find (fun c => label_eqb (fst c) l) cs).
Proof.
  intro Hne. induction cs as [|c cs IH]; simpl; [reflexivity|].
  rewrite assign_fst. destruct (label_eqb (fst c) l) eqn:E; simpl; [|exact IH].
  unfold assign. apply label_eqb_eq in E.
  assert (label_eqb (fst c) key = false) as N by (apply label_eqb_neq; congruence).
  now rewrite N.
Qed.

Lemma find_app_fresh (key : label) (v : list cell) (cs : list (label * list cell)) :
  existsb (label_eqb key) (map fst cs) = false ->
  option_map snd (find (fun c => label_eqb (fst c) key) (cs ++ [(key, v)])) = Some v.
Proof.
  induction cs as [|c cs IH]; simpl.
  - intros _. now rewrite label_eqb_refl.
  - intro H. apply orb_false_iff in H. destruct H as [H1 H2].
    rewrite label_eqb_sym, H1. auto.
Qed.

Lemma find_app_other (key l : label) (v : list cell) (cs : list (label * list cell)) :
  l <> key ->
  option_map snd (find (fun c => label_eqb (fst c) l) (cs ++ [(key, v)]))
  = option_map snd (find (fun c => label_eqb (fst c) l) cs).
Proof.
  intro Hne. induction cs as [|c cs IH]; simpl.
  - assert (label_eqb key l = false) as N by (apply label_eqb_neq; congruence).
    now rewrite N.
  - destruct (label_eqb (fst c) l); [reflexivity | exact IH].
Qed.

(** *** Labels that name several columns *)

Lemma label_in_count (key : label) (df : DataFrame) :
  label_in key df = true <-> 0 < count_label key df.
Proof.
  unfold label_in, count_label, columns.
  induction (cols df) as [|c cs IH]; cbn [map existsb filter length].
  - split; [discriminate | lia].
  - rewrite (label_eqb_sym key (fst c)).
    destruct (label_eqb (fst c) key); cbn [orb length]; [|exact IH].
    split; [lia | reflexivity].
Qed.

Lemma label_in_false_count (key : label) (df : DataFrame) :
  label_in key df = false <-> count_label key df = 0.
Proof.
  pose proof (label_in_count key df) as H.
  destruct (label_in key df); split; intro K; try reflexivity; try discriminate.
  - destruct H as [H _]. specialize (H eq_refl). lia.
  - destruct (count_label key df); [reflexivity|]. destruct H as [_ H].
    discriminate H. lia.
Qed.

Lemma spreads_label_in (df : DataFrame) (key : label) (n : nat) :
  spreads df key n = true -> label_in key df = true.
Proof.
  unfold spreads. intro H. apply andb_true_iff in H. destruct H as [H _].
  apply Nat.ltb_lt in H. apply label_in_count. lia.
Qed.

Lemma not_spreads (df : DataFrame) (key : label) (n : nat) :
  count_label key df <= 1 -> spreads df key n = false.
Proof.
  intro H. unfold spreads. apply andb_false_iff. left. apply Nat.ltb_ge. exact H.
Qed.

(** *** A column put under a label *)

Lemma place_index (df : DataFrame) (key : label) (col : list cell) :
  index_size (place df key col) = index_size df.
Proof. unfold place. now destruct (label_in key df). Qed.

Lemma place_cols (df : DataFrame) (key : label) (col : list cell) :
  cols (place df key col)
  = (if label_in key df then map (assign key col) (cols df) else cols df ++ [(key, col)]).
Proof. unfold place. now destruct (label_in key df). Qed.

Lemma place_columns (df : DataFrame) (key : label) (col : list cell) :
  columns (place df key col) = columns df ++ (if label_in key df then [] else [key]).
Proof.
  unfold columns. rewrite place_cols. destruct (label_in key df).
  - rewrite map_assign_labels. now rewrite app_nil_r.
  - now rewrite map_app.
Qed.

Lemma place_lookup (df : DataFrame) (key : label) (col : list cell) :
  lookup (place df key col) key = Some col.
Proof.
  unfold lookup. rewrite place_cols. destruct (label_in key df) eqn:K.
  - apply find_map_assign_same. exact K.
  - apply find_app_fresh. exact K.
Qed.

Lemma place_lookup_other (df : DataFrame) (key l : label) (col : list cell) :
  l <> key -> lookup (place df key col) l = lookup df l.
Proof.
  intro Hne. unfold lookup. rewrite place_cols. destruct (label_in key df).
  - now apply find_map_assign_other.
  - now apply find_app_other.
Qed.

Lemma place_rectangular (df : DataFrame) (key : label) (col : list cell) :
  rectangular df -> length col = index_size df -> rectangular (place df key col).
Proof.
  unfold rectangular. intros Hr Hlen. rewrite place_index, place_cols.
  destruct (label_in key df).
  - apply Forall_forall. intros c Hin. apply in_map_iff in Hin.
    destruct Hin as [c0 [Hc0 Hin0]]. subst c. unfold assign.
    destruct (label_eqb (fst c0) key); cbn [snd]; [exact Hlen|].
    rewrite Forall_forall in Hr. now apply Hr.
  - apply Forall_app. split; [assumption|].
    constructor; [exact Hlen | constructor].
Qed.

(** *** One element per column of a repeated label *)

Lemma spread_labels (key : label) (rows : nat) (scalars : list cell)
    (cs : list (label * list cell)) :
  map fst (spread key rows scalars cs) = map fst cs.
Proof.
  revert scalars. induction cs as [|c cs IH]; intro scalars; [reflexivity|].
  cbn [spread]. destruct (label_eqb (fst c) key); [destruct scalars|];
    cbn [map fst]; now rewrite IH.
Qed.

Lemma spread_find_other (key l : label) (rows : nat) (scalars : list cell)
    (cs : list (label * list cell)) :
  l <> key ->
  option_map snd (find (fun c => label_eqb (fst c) l) (spread key rows scalars cs))
  = option_map snd (find (fun c => label_eqb (fst c) l) cs).
Proof.
  intro Hne. revert scalars. induction cs as [|c cs IH]; intro scalars; [reflexivity|].
  cbn [spread]. destruct (label_eqb (fst c) key) eqn:E.
  - apply label_eqb_eq in E.
    assert (label_eqb (fst c) l = false) as N by (apply label_eqb_neq; congruence).
    destruct scalars; cbn [find fst]; rewrite N; apply IH.
  - cbn [find]. destruct (label_eqb (fst c) l); [reflexivity | apply IH].
Qed.

Lemma spread_lengths (key : label) (rows : nat) (scalars : list cell)
    (cs : list (label * list cell)) :
  Forall (fun c => length (snd c) = rows) cs ->
  Forall (fun c => length (snd c) = rows) (spread key rows scalars cs).
Proof.
  revert scalars. induction cs as [|c cs IH]; intros scalars H; [constructor|].
  inversion H; subst. cbn [spread].
  destruct (label_eqb (fst c) key); [destruct scalars|]; constructor; auto.
  cbn [snd]. apply repeat_length.
Qed.

(** *** Assignment of an array *)

(** The two ways [df[key] = v] can go when it does not raise. *)
Lemma setitem_cases (df r : DataFrame) (key : label) (v : list cell) :
  setitem df key v = Ok r ->
  (spreads df key (length v) = true
   /\ r = mkDataFrame (index_size df) (spread key (index_size df) v (cols df)))
  \/ (spreads df key (length v) = false
      /\ index_size (ensure_valid_index df v) = length v
      /\ r = place (ensure_valid_index df v) key v).
Proof.
  unfold setitem. destruct (spreads df key (length v)).
  - intro H. inversion H. now left.
  - destruct (sanitize_column df v) as [df'|e] eqn:S; [|discriminate].
    apply sanitize_column_ok in S. destruct S as [-> Hsize].
    intro H. inversion H. right. auto.
Qed.

(** What [df[key] = v] leaves behind when [key] is not a repeated label
    with one column per element of [v]. *)
Lemma setitem_ok (df r : DataFrame) (key : label) (v : list cell) :
  spreads df key (length v) = false ->
  setitem df key v = Ok r ->
  index_size r = length v
  /\ lookup r key = Some v
  /\ columns r = columns df ++ (if label_in key df then [] else [key])
  /\ (forall l, l <> key -> lookup r l = lookup (ensure_valid_index df v) l)
  /\ cols r = (if label_in key df
               then map (assign key v) (cols (ensure_valid_index df v))
               else cols (ensure_valid_index df v) ++ [(key, v)]).
Proof.
  intros Hno H. apply setitem_cases in H.
  destruct H as [[K _] | (_ & Hsize & ->)]; [congruence|].
  rewrite place_index, place_lookup, place_columns, place_cols.
  rewrite ensure_valid_index_columns, ensure_valid_index_label_in.
  repeat split; try assumption; try reflexivity.
  intros l Hl. now apply place_lookup_other.
Qed.

Lemma setitem_columns (df r : DataFrame) (key : label) (v : list cell) :
  setitem df key v = Ok r ->
  columns r = columns df ++ (if label_in key df then [] else [key]).
Proof.
  intro H. apply setitem_cases in H. destruct H as [[K ->] | (_ & _ & ->)].
  - rewrite (spreads_label_in _ _ _ K), app_nil_r.
    unfold columns. cbn [cols]. apply spread_labels.
  - rewrite place_columns.
    now rewrite ensure_valid_index_columns, ensure_valid_index_label_in.
Qed.

(** Whatever the branch, a frame with rows keeps them, and keeps the
    columns of every other label. *)
Lemma setitem_kept (df r : DataFrame) (key : label) (v : list cell) :
  setitem df key v = Ok r -> index_size df <> 0 ->
  index_size r = index_size df
  /\ forall l, l <> key -> lookup r l = lookup df l.
Proof.
  intros H Hne. apply setitem_cases in H.
  assert (ensure_valid_index df v = df) as E.
  { unfold ensure_valid_index. apply Nat.eqb_neq in Hne. now rewrite Hne. }
  destruct H as [[_ ->] | (_ & _ & ->)].
  - split; [reflexivity|]. intros l Hl. unfold lookup. cbn [cols].
    now apply spread_find_other.
  - rewrite E, place_index. split; [reflexivity|].
    intros l Hl. now apply place_lookup_other.
Qed.

(** *** Assignment of a Series *)

Lemma setitem_series_cases (df r : DataFrame) (key : label) (s : Series) :
  setitem_series df key s = Ok r ->
  (spreads df key (length (s_values s)) = true
   /\ exists scalars,
       r = mkDataFrame (index_size df) (spread key (index_size df) scalars (cols df)))
  \/ (spreads df key (length (s_values s)) = false
      /\ exists column,
          length column = index_size (ensure_valid_index df (s_values s))
          /\ r = place (ensure_valid_index df (s_values s)) key column
          /\ (index_size df = 0 -> column = s_values s)).
Proof.
  unfold setitem_series. destruct (spreads df key (length (s_values s))).
  - destruct (items s 0 (count_label key df)) as [scalars|e]; [|discriminate].
    intro H. inversion H. left. eauto.
  - destruct (index_size df =? 0) eqn:Z.
    + intro H. inversion H. right. split; [reflexivity|].
      exists (s_values s). split; [|auto].
      apply Nat.eqb_eq in Z. unfold ensure_valid_index. rewrite Z. cbn [Nat.eqb andb].
      destruct (0 <? length (s_values s)) eqn:L; cbn [index_size]; [reflexivity|].
      apply Nat.ltb_ge in L. lia.
    + destruct (s_reindex s df) as [at_row|e]; [|discriminate].
      intro H. inversion H. right. split; [reflexivity|].
      exists (map at_row (seq 0 (index_size df))). split; [|split; [reflexivity|]].
      * unfold ensure_valid_index. rewrite Z. cbn [andb].
        now rewrite length_map, length_seq.
      * intro K. apply Nat.eqb_neq in Z. contradiction.
Qed.

Lemma setitem_series_columns (df r : DataFrame) (key : label) (s : Series) :
  setitem_series df key s = Ok r ->
  columns r = columns df ++ (if label_in key df then [] else [key]).
Proof.
  intro H. apply setitem_series_cases in H.
  destruct H as [[K (scalars & ->)] | (_ & column & _ & -> & _)].
  - rewrite (spreads_label_in _ _ _ K), app_nil_r.
    unfold columns. cbn [cols]. apply spread_labels.
  - rewrite place_columns.
    now rewrite ensure_valid_index_columns, ensure_valid_index_label_in.
Qed.

Lemma setitem_series_kept (df r : DataFrame) (key : label) (s : Series) :
  setitem_series df key s = Ok r -> index_size df <> 0 ->
  index_size r = index_size df
  /\ forall l, l <> key -> lookup r l = lookup df l.
Proof.
  intros H Hne. apply setitem_series_cases in H.
  assert (ensure_valid_index df (s_values s) = df) as E.
  { unfold ensure_valid_index. apply Nat.eqb_neq in Hne. now rewrite Hne. }
  destruct H as [[_ (scalars & ->)] | (_ & column & _ & -> & _)].
  - split; [reflexivity|]. intros l Hl. unfold lookup. cbn [cols].
    now apply spread_find_other.
  - rewrite E, place_index. split; [reflexivity|].
    intros l Hl. now apply place_lookup_other.
Qed.

(** *** Insertion at the front *)

(** What [df.insert(0, column, v)] leaves behind when it does not raise. *)
Lemma insert0_ok (df r : DataFrame) (column : label) (v : list cell) :
  insert df 0 column v = Ok r ->
  label_in column df = false
  /\ index_size r = length v
  /\ cols r = (column, v) :: cols (ensure_valid_index df v).
Proof.
  unfold insert. destruct (label_in column df); [discriminate|].
  destruct (sanitize_column df v) as [df'|e] eqn:S; [|discriminate].
  apply sanitize_column_ok in S. destruct S as [Hdf' Hsize].
  simpl. intro H. inversion H; subst r; clear H. simpl.
  rewrite <- Hdf'. auto.
Qed.

Lemma insert0_rectangular (df r : DataFrame) (column : label) (v : list cell) :
  rectangular df -> insert df 0 column v = Ok r -> rectangular r.
Proof.
  intros Hr H. pose proof (insert0_ok _ _ _ _ H) as (_ & Hn & Hc).
  pose proof (ensure_valid_index_rectangular df v Hr) as Hr'.
  assert (index_size (ensure_valid_index df v) = index_size r) as Hs.
  { unfold insert in H. destruct (label_in column df); [discriminate|].
    destruct (sanitize_column df v) as [df'|] eqn:S; [|discriminate].
    apply sanitize_column_ok in S. destruct S as [-> _].
    simpl in H. inversion H; reflexivity. }
  unfold rectangular in *. rewrite Hc. rewrite Hs in Hr'.
  constructor; [simpl; now symmetry | assumption].
Qed.

Lemma insert_2d_raises (df : DataFrame) (column : label) (rows k : nat) :
  exists e, insert_2d df column rows k = Raise e /\ exc_class e = ValueError.
Proof.
  unfold insert_2d, raise_with.
  destruct (label_in column df); [eauto|].
  destruct (_ && _); [eauto|]. destruct (negb _); eauto.
Qed.

End pd_facts.

(* ===================================================================== *)
(** ** Facts about the assignment of the predictions *)
(* ===================================================================== *)

Lemma len_array (v : list cell) : len (AArray v) = length v.
Proof. reflexivity. Qed.

(** A frame without rows takes as many as the value has elements. *)
Lemma ensure_valid_index_size (df : pd.DataFrame) (v : list cell) :
  pd.index_size (pd.ensure_valid_index df v)
  = (if (pd.index_size df =? 0) && (0 <? length v) then length v else pd.index_size df).
Proof. unfold pd.ensure_valid_index. now destruct (_ && _). Qed.

Lemma ensure_valid_index_nonempty (df : pd.DataFrame) (v : list cell) :
  pd.index_size df <> 0 -> pd.ensure_valid_index df v = df.
Proof.
  intro H. unfold pd.ensure_valid_index.
  apply Nat.eqb_neq in H. now rewrite H.
Qed.

(** The two ways [results[key] = predictions] can go when it does not
    raise: one element per column of a repeated label, or one column
    under the label, which for an array is the array itself. *)
Lemma setitem_answer_cases (df r : pd.DataFrame) (key : label) (p : answer) :
  setitem_answer df key p = Ok r ->
  (pd.spreads df key (len p) = true
   /\ exists scalars,
       r = pd.mkDataFrame (pd.index_size df)
             (pd.spread key (pd.index_size df) scalars (pd.cols df)))
  \/ (pd.spreads df key (len p) = false
      /\ exists column,
          length column = pd.index_size (pd.ensure_valid_index df (values_of p))
          /\ r = pd.place (pd.ensure_valid_index df (values_of p)) key column
          /\ (forall v, p = AArray v -> column = v)
          /\ (pd.index_size df = 0 -> column = values_of p)).
Proof.
  destruct p as [v|s]; cbn [setitem_answer]; unfold len; cbn [values_of]; intro H.
  - apply pd_facts.setitem_cases in H. destruct H as [[K ->] | (K & Hsize & ->)].
    + left. eauto.
    + right. split; [exact K|]. exists v. repeat split; auto.
      intros v' Hv. now inversion Hv.
  - apply pd_facts.setitem_series_cases in H.
    destruct H as [[K (scalars & ->)] | (K & column & Hlen & -> & Hz)].
    + left. eauto.
    + right. split; [exact K|]. exists column. repeat split; auto.
      intros v' Hv. discriminate.
Qed.

Lemma setitem_answer_columns (df r : pd.DataFrame) (key : label) (p : answer) :
  setitem_answer df key p = Ok r ->
  pd.columns r = pd.columns df ++ (if pd.label_in key df then [] else [key]).
Proof.
  destruct p as [v|s]; cbn [setitem_answer];
    [apply pd_facts.setitem_columns | apply pd_facts.setitem_series_columns].
Qed.

Lemma setitem_answer_label_in (df r : pd.DataFrame) (key l : label) (p : answer) :
  setitem_answer df key p = Ok r ->
  pd.label_in l r = pd.label_in l df || label_eqb l key.
Proof.
  intro H. apply setitem_answer_columns in H.
  unfold pd.label_in at 1. rewrite H, existsb_app. fold (pd.label_in l df).
  destruct (pd.label_in key df) eqn:K; simpl.
  - rewrite orb_false_r. destruct (label_eqb l key) eqn:E.
    + apply label_eqb_eq in E. subst l. rewrite K. reflexivity.
    + now rewrite orb_false_r.
  - now rewrite orb_false_r.
Qed.

Lemma setitem_answer_NoDup (df r : pd.DataFrame) (key : label) (p : answer) :
  setitem_answer df key p = Ok r -> NoDup (pd.columns df) -> NoDup (pd.columns r).
Proof.
  intros H Hnd. rewrite (setitem_answer_columns _ _ _ _ H).
  destruct (pd.label_in key df) eqn:K; [now rewrite app_nil_r|].
  apply NoDup_app; [exact Hnd | repeat constructor; intros [] |].
  intros l Hl [<-|[]]. apply pd_facts.label_in_In in Hl. congruence.
Qed.

Lemma setitem_answer_rectangular (df r : pd.DataFrame) (key : label) (p : answer) :
  pd.rectangular df -> setitem_answer df key p = Ok r -> pd.rectangular r.
Proof.
  intros Hr H. apply setitem_answer_cases in H.
  destruct H as [[_ (scalars & ->)] | (_ & column & Hlen & -> & _)].
  - unfold pd.rectangular. cbn [pd.index_size pd.cols].
    now apply pd_facts.spread_lengths.
  - apply pd_facts.place_rectangular; [|exact Hlen].
    now apply pd_facts.ensure_valid_index_rectangular.
Qed.

(** Whatever the answer and the branch, a frame with rows keeps them,
    and keeps the columns of every other label. *)
Lemma setitem_answer_kept (df r : pd.DataFrame) (key : label) (p : answer) :
  setitem_answer df key p = Ok r -> pd.index_size df <> 0 ->
  pd.index_size r = pd.index_size df
  /\ forall l, l <> key -> pd.lookup r l = pd.lookup df l.
Proof.
  destruct p as [v|s]; cbn [setitem_answer];
    [apply pd_facts.setitem_kept | apply pd_facts.setitem_series_kept].
Qed.

(** Under a label that is not repeated, the frame takes the index of the
    answer if it had no row, and the columns of every other label are
    those of the frame so re-indexed. *)
Lemma setitem_answer_plain (df r : pd.DataFrame) (key : label) (p : answer) :
  pd.spreads df key (len p) = false ->
  setitem_answer df key p = Ok r ->
  pd.index_size r = pd.index_size (pd.ensure_valid_index df (values_of p))
  /\ (forall l, l <> key ->
                pd.lookup r l = pd.lookup (pd.ensure_valid_index df (values_of p)) l)
  /\ (forall v, p = AArray v -> pd.index_size r = length v /\ pd.lookup r key = Some v).
Proof.
  intros Hno H. apply setitem_answer_cases in H.
  destruct H as [[K _] | (_ & column & Hlen & -> & Harr & _)]; [congruence|].
  rewrite pd_facts.place_index. split; [reflexivity|]. split.
  - intros l Hl. now apply pd_facts.place_lookup_other.
  - intros v Hv. rewrite pd_facts.place_lookup. rewrite <- (Harr v Hv).
    split; [now symmetry | reflexivity].
Qed.

(** The same facts for the assignment of an array, which is the
    assignment of the answer [AArray v]. *)
Lemma setitem_label_in (df r : pd.DataFrame) (key l : label) (v : list cell) :
  pd.setitem df key v = Ok r ->
  pd.label_in l r = pd.label_in l df || label_eqb l key.
Proof. exact (setitem_answer_label_in df r key l (AArray v)). Qed.

Lemma setitem_rectangular (df r : pd.DataFrame) (key : label) (v : list cell) :
  pd.rectangular df -> pd.setitem df key v = Ok r -> pd.rectangular r.
Proof. exact (setitem_answer_rectangular df r key (AArray v)). Qed.

Lemma setitem_NoDup (df r : pd.DataFrame) (key : label) (v : list cell) :
  pd.setitem df key v = Ok r -> NoDup (pd.columns df) -> NoDup (pd.columns r).
Proof. exact (setitem_answer_NoDup df r key (AArray v)). Qed.

(** An assignment that re-indexes nothing (the frame has rows, or the
    value has none) keeps the index and the columns of every other
    label, whatever the answer and the branch. *)
Lemma setitem_answer_gentle (df r : pd.DataFrame) (key : label) (p : answer) :
  setitem_answer df key p = Ok r ->
  pd.ensure_valid_index df (values_of p) = df ->
  pd.index_size r = pd.index_size df
  /\ forall l, l <> key -> pd.lookup r l = pd.lookup df l.
Proof.
  intros H E. apply setitem_answer_cases in H.
  destruct H as [[_ (scalars & ->)] | (_ & column & _ & -> & _)].
  - split; [reflexivity|]. intros l Hl. unfold pd.lookup. cbn [pd.cols].
    now apply pd_facts.spread_find_other.
  - rewrite E, pd_facts.place_index. split; [reflexivity|].
    intros l Hl. now apply pd_facts.place_lookup_other.
Qed.

Lemma setitem_gentle (df r : pd.DataFrame) (key : label) (v : list cell) :
  pd.setitem df key v = Ok r ->
  pd.ensure_valid_index df v = df ->
  pd.index_size r = pd.index_size df
  /\ forall l, l <> key -> pd.lookup r l = pd.lookup df l.
Proof. exact (setitem_answer_gentle df r key (AArray v)). Qed.

(** A frame is not re-indexed by a value without elements. *)
Lemma ensure_valid_index_no_value (df : pd.DataFrame) (v : list cell) :
  length v = 0 -> pd.ensure_valid_index df v = df.
Proof.
  intro H. unfold pd.ensure_valid_index. rewrite H.
  now rewrite andb_false_r.
Qed.

(** *** How many columns a label names *)

Lemma count_label_columns (l : label) (df : pd.DataFrame) :
  pd.count_label l df = length (filter (fun k => label_eqb k l) (pd.columns df)).
Proof.
  unfold pd.count_label, pd.columns.
  induction (pd.cols df) as [|c cs IH]; [reflexivity|].
  cbn [filter map]. destruct (label_eqb (fst c) l); cbn [length]; now rewrite IH.
Qed.

Lemma setitem_answer_count (df r : pd.DataFrame) (key l : label) (p : answer) :
  setitem_answer df key p = Ok r ->
  pd.count_label l r
  = pd.count_label l df
    + (if label_eqb key l && negb (pd.label_in key df) then 1 else 0).
Proof.
  intro H. rewrite !count_label_columns, (setitem_answer_columns _ _ _ _ H).
  rewrite filter_app, length_app. f_equal.
  destruct (pd.label_in key df); [now rewrite andb_false_r|].
  rewrite andb_true_r. cbn [filter]. now destruct (label_eqb key l).
Qed.

(** An assignment repeats no label. *)
Lemma setitem_answer_not_repeated (df r : pd.DataFrame) (key l : label) (p : answer) :
  setitem_answer df key p = Ok r -> not_repeated l df -> not_repeated l r.
Proof.
  unfold not_repeated. intros H K. rewrite (setitem_answer_count _ _ _ l _ H).
  destruct (label_eqb key l) eqn:E; destruct (pd.label_in key df) eqn:I;
    cbn [andb negb]; try lia.
  apply label_eqb_eq in E. subst l.
  apply pd_facts.label_in_false_count in I. lia.
Qed.

Lemma setitem_not_repeated (df r : pd.DataFrame) (key l : label) (v : list cell) :
  pd.setitem df key v = Ok r -> not_repeated l df -> not_repeated l r.
Proof. exact (setitem_answer_not_repeated df r key l (AArray v)). Qed.

Lemma insert0_count (df r : pd.DataFrame) (column l : label) (v : list cell) :
  pd.insert df 0 column v = Ok r ->
  pd.count_label l r = pd.count_label l df + (if label_eqb column l then 1 else 0).
Proof.
  intro H. apply pd_facts.insert0_ok in H. destruct H as (_ & _ & C).
  rewrite !count_label_columns. unfold pd.columns at 1. rewrite C. cbn [map filter fst].
  fold (pd.columns (pd.ensure_valid_index df v)).
  rewrite pd_facts.ensure_valid_index_columns.
  destruct (label_eqb column l); cbn [length]; lia.
Qed.

(** Neither does the insertion of a column, which needs a new label. *)
Lemma insert0_not_repeated (df r : pd.DataFrame) (column l : label) (v : list cell) :
  pd.insert df 0 column v = Ok r -> not_repeated l df -> not_repeated l r.
Proof.
  unfold not_repeated. intros H K. rewrite (insert0_count _ _ _ l _ H).
  destruct (label_eqb column l) eqn:E; [|lia].
  apply label_eqb_eq in E. subst l.
  apply pd_facts.insert0_ok in H. destruct H as (I & _).
  apply pd_facts.label_in_false_count in I. lia.
Qed.

(** Labels that are all different are not repeated. *)
Lemma NoDup_not_repeated (l : label) (df : pd.DataFrame) :
  NoDup (pd.columns df) -> not_repeated l df.
Proof.
  unfold not_repeated. rewrite count_label_columns.
  induction (pd.columns df) as [|k ks IH]; intro H; [cbn; lia|].
  inversion H as [|k' ks' Hfresh Hrest]; subst. cbn [filter].
  destruct (label_eqb k l) eqn:E; [|now apply IH].
  apply label_eqb_eq in E. subst k. cbn [length].
  assert (filter (fun k => label_eqb k l) ks = []) as ->; [|cbn; lia].
  clear IH H Hrest. induction ks as [|k ks IH]; [reflexivity|].
  cbn [filter]. destruct (label_eqb k l) eqn:E.
  - apply label_eqb_eq in E. subst k. exfalso. apply Hfresh. now left.
  - apply IH. intro K. apply Hfresh. now right.
Qed.

(* ===================================================================== *)
(** ** Facts about computations *)
(* ===================================================================== *)

#[local] Arguments String.append : simpl never.

(** Splits a goal [Forall P [e1; ...; en]] into its [n] goals. *)
Ltac each_event :=
  cbn [app]; repeat (apply Forall_cons || apply Forall_nil); simpl; auto.

Section Computations.

Context {A B : Type}.

Lemma bind_ok_inv (m : M A) (f : A -> M B) (b : B) (t : trace) :
  bind m f = (Ok b, t) ->
  exists a t1 t2, m = (Ok a, t1) /\ f a = (Ok b, t2) /\ t = t1 ++ t2.
Proof.
  unfold bind. destruct m as [[a|e] t1]; [|discriminate].
  destruct (f a) as [o t2] eqn:F. intro H. inversion H; subst.
  exists a, t1, t2. auto.
Qed.

(** A property of events holds along [m] followed by [f] when it holds
    along [m] and along [f] for the value [m] returns. *)
Lemma bind_events (P : event -> Prop) (m : M A) (f : A -> M B) :
  Forall P (snd m) ->
  (forall a, fst m = Ok a -> Forall P (snd (f a))) ->
  Forall P (snd (bind m f)).
Proof.
  unfold bind. destruct m as [[a|e] t1]; simpl; intros H1 H2; [|assumption].
  specialize (H2 a eq_refl). destruct (f a) as [o t2]. simpl in *.
  apply Forall_app. auto.
Qed.

End Computations.

Lemma try_except_events {A : Type} (P : event -> Prop) (body : M A)
    (handler : exception -> M A) :
  Forall P (snd body) ->
  (forall e, fst body = Raise e -> Forall P (snd (handler e))) ->
  Forall P (snd (try_except body handler)).
Proof.
  unfold try_except. destruct body as [[a|e] t1]; simpl; intros H1 H2; [assumption|].
  specialize (H2 e eq_refl). destruct (handler e) as [o t2]. simpl in *.
  apply Forall_app. auto.
Qed.

(* ===================================================================== *)
(** ** Facts about the steps of the script *)
(* ===================================================================== *)

(** The four ways [get_cleaned_df_from_pipeline] can go: no stage; a
    frame from the stage, its own or the table it was given; an array
    from the stage, wrapped under the index of the table as the stage
    left it; an exception and the copy of the table as the stage left
    it. *)
Lemma get_cleaned_cases (pipeline : Pipeline) (df_raw : pd.DataFrame) :
  (cleaning_stage pipeline = None
   /\ get_cleaned_df_from_pipeline pipeline df_raw = (Ok df_raw, []))
  \/ (exists cleaning df,
         cleaning_stage pipeline = Some cleaning
         /\ (transform cleaning df_raw = Ok (TFrame df)
             \/ (transform cleaning df_raw = Ok TSame
                 /\ df = transform_leaves cleaning df_raw))
         /\ get_cleaned_df_from_pipeline pipeline df_raw = (Ok df, [Transform df_raw]))
  \/ (exists cleaning a df,
         cleaning_stage pipeline = Some cleaning
         /\ transform cleaning df_raw = Ok (TArray a)
         /\ pd.of_ndarray a (pd.index_size (transform_leaves cleaning df_raw)) = Ok df
         /\ get_cleaned_df_from_pipeline pipeline df_raw = (Ok df, [Transform df_raw]))
  \/ (exists cleaning e,
         cleaning_stage pipeline = Some cleaning
         /\ (transform cleaning df_raw = Raise e
             \/ exists a, transform cleaning df_raw = Ok (TArray a)
                          /\ pd.of_ndarray a
                               (pd.index_size (transform_leaves cleaning df_raw))
                             = Raise e)
         /\ get_cleaned_df_from_pipeline pipeline df_raw
            = (Ok (transform_leaves cleaning df_raw),
               [Transform df_raw; Print stderr (aviso_limpio +++ description e)])).
Proof.
  unfold get_cleaned_df_from_pipeline, table_after_cleaning, cleaning_stage.
  destruct (named_steps pipeline) as [steps|]; [|left; auto].
  destruct (dict_get steps "cleaning") as [cleaning|]; [|left; auto].
  right. destruct (transform cleaning df_raw) as [[df|a|]|e] eqn:T.
  - left. exists cleaning, df. rewrite T. auto.
  - destruct (pd.of_ndarray a (pd.index_size (transform_leaves cleaning df_raw)))
      as [df|e] eqn:C.
    + right; left. exists cleaning, a, df. rewrite T. cbn. rewrite C. auto.
    + right; right. exists cleaning, e. rewrite T. cbn. rewrite C.
      split; [reflexivity | split; [right; exists a; auto | reflexivity]].
  - left. exists cleaning, (transform_leaves cleaning df_raw). rewrite T. auto.
  - right; right. exists cleaning, e. rewrite T. auto.
Qed.

Lemma get_cleaned_events (args : arguments) (w : world) (pipeline : Pipeline)
    (df_raw : pd.DataFrame) :
  read_csv w (csv args) = Ok df_raw ->
  Forall (run_event args w) (snd (get_cleaned_df_from_pipeline pipeline df_raw)).
Proof.
  intro Hraw.
  destruct (get_cleaned_cases pipeline df_raw)
    as [[_ E] | [(c & df & _ & _ & E) | [(c & a & df & _ & _ & _ & E) | (c & e & _ & _ & E)]]];
    rewrite E; each_event.
  unfold error_text. right; right; left. now exists e.
Qed.

(** The three ways [try_predict_proba] can go. *)
Lemma try_predict_proba_cases (pipeline : Pipeline) (test_data : pd.DataFrame) :
  (exists f a,
      predict_proba pipeline = Some f /\ f test_data = Ok a
      /\ try_predict_proba pipeline test_data = (Ok (Some a, true), [PredictProba test_data]))
  \/ (exists f e,
         predict_proba pipeline = Some f /\ f test_data = Raise e
         /\ try_predict_proba pipeline test_data
            = (Ok (None, false), [PredictProba test_data; Print stdout aviso_proba]))
  \/ (predict_proba pipeline = None
      /\ try_predict_proba pipeline test_data = (Ok (None, false), [Print stdout aviso_proba])).
Proof.
  unfold try_predict_proba. destruct (predict_proba pipeline) as [f|].
  - destruct (f test_data) as [a|e] eqn:F.
    + left. exists f, a. rewrite F. auto.
    + right; left. exists f, e. rewrite F. auto.
  - right; right. auto.
Qed.

Lemma try_predict_proba_events (args : arguments) (w : world) (pipeline : Pipeline)
    (raw : pd.DataFrame) :
  read_csv w (csv args) = Ok raw ->
  joblib_load w (pkl args) = Ok pipeline ->
  Forall (run_event args w)
         (snd (try_predict_proba pipeline (table_after_predict pipeline raw))).
Proof.
  intros Hraw Hload.
  destruct (try_predict_proba_cases pipeline (table_after_predict pipeline raw))
    as [(f & a & _ & _ & E) | [(f & e & _ & _ & E) | [_ E]]];
    rewrite E; each_event; exists raw, pipeline; auto.
Qed.

(** The frame after line 88, the frame after line 91 and the frame
    after line 100. *)
Lemma assemble_inv (args : arguments) (test_data cleaned : pd.DataFrame)
    (predictions : answer) (probabilities : option np.ndarray) (has_proba : bool)
    (results : pd.DataFrame) :
  assemble args test_data cleaned predictions probabilities has_proba = Ok results ->
  exists with_id with_prediction,
    (if pd.label_in (LStr (id_col args)) test_data
        && negb (pd.label_in (LStr (id_col args)) cleaned)
     then exists values,
         (pd.count_label (LStr (id_col args)) test_data = 1
          /\ pd.getitem_values test_data (LStr (id_col args)) = Ok values)
         /\ pd.insert cleaned 0 (LStr (id_col args)) values = Ok with_id
     else with_id = cleaned)
    /\ setitem_answer with_id Prediccion predictions = Ok with_prediction
    /\ assemble args test_data cleaned predictions None false = Ok with_prediction
    /\ (if has_proba then
          exists p, probabilities = Some p
            /\ if two_columns p
               then exists r1,
                   pd.setitem with_prediction Probabilidad_No_Default (np.column p 0) = Ok r1
                   /\ pd.setitem r1 Probabilidad_Default (np.column p 1) = Ok results
               else pd.setitem with_prediction Probabilidad (np.ravel p) = Ok results
        else results = with_prediction).
Proof.
  unfold assemble, pd.copy.
  destruct (pd.label_in (LStr (id_col args)) test_data
            && negb (pd.label_in (LStr (id_col args)) cleaned)) eqn:G.
  - destruct (pd.count_label (LStr (id_col args)) test_data =? 1) eqn:Once.
    2:{ destruct (pd_facts.insert_2d_raises cleaned (LStr (id_col args))
                    (pd.index_size test_data)
                    (pd.count_label (LStr (id_col args)) test_data)) as (e & -> & _).
        discriminate. }
    apply Nat.eqb_eq in Once.
    destruct (pd.getitem_values test_data (LStr (id_col args))) as [values|e] eqn:V;
      [|discriminate].
    destruct (pd.insert cleaned 0 (LStr (id_col args)) values) as [with_id|e] eqn:I;
      [|discriminate].
    destruct (setitem_answer with_id Prediccion predictions) as [wp|e] eqn:S; [|discriminate].
    intro H. exists with_id, wp. repeat split; eauto.
    destruct has_proba; [|now inversion H].
    destruct probabilities as [p|]; [|discriminate].
    exists p. split; [reflexivity|].
    destruct (two_columns p); [|assumption].
    destruct (pd.setitem wp Probabilidad_No_Default (np.column p 0)) as [r1|e] eqn:S1;
      [|discriminate].
    exists r1. auto.
  - destruct (setitem_answer cleaned Prediccion predictions) as [wp|e] eqn:S; [|discriminate].
    intro H. exists cleaned, wp. repeat split; eauto.
    destruct has_proba; [|now inversion H].
    destruct probabilities as [p|]; [|discriminate].
    exists p. split; [reflexivity|].
    destruct (two_columns p); [|assumption].
    destruct (pd.setitem wp Probabilidad_No_Default (np.column p 0)) as [r1|e] eqn:S1;
      [|discriminate].
    exists r1. auto.
Qed.

Lemma assemble_has_Prediccion (args : arguments) (test_data cleaned : pd.DataFrame)
    (predictions : answer) (probabilities : option np.ndarray) (has_proba : bool)
    (results : pd.DataFrame) :
  assemble args test_data cleaned predictions probabilities has_proba = Ok results ->
  pd.label_in Prediccion results = true.
Proof.
  intro H. apply assemble_inv in H.
  destruct H as (with_id & wp & _ & S & _ & P).
  assert (pd.label_in Prediccion wp = true) as K.
  { rewrite (setitem_answer_label_in _ _ _ Prediccion _ S).
    rewrite label_eqb_refl. apply orb_true_r. }
  destruct has_proba; [|now subst].
  destruct P as (p & _ & P). destruct (two_columns p).
  - destruct P as (r1 & S1 & S2).
    rewrite (setitem_label_in _ _ _ Prediccion _ S2).
    rewrite (setitem_label_in _ _ _ Prediccion _ S1).
    now rewrite K.
  - rewrite (setitem_label_in _ _ _ Prediccion _ P). now rewrite K.
Qed.

Lemma assemble_has_Probabilidad_Default (args : arguments) (test_data cleaned : pd.DataFrame)
    (predictions : answer) (p : np.ndarray) (results : pd.DataFrame) :
  assemble args test_data cleaned predictions (Some p) true = Ok results ->
  two_columns p = true ->
  pd.label_in Probabilidad_Default results = true.
Proof.
  intros H T. apply assemble_inv in H.
  destruct H as (with_id & wp & _ & _ & _ & q & Hq & P).
  inversion Hq; subst q. rewrite T in P. destruct P as (r1 & _ & S2).
  rewrite (setitem_label_in _ _ _ Probabilidad_Default _ S2).
  rewrite label_eqb_refl. apply orb_true_r.
Qed.

(** Selecting labels that are all columns does not raise. *)
Lemma getitem_list_present (df : pd.DataFrame) (keys : list label) :
  (forall k, In k keys -> pd.label_in k df = true) ->
  pd.getitem_list df keys
  = Ok (pd.mkDataFrame (pd.index_size df)
          (flat_map (fun k => filter (fun c => label_eqb (fst c) k) (pd.cols df)) keys)).
Proof.
  intro H. unfold pd.getitem_list.
  destruct (find _ keys) as [k|] eqn:F; [|reflexivity].
  apply find_some in F. destruct F as [Hin Hk].
  rewrite (H k Hin) in Hk. discriminate.
Qed.

Lemma filter_all {X : Type} (f : X -> bool) (l : list X) :
  (forall x, In x l -> f x = true) -> filter f l = l.
Proof.
  induction l as [|x l IH]; simpl; intro H; [reflexivity|].
  rewrite (H x (or_introl eq_refl)). f_equal. apply IH. intros y Hy. apply H. now right.
Qed.

(** Every label the preview asks for is a column of the results. *)
Lemma cols_show_present (args : arguments) (test_data cleaned : pd.DataFrame)
    (predictions : answer) (probabilities : option np.ndarray) (has_proba : bool)
    (results : pd.DataFrame) :
  assemble args test_data cleaned predictions probabilities has_proba = Ok results ->
  forall k, In k (cols_show args results probabilities has_proba) ->
            pd.label_in k results = true.
Proof.
  intros H k. unfold cols_show.
  pose proof (assemble_has_Prediccion _ _ _ _ _ _ _ H) as KP.
  assert (has_proba && match probabilities with Some p => two_columns p | None => false end
          = true -> pd.label_in Probabilidad_Default results = true) as KD.
  { intro G. apply andb_true_iff in G. destruct G as [G1 G2]. subst has_proba.
    destruct probabilities as [p|]; [|discriminate].
    eapply assemble_has_Probabilidad_Default; eauto. }
  destruct (has_proba && _) eqn:G;
    destruct (pd.label_in (LStr (id_col args)) results) eqn:I; simpl;
    intuition (subst; auto).
Qed.

(** The preview of a run: the heading and the frame of the preferred
    columns. *)
Lemma preview_of_results (args : arguments) (test_data cleaned : pd.DataFrame)
    (predictions : answer) (probabilities : option np.ndarray) (has_proba : bool)
    (results : pd.DataFrame) :
  assemble args test_data cleaned predictions probabilities has_proba = Ok results ->
  exists shown,
    pd.getitem_list results (cols_show args results probabilities has_proba) = Ok shown
    /\ preview args results probabilities has_proba
       = (Ok tt,
          [Print stdout (nl +++ "Primeras " +++ show_Z (head args) +++ " filas:");
           PrintFrame PreferredColumns (pd.head shown (head args))]).
Proof.
  intro H. pose proof (cols_show_present _ _ _ _ _ _ _ H) as All.
  eexists. split; [apply getitem_list_present; exact All|].
  unfold preview. rewrite (filter_all _ _ All).
  rewrite (getitem_list_present _ _ All).
  destruct (cols_show args results probabilities has_proba) as [|c cs] eqn:C.
  - exfalso. unfold cols_show in C.
    destruct (has_proba && _); destruct (pd.label_in (LStr (id_col args)) results);
      discriminate.
  - reflexivity.
Qed.

(** *** The body of the [try] *)

(** A body that returns went through every step. *)
Lemma main_body_ok_inv (args : arguments) (w : world) (t : trace) :
  main_body args w = (Ok tt, t) ->
  exists test_data pipeline cleaned tc predictions probabilities has_proba tp
         results binc_str tv,
    read_csv w (csv args) = Ok test_data
    /\ joblib_load w (pkl args) = Ok pipeline
    /\ get_cleaned_df_from_pipeline pipeline test_data = (Ok cleaned, tc)
    /\ predict pipeline (table_after_cleaning pipeline test_data) = Ok predictions
    /\ try_predict_proba pipeline (table_after_predict pipeline test_data)
       = (Ok (probabilities, has_proba), tp)
    /\ assemble args (table_at_assembly pipeline test_data)
         (cleaned_at_assembly pipeline test_data cleaned)
         predictions probabilities has_proba = Ok results
    /\ to_csv w (out args) results = Ok tt
    /\ (bincount_astype_int w predictions = Ok binc_str
        \/ (exists e, bincount_astype_int w predictions = Raise e)
           /\ value_counts_sort_index w predictions = Ok binc_str)
    /\ preview args results probabilities has_proba = (Ok tt, tv)
    /\ t = [ReadCsv (csv args);
            Print stdout (nl +++ "=== INFERENCIA EN ARCHIVO DE PRUEBA ===");
            Print stdout ("Archivo de entrada: " +++ csv args);
            Print stdout ("Forma del archivo de prueba (crudo): " +++ pd.show_shape test_data);
            JoblibLoad (pkl args)]
           ++ tc
           ++ [Print stdout ("Forma del archivo de prueba (limpio): "
                             +++ pd.show_shape cleaned);
               Predict (table_after_cleaning pipeline test_data)]
           ++ tp
           ++ [ToCsv (out args) results;
               Print stdout ("Resultados (LIMPIO) guardados en '" +++ out args +++ "'");
               Print stdout ("Predicciones realizadas: " +++ show_nat (len predictions));
               Print stdout ("Distribución de predicciones: " +++ binc_str)]
           ++ tv.
Proof.
  unfold main_body. intro H.
  apply bind_ok_inv in H. destruct H as (test_data & t1 & r1 & E1 & H & ->).
  apply bind_ok_inv in H. destruct H as (u2 & t2 & r2 & E2 & H & ->).
  apply bind_ok_inv in H. destruct H as (u3 & t3 & r3 & E3 & H & ->).
  apply bind_ok_inv in H. destruct H as (u4 & t4 & r4 & E4 & H & ->).
  apply bind_ok_inv in H. destruct H as (pipeline & t5 & r5 & E5 & H & ->).
  apply bind_ok_inv in H. destruct H as (cleaned & tc & r6 & E6 & H & ->).
  cbv zeta in H.
  apply bind_ok_inv in H. destruct H as (u7 & t7 & r7 & E7 & H & ->).
  apply bind_ok_inv in H. destruct H as (predictions & t8 & r8 & E8 & H & ->).
  apply bind_ok_inv in H. destruct H as ([probabilities has_proba] & tp & r9 & E9 & H & ->).
  apply bind_ok_inv in H. destruct H as (results & t10 & r10 & E10 & H & ->).
  apply bind_ok_inv in H. destruct H as (written & t11 & r11 & E11 & H & ->).
  apply bind_ok_inv in H. destruct H as (u12 & t12 & r12 & E12 & H & ->).
  apply bind_ok_inv in H. destruct H as (binc_str & t13 & r13 & E13 & H & ->).
  apply bind_ok_inv in H. destruct H as (u14 & t14 & r14 & E14 & H & ->).
  apply bind_ok_inv in H. destruct H as (u15 & t15 & tv & E15 & H & ->).
  unfold call, print, emit, lift in *. simpl in *.
  inversion E1; inversion E2; inversion E3; inversion E4; inversion E5;
    inversion E7; inversion E8; inversion E10; inversion E11; inversion E12;
    inversion E14; inversion E15; subst; clear E2 E3 E4 E7 E12 E14 E15.
  exists test_data, pipeline, cleaned, tc, predictions, probabilities, has_proba, tp,
    results, binc_str, tv.
  assert (t13 = [] /\
          (bincount_astype_int w predictions = Ok binc_str
           \/ (exists e, bincount_astype_int w predictions = Raise e)
              /\ value_counts_sort_index w predictions = Ok binc_str)) as [-> Hb].
  { unfold try_except in E13.
    destruct (bincount_astype_int w predictions) as [s|e].
    - inversion E13; subst. auto.
    - destruct (value_counts_sort_index w predictions) as [s|e']; inversion E13; subst.
      split; [reflexivity|]. right. split; [now exists e | reflexivity]. }
  destruct written. repeat split; try assumption.
Qed.

Lemma main_body_events (args : arguments) (w : world) :
  Forall (run_event args w) (snd (main_body args w)).
Proof.
  unfold main_body.
  apply bind_events; [each_event | intros test_data Hraw; simpl in Hraw].
  apply bind_events; [each_event | intros _ _].
  apply bind_events; [each_event | intros _ _].
  apply bind_events; [each_event | intros _ _].
  apply bind_events; [each_event | intros pipeline Hload; simpl in Hload].
  apply bind_events; [now apply get_cleaned_events | intros cleaned Hclean].
  cbv zeta.
  apply bind_events; [each_event | intros _ _].
  apply bind_events.
  { each_event. exists test_data, pipeline. auto. }
  intros predictions Hpred; simpl in Hpred.
  apply bind_events; [now apply try_predict_proba_events | intros [probabilities has_proba] Hproba].
  apply bind_events; [each_event | intros results Hres; simpl in Hres].
  apply bind_events.
  { each_event. split; [reflexivity|].
    destruct (get_cleaned_df_from_pipeline pipeline test_data) as [oc tc] eqn:C.
    fold (table_after_predict pipeline test_data) in Hproba.
    destruct (try_predict_proba pipeline (table_after_predict pipeline test_data))
      as [op tp] eqn:P.
    simpl in Hclean, Hproba. subst oc op.
    exists test_data, pipeline, cleaned, tc, predictions, probabilities, has_proba, tp.
    auto 10. }
  intros _ _.
  apply bind_events; [each_event | intros _ _].
  apply bind_events.
  { apply try_except_events; [each_event | intros; each_event]. }
  intros binc_str _.
  apply bind_events; [each_event | intros _ _].
  apply bind_events; [each_event | intros _ _].
  destruct (preview_of_results _ _ _ _ _ _ _ Hres) as (shown & _ & E).
  cbn [fst snd]. rewrite E. each_event.
Qed.

(** Every event of a run is of the expected kind. *)
Lemma main_events (args : arguments) (w : world) :
  Forall (run_event args w) (snd (main args w)).
Proof.
  unfold main.
  destruct (path_exists w (csv args)); simpl.
  2:{ each_event. unfold error_text. auto. }
  destruct (path_exists w (pkl args)); simpl.
  2:{ each_event. unfold error_text. auto. }
  pose proof (main_body_events args w) as H.
  destruct (main_body args w) as [[u|e] t]; simpl in *; [assumption|].
  destruct (is_FileNotFoundError e); simpl; apply Forall_app; split; try assumption;
    each_event; unfold error_text.
  - right; right; right; left. now exists e.
  - right; right; right; right. now exists e.
Qed.

(** A run that exits with status 0 passed the checks and its body
    returned. *)
Lemma main_ok_inv (args : arguments) (w : world) :
  fst (main args w) = 0%Z ->
  path_exists w (csv args) = true
  /\ path_exists w (pkl args) = true
  /\ main_body args w = (Ok tt, snd (main args w)).
Proof.
  unfold main.
  destruct (path_exists w (csv args)); simpl; [|discriminate].
  destruct (path_exists w (pkl args)); simpl; [|discriminate].
  destruct (main_body args w) as [[[]|e] t]; simpl; [auto|].
  destruct (is_FileNotFoundError e); discriminate.
Qed.

(** The frame passed to [to_csv] is the Results Table of the run. *)
Lemma written_is_results_table (args : arguments) (w : world) (path : string)
    (results : pd.DataFrame) :
  In (ToCsv path results) (snd (main args w)) ->
  path = out args /\ results_table args w results.
Proof.
  intro H. pose proof (main_events args w) as F.
  rewrite Forall_forall in F. exact (F _ H).
Qed.

(** The rest of the body once the table is read, the pipeline loaded and
    the predictions made: the three places where it can still raise. *)
Lemma main_body_from_predictions (args : arguments) (w : world)
    (test_data : pd.DataFrame) (pipeline : Pipeline) (cleaned : pd.DataFrame) (tc : trace)
    (predictions : answer) (probabilities : option np.ndarray) (has_proba : bool)
    (tp : trace) :
  read_csv w (csv args) = Ok test_data ->
  joblib_load w (pkl args) = Ok pipeline ->
  get_cleaned_df_from_pipeline pipeline test_data = (Ok cleaned, tc) ->
  predict pipeline (table_after_cleaning pipeline test_data) = Ok predictions ->
  try_predict_proba pipeline (table_after_predict pipeline test_data)
  = (Ok (probabilities, has_proba), tp) ->
  let before := events_before_assembly args pipeline test_data cleaned tc tp in
  main_body args w =
  match assemble args (table_at_assembly pipeline test_data)
          (cleaned_at_assembly pipeline test_data cleaned)
          predictions probabilities has_proba with
  | Raise e => (Raise e, before)
  | Ok results =>
      let saved :=
        [ToCsv (out args) results;
         Print stdout ("Resultados (LIMPIO) guardados en '" +++ out args +++ "'")] in
      let report binc_str :=
        (Ok tt,
         before ++ saved
         ++ [Print stdout ("Predicciones realizadas: " +++ show_nat (len predictions));
             Print stdout ("Distribución de predicciones: " +++ binc_str)]
         ++ snd (preview args results probabilities has_proba)) in
      match to_csv w (out args) results with
      | Raise e => (Raise e, before ++ [ToCsv (out args) results])
      | Ok _ =>
          match bincount_astype_int w predictions with
          | Ok binc_str => report binc_str
          | Raise _ =>
              match value_counts_sort_index w predictions with
              | Ok binc_str => report binc_str
              | Raise e => (Raise e, before ++ saved)
              end
          end
      end
  end.
Proof.
  intros Hraw Hload Hclean Hpred Hproba before. subst before.
  unfold main_body, events_before_assembly, call, print, emit, lift.
  rewrite Hraw. cbn [bind app]. rewrite Hload. cbn [bind app].
  rewrite Hclean. cbn [bind app]. rewrite Hpred. cbn [bind app].
  fold (table_after_predict pipeline test_data).
  rewrite Hproba. cbn [bind app fst snd].
  fold (table_at_assembly pipeline test_data).
  fold (cleaned_at_assembly pipeline test_data cleaned).
  destruct (assemble args (table_at_assembly pipeline test_data)
              (cleaned_at_assembly pipeline test_data cleaned)
              predictions probabilities has_proba)
    as [results|e] eqn:Hres; cbn [bind app].
  2:{ repeat rewrite app_nil_r. repeat rewrite <- app_assoc. reflexivity. }
  destruct (preview_of_results _ _ _ _ _ _ _ Hres) as (shown & _ & Hprev).
  destruct (to_csv w (out args) results) as [u|e]; cbn [bind app].
  2:{ repeat rewrite app_nil_r. repeat rewrite <- app_assoc. reflexivity. }
  unfold try_except.
  destruct (bincount_astype_int w predictions) as [s|e0]; cbn [bind app].
  - rewrite Hprev. cbn [fst snd app].
    repeat rewrite app_nil_r. repeat rewrite <- app_assoc. reflexivity.
  - destruct (value_counts_sort_index w predictions) as [s|e]; cbn [bind app].
    + rewrite Hprev. cbn [fst snd app].
      repeat rewrite app_nil_r. repeat rewrite <- app_assoc. reflexivity.
    + repeat rewrite app_nil_r. repeat rewrite <- app_assoc. reflexivity.
Qed.

(** The outer handler. *)
Lemma main_of_body (args : arguments) (w : world) :
  path_exists w (csv args) = true ->
  path_exists w (pkl args) = true ->
  (forall t, main_body args w = (Ok tt, t) -> main args w = (0%Z, t))
  /\ (forall e t,
         main_body args w = (Raise e, t) ->
         exists heading,
           main args w = (status_of e, t ++ [Print stderr (heading +++ description e)])).
Proof.
  intros Hcsv Hpkl. unfold main, status_of. rewrite Hcsv, Hpkl. simpl. split.
  - intros t ->. reflexivity.
  - intros e t ->. destruct (is_FileNotFoundError e).
    + now exists (nl +++ "Archivo no encontrado: ").
    + now exists (nl +++ "Error al procesar inferencia: ").
Qed.

Lemma get_cleaned_total (pipeline : Pipeline) (df_raw : pd.DataFrame) :
  exists cleaned tc,
    get_cleaned_df_from_pipeline pipeline df_raw = (Ok cleaned, tc).
Proof.
  destruct (get_cleaned_cases pipeline df_raw)
    as [[_ E] | [(c & df & _ & _ & E) | [(c & a & df & _ & _ & _ & E) | (c & e & _ & _ & E)]]];
    rewrite E; eauto.
Qed.

(** With the table and the pipeline of the run named, the Results Table
    is assembled from them. *)
Lemma results_table_inv (args : arguments) (w : world) (test_data : pd.DataFrame)
    (pipeline : Pipeline) (results : pd.DataFrame) :
  read_csv w (csv args) = Ok test_data ->
  joblib_load w (pkl args) = Ok pipeline ->
  results_table args w results ->
  exists cleaned tc predictions probabilities has_proba tp,
    get_cleaned_df_from_pipeline pipeline test_data = (Ok cleaned, tc)
    /\ predict pipeline (table_after_cleaning pipeline test_data) = Ok predictions
    /\ try_predict_proba pipeline (table_after_predict pipeline test_data)
       = (Ok (probabilities, has_proba), tp)
    /\ assemble args (table_at_assembly pipeline test_data)
         (cleaned_at_assembly pipeline test_data cleaned)
         predictions probabilities has_proba = Ok results.
Proof.
  intros Hraw Hload (raw' & p' & cleaned & tc & preds & proba & has & tp
                     & Hraw' & Hload' & H).
  rewrite Hraw in Hraw'. rewrite Hload in Hload'.
  inversion Hraw'; inversion Hload'; subst. eauto 10.
Qed.

(* ===================================================================== *)
(** ** Validation of the inputs and exit status *)
(* ===================================================================== *)

Lemma names_csv_missing (args : arguments) : names (msg_csv_missing args) (csv args).
Proof.
  exists (nl +++ "Archivo "),
    " no encontrado. Coloca el archivo en el directorio actual o indica la ruta correcta.".
  reflexivity.
Qed.

Lemma names_pkl_missing (args : arguments) : names (msg_pkl_missing args) (pkl args).
Proof. exists (nl +++ "Archivo de pipeline "), " no encontrado.". reflexivity. Qed.

(** C5 (fail fast).  When the input table path or the pipeline artifact
    path does not exist, the process exits with status 1 and the whole run
    consists of one message on the error stream that quotes a missing
    path (the table path when it is missing, the pipeline path
    otherwise): no table is read, no pipeline is loaded or called, and
    no output file is written. *)
Theorem missing_input_fails_fast (args : arguments) (w : world) :
  path_exists w (csv args) = false \/ path_exists w (pkl args) = false ->
  let missing := if path_exists w (csv args) then pkl args else csv args in
  path_exists w missing = false
  /\ (exists text, names text missing /\ main args w = (1%Z, [Print stderr text]))
  /\ Forall light (snd (main args w))
  /\ (forall path df,
         ~ In (ReadCsv path) (snd (main args w))
         /\ ~ In (JoblibLoad path) (snd (main args w))
         /\ ~ In (ToCsv path df) (snd (main args w))).
Proof.
  intros H missing. subst missing. unfold main.
  destruct (path_exists w (csv args)) eqn:Hcsv; simpl.
  - destruct H as [H|H]; [discriminate|]. rewrite H. simpl.
    split; [reflexivity|]. split.
    + exists (msg_pkl_missing args). split; [apply names_pkl_missing | reflexivity].
    + split; [each_event|]. intros path df.
      repeat split; intros [K|[]]; discriminate.
  - split; [exact Hcsv|]. split.
    + exists (msg_csv_missing args). split; [apply names_csv_missing | reflexivity].
    + split; [each_event|]. intros path df.
      repeat split; intros [K|[]]; discriminate.
Qed.

Lemma missing_input_fails_fast_witness :
  (path_exists Examples.nothing_on_disk (csv Examples.command_line) = false
   \/ path_exists Examples.nothing_on_disk (pkl Examples.command_line) = false)
  /\ fst (main Examples.command_line Examples.nothing_on_disk) = 1%Z
  /\ Forall light (snd (main Examples.command_line Examples.nothing_on_disk)).
Proof.
  assert (path_exists Examples.nothing_on_disk (csv Examples.command_line) = false
          \/ path_exists Examples.nothing_on_disk (pkl Examples.command_line) = false) as H
      by (left; reflexivity).
  split; [exact H|].
  destruct (missing_input_fails_fast Examples.command_line Examples.nothing_on_disk H)
    as (_ & (text & _ & E) & L & _).
  split; [now rewrite E | exact L].
Defined.

(** The trace of a run whose inputs exist is the trace of the body,
    followed by the message of the handler when the body raised. *)
Lemma main_trace (args : arguments) (w : world) :
  path_exists w (csv args) = true ->
  path_exists w (pkl args) = true ->
  exists last, snd (main args w) = snd (main_body args w) ++ last.
Proof.
  intros Hcsv Hpkl. destruct (main_of_body args w Hcsv Hpkl) as [Hok Hraise].
  destruct (main_body args w) as [[[]|e] t] eqn:B; simpl.
  - rewrite (Hok t eq_refl). exists []. simpl. now rewrite app_nil_r.
  - destruct (Hraise e t eq_refl) as (heading & E). rewrite E. simpl. eauto.
Qed.

(** Only a run whose inputs exist does more than print. *)
Lemma heavy_event_inputs_exist (args : arguments) (w : world) (ev : event) :
  In ev (snd (main args w)) -> ~ light ev ->
  path_exists w (csv args) = true /\ path_exists w (pkl args) = true.
Proof.
  unfold main. intros Hin Hheavy.
  destruct (path_exists w (csv args)); simpl in Hin.
  2:{ destruct Hin as [<-|[]]. exfalso. apply Hheavy. exact I. }
  destruct (path_exists w (pkl args)); simpl in Hin; [auto|].
  destruct Hin as [<-|[]]. exfalso. apply Hheavy. exact I.
Qed.

(** C8 (exit status).  Past the validation of the two paths: an exception
    that leaves the body of the [try] makes the process print a message
    with its description on the error stream and exit with status 1 when
    its class is [FileNotFoundError] and with status 2 when it is any
    other class; this is what happens when the table load, the pipeline
    load, [predict], the assembly of the results, the output write or the
    report raises; and the process exits with status 0 exactly when the
    body returns. *)
Theorem exit_status_by_error_class (args : arguments) (w : world) :
  path_exists w (csv args) = true ->
  path_exists w (pkl args) = true ->
  let status (e : exception) : Z :=
    match exc_class e with
    | FileNotFoundError => 1%Z
    | ValueError | KeyError | IndexError | AttributeError | TypeError
    | OtherException => 2%Z
    end in
  (forall e t,
      main_body args w = (Raise e, t) ->
      fst (main args w) = status e
      /\ exists heading,
           snd (main args w) = t ++ [Print stderr (heading +++ description e)])
  /\ (fst (main args w) = 0%Z <-> exists t, main_body args w = (Ok tt, t))
  /\ (forall e, read_csv w (csv args) = Raise e -> fst (main args w) = status e)
  /\ (forall test_data e,
         read_csv w (csv args) = Ok test_data ->
         joblib_load w (pkl args) = Raise e ->
         fst (main args w) = status e)
  /\ (forall test_data pipeline e,
         read_csv w (csv args) = Ok test_data ->
         joblib_load w (pkl args) = Ok pipeline ->
         predict pipeline (table_after_cleaning pipeline test_data) = Raise e ->
         fst (main args w) = status e)
  /\ (forall test_data pipeline cleaned tc predictions probabilities has_proba tp,
         read_csv w (csv args) = Ok test_data ->
         joblib_load w (pkl args) = Ok pipeline ->
         get_cleaned_df_from_pipeline pipeline test_data = (Ok cleaned, tc) ->
         predict pipeline (table_after_cleaning pipeline test_data) = Ok predictions ->
         try_predict_proba pipeline (table_after_predict pipeline test_data)
         = (Ok (probabilities, has_proba), tp) ->
         let assembled :=
           assemble args (table_at_assembly pipeline test_data)
             (cleaned_at_assembly pipeline test_data cleaned)
             predictions probabilities has_proba in
         (forall e, assembled = Raise e -> fst (main args w) = status e)
         /\ (forall results e,
                assembled = Ok results ->
                to_csv w (out args) results = Raise e ->
                fst (main args w) = status e)
         /\ (forall results e0 e,
                assembled = Ok results ->
                to_csv w (out args) results = Ok tt ->
                bincount_astype_int w predictions = Raise e0 ->
                value_counts_sort_index w predictions = Raise e ->
                fst (main args w) = status e)).
Proof.
  intros Hcsv Hpkl status.
  destruct (main_of_body args w Hcsv Hpkl) as [Hok Hraise].
  assert (forall e, status_of e = status e) as Hsame.
  { intros [[] d]; reflexivity. }
  assert (forall e t, main_body args w = (Raise e, t) -> fst (main args w) = status e)
    as Hstatus.
  { intros e t B. destruct (Hraise e t B) as (heading & E).
    rewrite E. apply Hsame. }
  split; [|split; [|split; [|split; [|split]]]].
  - intros e t B. destruct (Hraise e t B) as (heading & E). rewrite E. simpl.
    split; [apply Hsame | now exists heading].
  - split.
    + intro H. apply main_ok_inv in H. destruct H as (_ & _ & B). eauto.
    + intros [t B]. now rewrite (Hok t B).
  - intros e H. apply (Hstatus e [ReadCsv (csv args)]).
    unfold main_body, call. now rewrite H.
  - intros test_data e Hraw H. eapply Hstatus.
    unfold main_body, call, print, emit. rewrite Hraw. cbn [bind app].
    rewrite H. reflexivity.
  - intros test_data pipeline e Hraw Hload H.
    destruct (get_cleaned_total pipeline test_data) as (cleaned & tc & Hclean).
    eapply Hstatus.
    unfold main_body, call, print, emit. rewrite Hraw. cbn [bind app].
    rewrite Hload. cbn [bind app]. rewrite Hclean. cbn [bind app].
    rewrite H. reflexivity.
  - intros test_data pipeline cleaned tc predictions probabilities has_proba tp
           Hraw Hload Hclean Hpred Hproba assembled.
    pose proof (main_body_from_predictions args w _ _ _ _ _ _ _ _
                  Hraw Hload Hclean Hpred Hproba) as B.
    cbv zeta in B. fold assembled in B. repeat split.
    + intros e H. rewrite H in B. eapply Hstatus. exact B.
    + intros results e H Hw. rewrite H, Hw in B. eapply Hstatus. exact B.
    + intros results e0 e H Hw Hb Hv. rewrite H, Hw, Hb, Hv in B.
      eapply Hstatus. exact B.
Qed.

Lemma exit_status_by_error_class_witness :
  (path_exists Examples.vanished_table (csv Examples.command_line) = true
   /\ path_exists Examples.vanished_table (pkl Examples.command_line) = true
   /\ read_csv Examples.vanished_table (csv Examples.command_line)
      = Raise (mkException FileNotFoundError "No such file or directory")
   /\ fst (main Examples.command_line Examples.vanished_table) = 1%Z)
  /\ (path_exists Examples.unreadable_table (csv Examples.command_line) = true
      /\ path_exists Examples.unreadable_table (pkl Examples.command_line) = true
      /\ read_csv Examples.unreadable_table (csv Examples.command_line)
         = Raise (mkException OtherException "Error tokenizing data")
      /\ fst (main Examples.command_line Examples.unreadable_table) = 2%Z)
  /\ (fst (main Examples.command_line
             (Examples.files Examples.raw_table Examples.plain_pipeline)) = 0%Z
      <-> exists t,
          main_body Examples.command_line
            (Examples.files Examples.raw_table Examples.plain_pipeline) = (Ok tt, t)).
Proof.
  split; [|split].
  - repeat (split; [reflexivity|]).
    exact (proj1 (proj2 (proj2 (exit_status_by_error_class Examples.command_line
                                  Examples.vanished_table eq_refl eq_refl)))
             (mkException FileNotFoundError "No such file or directory") eq_refl).
  - repeat (split; [reflexivity|]).
    exact (proj1 (proj2 (proj2 (exit_status_by_error_class Examples.command_line
                                  Examples.unreadable_table eq_refl eq_refl)))
             (mkException OtherException "Error tokenizing data") eq_refl).
  - exact (proj1 (proj2 (exit_status_by_error_class Examples.command_line
                           (Examples.files Examples.raw_table Examples.plain_pipeline)
                           eq_refl eq_refl))).
Defined.

(* ===================================================================== *)
(** ** What the pipeline is called on *)
(* ===================================================================== *)

(** A run that writes its results has called [predict] on the table it
    read, as the cleaning stage left it. *)
Lemma written_after_predict (args : arguments) (w : world) (test_data : pd.DataFrame)
    (pipeline : Pipeline) (path : string) (results : pd.DataFrame) :
  read_csv w (csv args) = Ok test_data ->
  joblib_load w (pkl args) = Ok pipeline ->
  In (ToCsv path results) (snd (main args w)) ->
  In (Predict (table_after_cleaning pipeline test_data)) (snd (main args w)).
Proof.
  intros Hraw Hload Hin.
  destruct (heavy_event_inputs_exist args w _ Hin (fun K => K)) as [Hcsv Hpkl].
  destruct (written_is_results_table args w _ _ Hin)
    as (_ & raw' & p & cleaned & tc & preds & proba & has & tp
        & Hraw' & Hload' & Hclean & Hpred & Hproba & Hres).
  rewrite Hraw in Hraw'. inversion Hraw'; subst raw'. clear Hraw'.
  rewrite Hload in Hload'. inversion Hload'; subst p. clear Hload'.
  destruct (main_trace args w Hcsv Hpkl) as (last & E). rewrite E.
  apply in_or_app. left.
  pose proof (main_body_from_predictions args w _ _ _ _ _ _ _ _
                Hraw Hload Hclean Hpred Hproba) as B.
  cbv zeta in B.
  assert (In (Predict (table_after_cleaning pipeline test_data))
            (events_before_assembly args pipeline test_data cleaned tc tp)) as K.
  { unfold events_before_assembly. apply in_or_app. right.
    apply in_or_app. right. apply in_or_app. left. simpl. auto. }
  rewrite B. rewrite Hres.
  destruct (to_csv w (out args) results);
    [|cbn [snd]; apply in_or_app; left; exact K].
  destruct (bincount_astype_int w preds);
    [cbn [snd]; apply in_or_app; left; exact K|].
  destruct (value_counts_sort_index w preds); cbn [snd]; apply in_or_app; left; exact K.
Qed.

(** C7 as worded does not hold.  The script hands [predict] the object
    it handed to the cleaning stage.  Here the stage drops the identifier
    from that object in place and returns it: the Cleaned Table is that
    edited table, it differs from the table read from the file, and it is
    what [predict] and [predict_proba] receive; the table as it was read
    is passed to neither.  The run exits with status 0. *)
Example predict_receives_the_cleaned_table :
  let w := Examples.files Examples.raw_table Examples.in_place_pipeline in
  let cleaned := pd.mkDataFrame 2 [(LStr "x", [CInt 5; CInt 7])] in
  read_csv w (csv Examples.command_line) = Ok Examples.raw_table
  /\ joblib_load w (pkl Examples.command_line) = Ok Examples.in_place_pipeline
  /\ get_cleaned_df_from_pipeline Examples.in_place_pipeline Examples.raw_table
     = (Ok cleaned, [Transform Examples.raw_table])
  /\ cleaned <> Examples.raw_table
  /\ fst (main Examples.command_line w) = 0%Z
  /\ In (Predict cleaned) (snd (main Examples.command_line w))
  /\ In (PredictProba cleaned) (snd (main Examples.command_line w))
  /\ ~ In (Predict Examples.raw_table) (snd (main Examples.command_line w))
  /\ ~ In (PredictProba Examples.raw_table) (snd (main Examples.command_line w)).
Proof.
  cbv zeta.
  split; [reflexivity|]. split; [reflexivity|]. split; [reflexivity|].
  split; [discriminate|]. split; [reflexivity|].
  split; [vm_compute; do 7 right; left; reflexivity|].
  split; [vm_compute; do 8 right; left; reflexivity|].
  split; vm_compute; intro H;
    repeat (destruct H as [H|H]; [discriminate H|]); exact H.
Qed.

(** C7, amended (prediction on the table that was read).  In every run,
    the frame passed to [predict] is the table read from the input file
    as the cleaning stage left it, and the frame passed to
    [predict_proba] is that table as [predict] left it; the predictions
    stored in a written Results Table are the answer of [predict] on
    that table.  When the cleaning stage and [predict] do not modify the
    table they are given, both operations receive the table as it was
    read, and a cleaned table that differs from it is passed to neither
    operation. *)
Theorem predict_receives_table_read (args : arguments) (w : world) :
  (forall df,
      In (Predict df) (snd (main args w)) ->
      exists raw pipeline,
        read_csv w (csv args) = Ok raw
        /\ joblib_load w (pkl args) = Ok pipeline
        /\ df = table_after_cleaning pipeline raw)
  /\ (forall df,
         In (PredictProba df) (snd (main args w)) ->
         exists raw pipeline,
           read_csv w (csv args) = Ok raw
           /\ joblib_load w (pkl args) = Ok pipeline
           /\ df = predict_leaves pipeline (table_after_cleaning pipeline raw))
  /\ (forall results,
         In (ToCsv (out args) results) (snd (main args w)) ->
         exists raw pipeline cleaned tc predictions probabilities has_proba,
           read_csv w (csv args) = Ok raw
           /\ joblib_load w (pkl args) = Ok pipeline
           /\ get_cleaned_df_from_pipeline pipeline raw = (Ok cleaned, tc)
           /\ In (Predict (table_after_cleaning pipeline raw)) (snd (main args w))
           /\ predict pipeline (table_after_cleaning pipeline raw) = Ok predictions
           /\ assemble args (table_at_assembly pipeline raw)
                (cleaned_at_assembly pipeline raw cleaned)
                predictions probabilities has_proba
              = Ok results)
  /\ (forall raw pipeline cleaned tc,
         read_csv w (csv args) = Ok raw ->
         joblib_load w (pkl args) = Ok pipeline ->
         get_cleaned_df_from_pipeline pipeline raw = (Ok cleaned, tc) ->
         table_after_cleaning pipeline raw = raw ->
         predict_leaves pipeline raw = raw ->
         (forall df,
             In (Predict df) (snd (main args w))
             \/ In (PredictProba df) (snd (main args w)) ->
             df = raw)
         /\ (cleaned <> raw ->
             ~ In (Predict cleaned) (snd (main args w))
             /\ ~ In (PredictProba cleaned) (snd (main args w)))).
Proof.
  pose proof (main_events args w) as F. rewrite Forall_forall in F.
  split; [intros df H; exact (F _ H)|].
  split; [intros df H; exact (F _ H)|].
  split.
  - intros results H.
    destruct (written_is_results_table args w _ _ H)
      as (_ & raw & p & cleaned & tc & preds & proba & has & tp
          & Hr & Hload & Hclean & Hpred & Hproba & Hres).
    exists raw, p, cleaned, tc, preds, proba, has.
    repeat split; try assumption.
    eapply written_after_predict; eauto.
  - intros raw pipeline cleaned tc Hr Hload _ Hstage Hpredict.
    assert (forall df,
               In (Predict df) (snd (main args w))
               \/ In (PredictProba df) (snd (main args w)) ->
               df = raw) as Hraw.
    { intros df [H|H]; destruct (F _ H) as (raw' & p' & Hr' & Hload' & ->);
        rewrite Hr in Hr'; rewrite Hload in Hload';
        inversion Hr'; inversion Hload'; subst raw' p'.
      - exact Hstage.
      - unfold table_after_predict. now rewrite Hstage. }
    split; [exact Hraw|].
    intro Hne. split; intro H; apply Hne, Hraw; auto.
Qed.

Lemma predict_receives_table_read_witness :
  (In (Predict (pd.mkDataFrame 2 [(LStr "x", [CInt 5; CInt 7])]))
      (snd (main Examples.command_line
              (Examples.files Examples.raw_table Examples.in_place_pipeline)))
   /\ exists raw pipeline,
       read_csv (Examples.files Examples.raw_table Examples.in_place_pipeline)
         (csv Examples.command_line) = Ok raw
       /\ joblib_load (Examples.files Examples.raw_table Examples.in_place_pipeline)
            (pkl Examples.command_line) = Ok pipeline
       /\ pd.mkDataFrame 2 [(LStr "x", [CInt 5; CInt 7])]
          = table_after_cleaning pipeline raw)
  /\ (read_csv (Examples.files Examples.table_with_Prediccion_id Examples.cleaning_pipeline)
        (csv Examples.command_line_Prediccion_id) = Ok Examples.table_with_Prediccion_id
      /\ pd.mkDataFrame 2 [(LStr "x", [CInt 5; CInt 7])] <> Examples.table_with_Prediccion_id
      /\ ~ In (Predict (pd.mkDataFrame 2 [(LStr "x", [CInt 5; CInt 7])]))
             (snd (main Examples.command_line_Prediccion_id
                     (Examples.files Examples.table_with_Prediccion_id
                        Examples.cleaning_pipeline)))).
Proof.
  split.
  - assert (In (Predict (pd.mkDataFrame 2 [(LStr "x", [CInt 5; CInt 7])]))
              (snd (main Examples.command_line
                      (Examples.files Examples.raw_table Examples.in_place_pipeline))))
      as H by (vm_compute; do 7 right; left; reflexivity).
    split; [exact H|].
    exact (proj1 (predict_receives_table_read Examples.command_line
                    (Examples.files Examples.raw_table Examples.in_place_pipeline))
             _ H).
  - split; [reflexivity|].
    assert (pd.mkDataFrame 2 [(LStr "x", [CInt 5; CInt 7])]
            <> Examples.table_with_Prediccion_id) as Hne by discriminate.
    split; [exact Hne|].
    exact (proj1 (proj2 (proj2 (proj2 (proj2
             (predict_receives_table_read Examples.command_line_Prediccion_id
                (Examples.files Examples.table_with_Prediccion_id
                   Examples.cleaning_pipeline))))
             Examples.table_with_Prediccion_id Examples.cleaning_pipeline
             (pd.mkDataFrame 2 [(LStr "x", [CInt 5; CInt 7])])
             [Transform Examples.table_with_Prediccion_id]
             eq_refl eq_refl eq_refl eq_refl eq_refl) Hne)).
Defined.

(* ===================================================================== *)
(** ** The preview *)
(* ===================================================================== *)

(** C10 (the preview always has the prediction column).  No run prints
    the fallback preview of all columns.  The preview is computed from a
    Results Table assembled on lines 85-100, and for every such table:
    [Prediccion] is one of its columns; the labels to show (the
    identifier label when it is a column of the results, then
    [Prediccion], then [Probabilidad_Default] when the probabilities have
    two columns or more) are all columns of the results, so the filter of
    line 122 removes none and the list is not empty; and the preview
    prints the first rows of exactly these columns and does not raise.
    A run that exits with status 0 ends with that frame. *)
Theorem preview_shows_preferred_columns (args : arguments) (w : world) :
  (forall df, ~ In (PrintFrame AllColumns df) (snd (main args w)))
  /\ (forall test_data cleaned predictions probabilities has_proba results,
         assemble args test_data cleaned predictions probabilities has_proba = Ok results ->
         pd.label_in Prediccion results = true
         /\ In Prediccion (cols_show args results probabilities has_proba)
         /\ filter (fun c => pd.label_in c results)
                   (cols_show args results probabilities has_proba)
            = cols_show args results probabilities has_proba
         /\ cols_show args results probabilities has_proba
            = (if pd.label_in (LStr (id_col args)) results
               then [LStr (id_col args)] else [])
              ++ [Prediccion]
              ++ (if has_proba
                     && match probabilities with
                        | Some p => two_columns p
                        | None => false
                        end
                  then [Probabilidad_Default] else [])
         /\ exists shown,
             pd.getitem_list results (cols_show args results probabilities has_proba)
             = Ok shown
             /\ preview args results probabilities has_proba
                = (Ok tt,
                   [Print stdout (nl +++ "Primeras " +++ show_Z (head args) +++ " filas:");
                    PrintFrame PreferredColumns (pd.head shown (head args))]))
  /\ (fst (main args w) = 0%Z ->
      exists results probabilities has_proba shown before,
        results_table args w results
        /\ pd.getitem_list results (cols_show args results probabilities has_proba)
           = Ok shown
        /\ main args w
           = (0%Z, before ++ [PrintFrame PreferredColumns (pd.head shown (head args))])).
Proof.
  split; [|split].
  - intros df H. pose proof (main_events args w) as F. rewrite Forall_forall in F.
    specialize (F _ H). simpl in F. discriminate.
  - intros raw cleaned preds proba has results Hres.
    pose proof (cols_show_present _ _ _ _ _ _ _ Hres) as All.
    split; [eapply assemble_has_Prediccion; eauto|].
    split.
    { unfold cols_show.
      destruct (has && _); destruct (pd.label_in (LStr (id_col args)) results);
        simpl; auto. }
    split; [apply filter_all; exact All|].
    split.
    { unfold cols_show.
      destruct (has && _); destruct (pd.label_in (LStr (id_col args)) results);
        reflexivity. }
    apply (preview_of_results _ _ _ _ _ _ _ Hres).
  - intro H0. destruct (main_ok_inv args w H0) as (Hcsv & Hpkl & B).
    destruct (main_body_ok_inv args w _ B)
      as (raw & p & cleaned & tc & preds & proba & has & tp & results & binc & tv
          & Hraw & Hload & Hclean & Hpred & Hproba & Hres & Hw & Hb & Hprev & Ht).
    destruct (preview_of_results _ _ _ _ _ _ _ Hres) as (shown & Hshown & Hprev').
    rewrite Hprev' in Hprev. inversion Hprev; subst tv. clear Hprev.
    exists results, proba, has, shown. eexists.
    split; [exists raw, p, cleaned, tc, preds, proba, has, tp; auto 10|].
    split; [exact Hshown|].
    rewrite (surjective_pairing (main args w)), H0, Ht. f_equal.
    change [Print stdout (nl +++ "Primeras " +++ show_Z (head args) +++ " filas:");
            PrintFrame PreferredColumns (pd.head shown (head args))]
      with ([Print stdout (nl +++ "Primeras " +++ show_Z (head args) +++ " filas:")]
            ++ [PrintFrame PreferredColumns (pd.head shown (head args))]).
    repeat rewrite app_assoc. reflexivity.
Qed.

Lemma preview_shows_preferred_columns_witness :
  fst (main Examples.command_line
         (Examples.files Examples.raw_table Examples.plain_pipeline)) = 0%Z
  /\ exists results probabilities has_proba shown before,
      results_table Examples.command_line
        (Examples.files Examples.raw_table Examples.plain_pipeline) results
      /\ pd.getitem_list results
           (cols_show Examples.command_line results probabilities has_proba) = Ok shown
      /\ main Examples.command_line
           (Examples.files Examples.raw_table Examples.plain_pipeline)
         = (0%Z,
            before ++ [PrintFrame PreferredColumns
                         (pd.head shown (head Examples.command_line))]).
Proof.
  split; [reflexivity|].
  exact (proj2 (proj2 (preview_shows_preferred_columns Examples.command_line
                         (Examples.files Examples.raw_table Examples.plain_pipeline)))
           eq_refl).
Defined.

(* ===================================================================== *)
(** ** The two output streams *)
(* ===================================================================== *)

(** Whatever reaches the error stream is one of the five texts of
    [error_text]: the two missing-file messages, the cleaning warning and
    the two fatal messages. *)
Lemma error_stream_texts (args : arguments) (w : world) (text : string) :
  In (Print stderr text) (snd (main args w)) -> error_text args text.
Proof.
  intro H. pose proof (main_events args w) as F. rewrite Forall_forall in F.
  exact (F _ H).
Qed.

(** The notice about [predict_proba] is none of them. *)
Lemma aviso_proba_not_error_text (args : arguments) : ~ error_text args aviso_proba.
Proof.
  unfold error_text.
  intros [H | [H | [[e H] | [[e H] | [e H]]]]]; vm_compute in H; discriminate.
Qed.

(** In every run that gets as far as the probabilities with a pipeline
    whose [predict_proba] is missing or raises, the notice is printed on
    standard output and never on the error stream. *)
Lemma predict_proba_notice_stream (args : arguments) (w : world)
    (test_data : pd.DataFrame) (pipeline : Pipeline) (predictions : answer) :
  path_exists w (csv args) = true ->
  path_exists w (pkl args) = true ->
  read_csv w (csv args) = Ok test_data ->
  joblib_load w (pkl args) = Ok pipeline ->
  predict pipeline (table_after_cleaning pipeline test_data) = Ok predictions ->
  (predict_proba pipeline = None
   \/ exists f e, predict_proba pipeline = Some f
                  /\ f (table_after_predict pipeline test_data) = Raise e) ->
  In (Print stdout aviso_proba) (snd (main args w))
  /\ ~ In (Print stderr aviso_proba) (snd (main args w)).
Proof.
  intros Hcsv Hpkl Hraw Hload Hpred Hno. split.
  - destruct (main_trace args w Hcsv Hpkl) as (last & E). rewrite E.
    apply in_or_app. left.
    destruct (get_cleaned_total pipeline test_data) as (cleaned & tc & Hclean).
    assert (exists tp, try_predict_proba pipeline (table_after_predict pipeline test_data)
                       = (Ok (None, false), tp)
                       /\ In (Print stdout aviso_proba) tp) as (tp & Hproba & Htp).
    { destruct (try_predict_proba_cases pipeline (table_after_predict pipeline test_data))
        as [(f & a & Hf & Ha & C) | [(f & e & _ & _ & C) | [_ C]]].
      - destruct Hno as [Hn | (f' & e & Hf' & He)]; [congruence|].
        rewrite Hf in Hf'. inversion Hf'; subst f'. congruence.
      - eexists. split; [exact C | simpl; auto].
      - eexists. split; [exact C | simpl; auto]. }
    pose proof (main_body_from_predictions args w _ _ _ _ _ _ _ _
                  Hraw Hload Hclean Hpred Hproba) as B.
    cbv zeta in B.
    assert (In (Print stdout aviso_proba)
              (events_before_assembly args pipeline test_data cleaned tc tp)) as K.
    { unfold events_before_assembly. apply in_or_app. right.
      apply in_or_app. right. apply in_or_app. right. exact Htp. }
    rewrite B.
    destruct (assemble args _ _ predictions None false); [|exact K].
    destruct (to_csv w (out args) _); [|cbn [snd]; apply in_or_app; left; exact K].
    destruct (bincount_astype_int w predictions);
      [cbn [snd]; apply in_or_app; left; exact K|].
    destruct (value_counts_sort_index w predictions);
      cbn [snd]; apply in_or_app; left; exact K.
  - intro H. apply error_stream_texts in H.
    exact (aviso_proba_not_error_text args H).
Qed.

(** C9 (error stream), at a run whose [predict_proba] raises: the table
    of the scenario of section 8 and a pipeline that predicts [0, 1] and
    raises on [predict_proba].  The run exits with status 0; the notice
    "[Aviso] El estimador no soporta predict_proba; ..." is printed on
    standard output (line 82 has no [file=sys.stderr]) and nothing at all
    is written to the error stream. *)
Theorem predict_proba_notice_on_standard_output :
  fst (main Examples.command_line
         (Examples.files Examples.raw_table Examples.no_proba_pipeline)) = 0%Z
  /\ In (Print stdout aviso_proba)
        (snd (main Examples.command_line
                (Examples.files Examples.raw_table Examples.no_proba_pipeline)))
  /\ forall text,
      ~ In (Print stderr text)
          (snd (main Examples.command_line
                  (Examples.files Examples.raw_table Examples.no_proba_pipeline))).
Proof.
  split; [reflexivity|]. split.
  - vm_compute. do 8 right. left. reflexivity.
  - intros text H. vm_compute in H.
    repeat (destruct H as [H|H]; [discriminate|]). exact H.
Qed.

(* ===================================================================== *)
(** ** The columns of the Results Table *)
(* ===================================================================== *)

Lemma column_length (a : np.ndarray) (j : nat) :
  length (np.column a j) = np.shape_at a 0.
Proof. unfold np.column. now rewrite length_map, length_seq. Qed.

Lemma column_nth (a : np.ndarray) (i j : nat) :
  i < np.shape_at a 0 -> nth i (np.column a j) CNaN = np.at2 a i j.
Proof.
  intro H. unfold np.column.
  rewrite (nth_indep _ CNaN (np.at2 a 0 j)) by (now rewrite length_map, length_seq).
  rewrite (map_nth (fun i => np.at2 a i j)). now rewrite seq_nth.
Qed.

(** An assignment under a label that is not spread over several columns
    either found the index it needed or found an empty index and
    re-indexed the frame. *)
Lemma setitem_index (df r : pd.DataFrame) (key : label) (v : list cell) :
  pd.spreads df key (length v) = false ->
  pd.setitem df key v = Ok r ->
  pd.index_size df = length v \/ (pd.index_size df = 0 /\ 0 < length v).
Proof.
  intros Hno H. apply pd_facts.setitem_cases in H.
  destruct H as [[K _] | (_ & Hsize & _)]; [congruence|].
  rewrite ensure_valid_index_size in Hsize.
  destruct (pd.index_size df =? 0) eqn:Z; destruct (0 <? length v) eqn:L;
    cbn [andb] in Hsize; auto.
  right. apply Nat.eqb_eq in Z. apply Nat.ltb_lt in L. auto.
Qed.

(** *** The columns an assignment does not touch *)

Section Kept_columns.

Variable keep : label -> bool.

Lemma kept_assign (key : label) (v : list cell) (cs : list (label * list cell)) :
  keep key = false ->
  filter (fun c => keep (fst c)) (map (pd.assign key v) cs)
  = filter (fun c => keep (fst c)) cs.
Proof.
  intro K. induction cs as [|c cs IH]; simpl; [reflexivity|].
  rewrite pd_facts.assign_fst. unfold pd.assign at 1.
  destruct (label_eqb (fst c) key) eqn:E.
  - apply label_eqb_eq in E. rewrite E, K. exact IH.
  - destruct (keep (fst c)); now rewrite IH.
Qed.

Lemma kept_spread (key : label) (rows : nat) (scalars : list cell)
    (cs : list (label * list cell)) :
  keep key = false ->
  filter (fun c => keep (fst c)) (pd.spread key rows scalars cs)
  = filter (fun c => keep (fst c)) cs.
Proof.
  intro K. revert scalars. induction cs as [|c cs IH]; intro scalars; [reflexivity|].
  cbn [pd.spread]. destruct (label_eqb (fst c) key) eqn:E.
  - apply label_eqb_eq in E.
    destruct scalars; cbn [filter fst]; rewrite E, K; apply IH.
  - cbn [filter]. destruct (keep (fst c)); now rewrite IH.
Qed.

Lemma kept_place (df : pd.DataFrame) (key : label) (col : list cell) :
  keep key = false ->
  filter (fun c => keep (fst c)) (pd.cols (pd.place df key col))
  = filter (fun c => keep (fst c)) (pd.cols df).
Proof.
  intro K. rewrite pd_facts.place_cols. destruct (pd.label_in key df).
  - now apply kept_assign.
  - rewrite filter_app. cbn [filter fst]. rewrite K. apply app_nil_r.
Qed.

(** An assignment that re-indexes nothing leaves every column of
    another kind as it is, in its place. *)
Lemma kept_setitem_answer (df r : pd.DataFrame) (key : label) (p : answer) :
  keep key = false ->
  setitem_answer df key p = Ok r ->
  pd.ensure_valid_index df (values_of p) = df ->
  filter (fun c => keep (fst c)) (pd.cols r)
  = filter (fun c => keep (fst c)) (pd.cols df).
Proof.
  intros K H E. apply setitem_answer_cases in H.
  destruct H as [[_ (scalars & ->)] | (_ & column & _ & -> & _)].
  - cbn [pd.cols]. now apply kept_spread.
  - rewrite E. now apply kept_place.
Qed.

Lemma kept_setitem (df r : pd.DataFrame) (key : label) (v : list cell) :
  keep key = false ->
  pd.setitem df key v = Ok r ->
  pd.ensure_valid_index df v = df ->
  filter (fun c => keep (fst c)) (pd.cols r)
  = filter (fun c => keep (fst c)) (pd.cols df).
Proof. exact (kept_setitem_answer df r key (AArray v)). Qed.

Lemma kept_insert0 (df r : pd.DataFrame) (column : label) (v : list cell) :
  keep column = false ->
  pd.insert df 0 column v = Ok r ->
  pd.ensure_valid_index df v = df ->
  filter (fun c => keep (fst c)) (pd.cols r)
  = filter (fun c => keep (fst c)) (pd.cols df).
Proof.
  intros K H E. apply pd_facts.insert0_ok in H. destruct H as (_ & _ & ->).
  cbn [filter fst]. now rewrite K, E.
Qed.

End Kept_columns.

Lemma feature_columns_of_input (id : label) (df : pd.DataFrame) :
  feature_columns id df
  = filter (fun c => negb (label_eqb (fst c) id)) (input_columns df).
Proof.
  unfold feature_columns, input_columns.
  induction (pd.cols df) as [|c cs IH]; [reflexivity|].
  cbn [filter]. destruct (negb (output_label (fst c))); cbn [andb filter].
  - destruct (negb (label_eqb (fst c) id)); now rewrite IH.
  - exact IH.
Qed.

Lemma lookup_input_columns (df : pd.DataFrame) (l : label) :
  output_label l = false ->
  pd.lookup df l
  = option_map snd (find (fun c => label_eqb (fst c) l) (input_columns df)).
Proof.
  intro K. unfold pd.lookup, input_columns.
  induction (pd.cols df) as [|c cs IH]; simpl; [reflexivity|].
  destruct (label_eqb (fst c) l) eqn:E.
  - assert (output_label (fst c) = false) as K'
        by (apply label_eqb_eq in E; now rewrite E).
    rewrite K'. simpl. now rewrite E.
  - destruct (negb (output_label (fst c))); simpl; [now rewrite E | exact IH].
Qed.

Lemma lookup_feature_columns (id : label) (df : pd.DataFrame) (l : label) :
  output_label l = false -> l <> id ->
  pd.lookup df l
  = option_map snd (find (fun c => label_eqb (fst c) l) (feature_columns id df)).
Proof.
  intros K D. unfold pd.lookup, feature_columns.
  induction (pd.cols df) as [|c cs IH]; simpl; [reflexivity|].
  destruct (label_eqb (fst c) l) eqn:E.
  - assert (negb (output_label (fst c)) && negb (label_eqb (fst c) id) = true) as K'.
    { apply label_eqb_eq in E. rewrite E, K.
      apply label_eqb_neq in D. now rewrite D. }
    rewrite K'. simpl. now rewrite E.
  - destruct (negb (output_label (fst c)) && negb (label_eqb (fst c) id));
      simpl; [now rewrite E | exact IH].
Qed.

Lemma output_label_Prediccion : output_label Prediccion = true.
Proof. reflexivity. Qed.

(** The probabilities of a run whose [predict_proba] answers. *)
Lemma try_predict_proba_answer (pipeline : Pipeline) (test_data : pd.DataFrame)
    (f : pd.DataFrame -> outcome np.ndarray) (a : np.ndarray)
    (probabilities : option np.ndarray) (has_proba : bool) (tp : trace) :
  predict_proba pipeline = Some f -> f test_data = Ok a ->
  try_predict_proba pipeline test_data = (Ok (probabilities, has_proba), tp) ->
  probabilities = Some a /\ has_proba = true.
Proof.
  intros Hf Ha. unfold try_predict_proba. rewrite Hf. unfold call. rewrite Ha. simpl.
  intro H. now inversion H.
Qed.

(** The probabilities of a run whose [predict_proba] is missing or
    raises. *)
Lemma try_predict_proba_absent (pipeline : Pipeline) (test_data : pd.DataFrame) :
  (predict_proba pipeline = None
   \/ exists f e, predict_proba pipeline = Some f /\ f test_data = Raise e) ->
  exists tp, try_predict_proba pipeline test_data = (Ok (None, false), tp).
Proof.
  intro H. destruct (try_predict_proba_cases pipeline test_data)
    as [(f & a & Hf & Ha & C) | [(f & e & _ & _ & C) | [_ C]]]; eauto.
  destruct H as [Hn | (f' & e & Hf' & He)]; [congruence|].
  rewrite Hf in Hf'. inversion Hf'; subst f'. congruence.
Qed.

(** The two assignments of lines 96-97: the labels of the frame, and the
    two columns when neither label is repeated in the frame. *)
Lemma two_probability_columns (base r1 results : pd.DataFrame) (a : np.ndarray) :
  pd.setitem base Probabilidad_No_Default (np.column a 0) = Ok r1 ->
  pd.setitem r1 Probabilidad_Default (np.column a 1) = Ok results ->
  (not_repeated Probabilidad_No_Default base ->
   not_repeated Probabilidad_Default base ->
   pd.lookup results Probabilidad_No_Default = Some (np.column a 0)
   /\ pd.lookup results Probabilidad_Default = Some (np.column a 1))
  /\ pd.columns results
     = pd.columns base
       ++ filter (fun l => negb (pd.label_in l base))
                 [Probabilidad_No_Default; Probabilidad_Default]
  /\ (forall l, l <> Probabilidad_No_Default -> l <> Probabilidad_Default ->
                pd.label_in l results = pd.label_in l base).
Proof.
  intros S1 S2. split; [|split].
  - intros N1 N2.
    pose proof (setitem_not_repeated _ _ _ Probabilidad_Default _ S1 N2) as N2'.
    pose proof (pd_facts.setitem_ok _ _ _ _
                  (pd_facts.not_spreads _ _ _ N1) S1) as (I1 & L1 & _).
    pose proof (pd_facts.setitem_ok _ _ _ _
                  (pd_facts.not_spreads _ _ _ N2') S2) as (I2 & L2 & _ & O2 & _).
    assert (pd.ensure_valid_index r1 (np.column a 1) = r1) as Same.
    { apply pd_facts.ensure_valid_index_same. rewrite I1. now rewrite !column_length. }
    split; [|exact L2].
    rewrite O2 by discriminate. now rewrite Same.
  - rewrite (pd_facts.setitem_columns _ _ _ _ S2), (pd_facts.setitem_columns _ _ _ _ S1).
    rewrite <- app_assoc. f_equal.
    rewrite (setitem_label_in _ _ _ Probabilidad_Default _ S1).
    simpl. rewrite orb_false_r.
    destruct (pd.label_in Probabilidad_No_Default base);
      destruct (pd.label_in Probabilidad_Default base); reflexivity.
  - intros l H1 H2.
    rewrite (setitem_label_in _ _ _ l _ S2).
    rewrite (setitem_label_in _ _ _ l _ S1).
    apply label_eqb_neq in H1, H2. rewrite H1, H2. now rewrite !orb_false_r.
Qed.

(** The assignment of line 100. *)
Lemma one_probability_column (base results : pd.DataFrame) (a : np.ndarray) :
  pd.setitem base Probabilidad (np.ravel a) = Ok results ->
  (not_repeated Probabilidad base ->
   pd.lookup results Probabilidad = Some (np.ravel a))
  /\ pd.columns results
     = pd.columns base ++ filter (fun l => negb (pd.label_in l base)) [Probabilidad]
  /\ (forall l, l <> Probabilidad -> pd.label_in l results = pd.label_in l base).
Proof.
  intro S. split; [|split].
  - intro N.
    pose proof (pd_facts.setitem_ok _ _ _ _ (pd_facts.not_spreads _ _ _ N) S)
      as (_ & L & _).
    exact L.
  - rewrite (pd_facts.setitem_columns _ _ _ _ S). simpl.
    now destruct (pd.label_in Probabilidad base).
  - intros l H. rewrite (setitem_label_in _ _ _ l _ S).
    apply label_eqb_neq in H. rewrite H. now rewrite orb_false_r.
Qed.

(** C2 as worded does not hold.  The input is the file written by an
    earlier run, which already has the columns [Probabilidad_No_Default]
    and [Probabilidad_Default]; the pipeline has no cleaning stage and
    its [predict_proba] answers with a 2-D array of two columns.  The
    run exits with status 0; lines 96-97 assign to the two columns the
    frame already has, so the Results Table has the five columns of the
    frame after line 91 and gains none. *)
Example probability_columns_already_there :
  let w := Examples.files Examples.previous_results Examples.plain_pipeline in
  exists results base,
    fst (main Examples.command_line w) = 0%Z
    /\ In (ToCsv (out Examples.command_line) results) (snd (main Examples.command_line w))
    /\ try_predict_proba Examples.plain_pipeline Examples.previous_results
       = (Ok (Some Examples.two_class_proba, true),
          [PredictProba Examples.previous_results])
    /\ np.ndim Examples.two_class_proba = 2
    /\ np.shape_at Examples.two_class_proba 1 = 2
    /\ assemble Examples.command_line Examples.previous_results Examples.previous_results
         (AArray [CInt 0; CInt 1]) None false = Ok base
    /\ length (pd.columns base) = 5
    /\ length (pd.columns results) = 5
    /\ pd.columns results = pd.columns base.
Proof.
  cbv zeta. do 2 eexists. split; [reflexivity|]. split.
  - vm_compute. do 8 right. left. reflexivity.
  - repeat split; reflexivity.
Qed.

(** C2, amended (probability columns by shape).  In a run whose
    [predict_proba] answers with the array [a] and that writes a Results
    Table, let [base] be the frame after line 91 (the cleaned table, the
    identifier when it is inserted, and [Prediccion]).  When [a] is 2-D
    with at least 2 columns, the columns of the Results Table are those
    of [base] followed by those of [Probabilidad_No_Default] and
    [Probabilidad_Default] that [base] does not have yet: exactly these
    two when [base] has neither, and no other in any case, in particular
    not [Probabilidad] and not a column for a third column of [a]; and
    when neither label is repeated in [base], the Results Table has
    [Probabilidad_No_Default] equal to column 0 of [a] and
    [Probabilidad_Default] equal to column 1.  Otherwise the columns of
    the Results Table are those of [base] followed by [Probabilidad]
    when [base] does not have it yet, and when that label is not
    repeated in [base], [Probabilidad] is the flattened array. *)
Theorem probability_columns_by_shape (args : arguments) (w : world)
    (test_data : pd.DataFrame) (pipeline : Pipeline)
    (f : pd.DataFrame -> outcome np.ndarray) (a : np.ndarray) (results : pd.DataFrame) :
  read_csv w (csv args) = Ok test_data ->
  joblib_load w (pkl args) = Ok pipeline ->
  predict_proba pipeline = Some f ->
  f (table_after_predict pipeline test_data) = Ok a ->
  In (ToCsv (out args) results) (snd (main args w)) ->
  exists cleaned tc predictions base,
    get_cleaned_df_from_pipeline pipeline test_data = (Ok cleaned, tc)
    /\ predict pipeline (table_after_cleaning pipeline test_data) = Ok predictions
    /\ assemble args (table_at_assembly pipeline test_data)
         (cleaned_at_assembly pipeline test_data cleaned) predictions None false
       = Ok base
    /\ (np.ndim a = 2 /\ 2 <= np.shape_at a 1 ->
        pd.columns results
        = pd.columns base
          ++ filter (fun l => negb (pd.label_in l base))
                    [Probabilidad_No_Default; Probabilidad_Default]
        /\ (pd.label_in Probabilidad_No_Default base = false ->
            pd.label_in Probabilidad_Default base = false ->
            pd.columns results
            = pd.columns base ++ [Probabilidad_No_Default; Probabilidad_Default])
        /\ (not_repeated Probabilidad_No_Default base ->
            not_repeated Probabilidad_Default base ->
            pd.lookup results Probabilidad_No_Default = Some (np.column a 0)
            /\ pd.lookup results Probabilidad_Default = Some (np.column a 1)))
    /\ (~ (np.ndim a = 2 /\ 2 <= np.shape_at a 1) ->
        pd.columns results
        = pd.columns base
          ++ filter (fun l => negb (pd.label_in l base)) [Probabilidad]
        /\ (pd.label_in Probabilidad base = false ->
            pd.columns results = pd.columns base ++ [Probabilidad])
        /\ (not_repeated Probabilidad base ->
            pd.lookup results Probabilidad = Some (np.ravel a))).
Proof.
  intros Hraw Hload Hf Ha Hin.
  destruct (written_is_results_table args w _ _ Hin) as [_ Hrt].
  destruct (results_table_inv args w _ _ _ Hraw Hload Hrt)
    as (cleaned & tc & preds & proba & has & tp & Hclean & Hpred & Hproba & Hres).
  destruct (try_predict_proba_answer _ _ _ _ _ _ _ Hf Ha Hproba) as [-> ->].
  destruct (assemble_inv _ _ _ _ _ _ _ Hres)
    as (with_id & base & _ & _ & Hbase & p & Hp & Hsteps).
  inversion Hp; subst p. clear Hp.
  exists cleaned, tc, preds, base.
  split; [exact Hclean|]. split; [exact Hpred|]. split; [exact Hbase|].
  split; intro H.
  - assert (two_columns a = true) as T.
    { destruct H as [H1 H2]. unfold two_columns. rewrite H1.
      apply andb_true_iff. split; [reflexivity | now apply Nat.leb_le]. }
    rewrite T in Hsteps. destruct Hsteps as (r1 & S1 & S2).
    destruct (two_probability_columns _ _ _ _ S1 S2) as (K & C & _).
    split; [exact C|]. split; [|exact K].
    intros I1 I2. rewrite C. cbn [filter]. now rewrite I1, I2.
  - assert (two_columns a = false) as T.
    { destruct (two_columns a) eqn:T; [|reflexivity]. exfalso. apply H.
      unfold two_columns in T. apply andb_true_iff in T. destruct T as [T1 T2].
      apply Nat.eqb_eq in T1. apply Nat.leb_le in T2. auto. }
    rewrite T in Hsteps.
    destruct (one_probability_column _ _ _ Hsteps) as (K & C & _).
    split; [exact C|]. split; [|exact K].
    intros I. rewrite C. cbn [filter]. now rewrite I.
Qed.

Lemma probability_columns_by_shape_witness :
  (exists results,
      In (ToCsv (out Examples.command_line) results)
         (snd (main Examples.command_line
                 (Examples.files Examples.raw_table Examples.plain_pipeline)))
      /\ pd.columns results
         = [LStr "ID"; LStr "x"; Prediccion;
            Probabilidad_No_Default; Probabilidad_Default]
      /\ pd.lookup results Probabilidad_No_Default
         = Some (np.column Examples.two_class_proba 0)
      /\ pd.lookup results Probabilidad_Default
         = Some (np.column Examples.two_class_proba 1))
  /\ (exists results,
         In (ToCsv (out Examples.command_line) results)
            (snd (main Examples.command_line
                    (Examples.files Examples.raw_table Examples.flat_pipeline)))
         /\ pd.columns results = [LStr "ID"; LStr "x"; Prediccion; Probabilidad]
         /\ pd.lookup results Probabilidad = Some [CFloat (2 # 10); CFloat (7 # 10)]).
Proof.
  split.
  - eexists.
    assert (In (ToCsv (out Examples.command_line)
                  (pd.mkDataFrame 2
                     [(LStr "ID", [CInt 1; CInt 2]); (LStr "x", [CInt 5; CInt 7]);
                      (LStr "Prediccion", [CInt 0; CInt 1]);
                      (LStr "Probabilidad_No_Default", [CFloat (8 # 10); CFloat (3 # 10)]);
                      (LStr "Probabilidad_Default", [CFloat (2 # 10); CFloat (7 # 10)])]))
              (snd (main Examples.command_line
                      (Examples.files Examples.raw_table Examples.plain_pipeline)))) as H.
    { vm_compute. do 8 right. left. reflexivity. }
    split; [exact H|].
    destruct (probability_columns_by_shape Examples.command_line
                (Examples.files Examples.raw_table Examples.plain_pipeline)
                Examples.raw_table Examples.plain_pipeline
                (fun _ => Ok Examples.two_class_proba) Examples.two_class_proba _
                eq_refl eq_refl eq_refl eq_refl H)
      as (cleaned & tc & predictions & base & Hclean & Hpred & Hbase & Two & _).
    inversion Hpred; subst predictions.
    inversion Hclean; subst cleaned tc.
    vm_compute in Hbase. inversion Hbase; subst base. clear Hbase.
    destruct (Two (conj eq_refl (le_n 2))) as (_ & C & K).
    split; [exact (C eq_refl eq_refl)|].
    apply K; vm_compute; lia.
  - eexists.
    assert (In (ToCsv (out Examples.command_line)
                  (pd.mkDataFrame 2
                     [(LStr "ID", [CInt 1; CInt 2]); (LStr "x", [CInt 5; CInt 7]);
                      (LStr "Prediccion", [CInt 0; CInt 1]);
                      (LStr "Probabilidad", [CFloat (2 # 10); CFloat (7 # 10)])]))
              (snd (main Examples.command_line
                      (Examples.files Examples.raw_table Examples.flat_pipeline)))) as H.
    { vm_compute. do 8 right. left. reflexivity. }
    split; [exact H|].
    destruct (probability_columns_by_shape Examples.command_line
                (Examples.files Examples.raw_table Examples.flat_pipeline)
                Examples.raw_table Examples.flat_pipeline
                (fun _ => Ok (np.mk_ndarray [2] [CFloat (2 # 10); CFloat (7 # 10)]))
                (np.mk_ndarray [2] [CFloat (2 # 10); CFloat (7 # 10)]) _
                eq_refl eq_refl eq_refl eq_refl H)
      as (cleaned & tc & predictions & base & Hclean & Hpred & Hbase & _ & One).
    inversion Hpred; subst predictions.
    inversion Hclean; subst cleaned tc.
    vm_compute in Hbase. inversion Hbase; subst base. clear Hbase.
    assert (~ (np.ndim (np.mk_ndarray [2] [CFloat (2 # 10); CFloat (7 # 10)]) = 2
               /\ 2 <= np.shape_at
                         (np.mk_ndarray [2] [CFloat (2 # 10); CFloat (7 # 10)]) 1)) as Flat.
    { intros [D _]. discriminate D. }
    destruct (One Flat) as (_ & C & K).
    split; [exact (C eq_refl)|].
    apply K. vm_compute. lia.
Defined.

(** *** Values that re-index nothing *)

Lemma ravel_length_zero (a : np.ndarray) (rest : list nat) :
  np.well_shaped a -> np.shape a = 0 :: rest -> length (np.ravel a) = 0.
Proof. unfold np.well_shaped, np.ravel. intros -> ->. reflexivity. Qed.

(** Inserting into a frame that has rows keeps the number of rows. *)
Lemma insert0_index (df r : pd.DataFrame) (column : label) (v : list cell) :
  pd.insert df 0 column v = Ok r -> pd.index_size df <> 0 ->
  pd.index_size r = pd.index_size df /\ length v = pd.index_size df.
Proof.
  intros H Hne. pose proof (pd_facts.insert0_ok _ _ _ _ H) as (_ & N & _).
  unfold pd.insert in H. destruct (pd.label_in column df); [discriminate|].
  destruct (pd.sanitize_column df v) as [df'|] eqn:S; [|discriminate].
  apply pd_facts.sanitize_column_ok in S. destruct S as [Hdf' Hsize].
  rewrite (ensure_valid_index_nonempty _ _ Hne) in Hdf'. subst df'.
  split; congruence.
Qed.

(** The frame that receives the predictions has the rows of the cleaned
    table, when the cleaned table has rows. *)
Lemma with_id_index (args : arguments) (test_data cleaned with_id : pd.DataFrame) :
  (if pd.label_in (LStr (id_col args)) test_data
      && negb (pd.label_in (LStr (id_col args)) cleaned)
   then exists values,
       (pd.count_label (LStr (id_col args)) test_data = 1
        /\ pd.getitem_values test_data (LStr (id_col args)) = Ok values)
       /\ pd.insert cleaned 0 (LStr (id_col args)) values = Ok with_id
   else with_id = cleaned) ->
  pd.index_size cleaned <> 0 ->
  pd.index_size with_id = pd.index_size cleaned.
Proof.
  intros Hid Hne. destruct (_ && _).
  - destruct Hid as (values & _ & Hins). now apply (insert0_index _ _ _ _ Hins).
  - now subst.
Qed.

(** A frame of [rows] rows is re-indexed neither by a value when it has
    rows nor by a value without elements. *)
Lemma nothing_to_reindex (df : pd.DataFrame) (v : list cell) :
  pd.index_size df <> 0 \/ length v = 0 -> pd.ensure_valid_index df v = df.
Proof.
  intros [H|H];
    [now apply ensure_valid_index_nonempty | now apply ensure_valid_index_no_value].
Qed.

(** An assignment to a frame whose index is not empty, under a label
    that is not spread, needs a value of the length of the index. *)
Lemma setitem_nonempty (df r : pd.DataFrame) (key : label) (v : list cell) :
  pd.spreads df key (length v) = false ->
  pd.setitem df key v = Ok r -> pd.index_size df <> 0 ->
  pd.index_size df = length v.
Proof.
  intros Hno S Hne.
  destruct (setitem_index _ _ _ _ Hno S) as [K | [K _]]; [exact K | contradiction].
Qed.

(** *** What the assembly keeps of the cleaned table *)

Section Kept_by_the_assembly.

Variable keep : label -> bool.

Hypothesis keep_Prediccion : keep Prediccion = false.

Hypothesis keep_probability : forall l, probability_label l = true -> keep l = false.

(** The steps of lines 94-100 on a frame of [rows] rows, when the frame is
    not empty or the probabilities have one row per row of the frame:
    the index is left alone, and so is every column that is not a
    probability column. *)
Lemma probability_steps_keep (with_prediction results : pd.DataFrame)
    (probabilities : option np.ndarray) (has_proba : bool) (rows : nat) :
  pd.index_size with_prediction = rows ->
  rows <> 0
  \/ (forall a, probabilities = Some a ->
                np.well_shaped a /\ exists rest, np.shape a = rows :: rest) ->
  (if has_proba then
     exists p, probabilities = Some p
       /\ if two_columns p
          then exists r1,
              pd.setitem with_prediction Probabilidad_No_Default (np.column p 0) = Ok r1
              /\ pd.setitem r1 Probabilidad_Default (np.column p 1) = Ok results
          else pd.setitem with_prediction Probabilidad (np.ravel p) = Ok results
   else results = with_prediction) ->
  pd.index_size results = rows
  /\ filter (fun c => keep (fst c)) (pd.cols results)
     = filter (fun c => keep (fst c)) (pd.cols with_prediction)
  /\ (forall l, probability_label l = false ->
                pd.lookup results l = pd.lookup with_prediction l).
Proof.
  intros Hrows Hshape Hsteps.
  destruct has_proba; [|subst results; auto].
  destruct Hsteps as (p & Hp & Hsteps).
  assert (rows <> 0
          \/ (rows = 0 /\ np.well_shaped p /\ exists rest, np.shape p = 0 :: rest))
    as Hcase.
  { destruct (Nat.eq_dec rows 0) as [Z|Z]; [right | now left].
    destruct Hshape as [Hne | Hshape]; [contradiction|].
    destruct (Hshape p Hp) as (Hwell & rest & Hsh). rewrite Z in Hsh. eauto. }
  assert (forall j, rows <> 0 \/ length (np.column p j) = 0) as Hcol.
  { intro j. destruct Hcase as [Hne | (_ & _ & rest & Hsh)]; [now left | right].
    rewrite column_length. unfold np.shape_at. now rewrite Hsh. }
  assert (rows <> 0 \/ length (np.ravel p) = 0) as Hravel.
  { destruct Hcase as [Hne | (_ & Hwell & rest & Hsh)]; [now left | right].
    exact (ravel_length_zero p rest Hwell Hsh). }
  destruct (two_columns p).
  - destruct Hsteps as (r1 & S1 & S2).
    assert (pd.ensure_valid_index with_prediction (np.column p 0) = with_prediction)
      as E1 by (apply nothing_to_reindex; rewrite Hrows; apply Hcol).
    destruct (setitem_gentle _ _ _ _ S1 E1) as (N1 & O1).
    assert (pd.ensure_valid_index r1 (np.column p 1) = r1)
      as E2 by (apply nothing_to_reindex; rewrite N1, Hrows; apply Hcol).
    destruct (setitem_gentle _ _ _ _ S2 E2) as (N2 & O2).
    split; [congruence|]. split.
    + rewrite (kept_setitem keep _ _ _ _
                 (keep_probability Probabilidad_Default eq_refl) S2 E2).
      exact (kept_setitem keep _ _ _ _
               (keep_probability Probabilidad_No_Default eq_refl) S1 E1).
    + intros l Hl.
      assert (l <> Probabilidad_No_Default) as D1 by (intros ->; discriminate).
      assert (l <> Probabilidad_Default) as D2 by (intros ->; discriminate).
      rewrite (O2 l D2). exact (O1 l D1).
  - assert (pd.ensure_valid_index with_prediction (np.ravel p) = with_prediction)
      as E by (apply nothing_to_reindex; rewrite Hrows; exact Hravel).
    destruct (setitem_gentle _ _ _ _ Hsteps E) as (N & O).
    split; [congruence|]. split.
    + exact (kept_setitem keep _ _ _ _
               (keep_probability Probabilidad eq_refl) Hsteps E).
    + intros l Hl.
      assert (l <> Probabilidad) as D by (intros ->; discriminate).
      exact (O l D).
Qed.

(** Lines 85-100 on a cleaned table that has rows, or with nothing to
    insert, no prediction and no row of probabilities: the Results Table
    has the rows of the cleaned table and its columns of the kept kind,
    as they are and in their order. *)
Lemma assemble_keeps (args : arguments) (test_data cleaned : pd.DataFrame)
    (predictions : answer) (probabilities : option np.ndarray) (has_proba : bool)
    (results : pd.DataFrame) :
  (pd.label_in (LStr (id_col args)) test_data
   && negb (pd.label_in (LStr (id_col args)) cleaned) = true ->
   keep (LStr (id_col args)) = false) ->
  assemble args test_data cleaned predictions probabilities has_proba = Ok results ->
  pd.index_size cleaned <> 0
  \/ (pd.label_in (LStr (id_col args)) test_data
      && negb (pd.label_in (LStr (id_col args)) cleaned) = false
      /\ len predictions = 0
      /\ forall a, probabilities = Some a ->
                   np.well_shaped a /\ exists rest, np.shape a = 0 :: rest) ->
  pd.index_size results = pd.index_size cleaned
  /\ filter (fun c => keep (fst c)) (pd.cols results)
     = filter (fun c => keep (fst c)) (pd.cols cleaned).
Proof.
  intros Kid H Hcase.
  destruct (assemble_inv _ _ _ _ _ _ _ H) as (with_id & wp & Hid & Hset & _ & Hsteps).
  assert (pd.index_size cleaned <> 0
          \/ (pd.index_size cleaned = 0
              /\ pd.label_in (LStr (id_col args)) test_data
                 && negb (pd.label_in (LStr (id_col args)) cleaned) = false
              /\ len predictions = 0
              /\ forall a, probabilities = Some a ->
                           np.well_shaped a /\ exists rest, np.shape a = 0 :: rest))
    as Hcase'.
  { destruct (Nat.eq_dec (pd.index_size cleaned) 0) as [Z|Z]; [|now left].
    destruct Hcase as [Hne | Hno]; [contradiction | right; tauto]. }
  clear Hcase.
  assert (pd.index_size with_id = pd.index_size cleaned
          /\ filter (fun c => keep (fst c)) (pd.cols with_id)
             = filter (fun c => keep (fst c)) (pd.cols cleaned)) as [Nid Fid].
  { destruct (pd.label_in (LStr (id_col args)) test_data
              && negb (pd.label_in (LStr (id_col args)) cleaned)) eqn:G;
      [|subst with_id; auto].
    destruct Hid as (values & _ & Hins).
    destruct Hcase' as [Hne | (_ & Hno & _)]; [|discriminate].
    split; [now apply (insert0_index _ _ _ _ Hins)|].
    apply (kept_insert0 keep _ _ _ _ (Kid eq_refl) Hins).
    now apply ensure_valid_index_nonempty. }
  assert (pd.ensure_valid_index with_id (values_of predictions) = with_id) as E.
  { apply nothing_to_reindex. rewrite Nid.
    destruct Hcase' as [Hne | (_ & _ & Hlen & _)]; [now left | now right]. }
  destruct (setitem_answer_gentle _ _ _ _ Hset E) as (Nwp & _).
  pose proof (kept_setitem_answer keep _ _ _ _ keep_Prediccion Hset E) as Fwp.
  destruct (probability_steps_keep wp results probabilities has_proba
              (pd.index_size cleaned)) as (Nres & Fres & _);
    [congruence | | exact Hsteps |].
  { destruct Hcase' as [Hne | (Z & _ & _ & Hshape)]; [now left | right].
    rewrite Z. exact Hshape. }
  split; [exact Nres|]. congruence.
Qed.

End Kept_by_the_assembly.

(** The probabilities of a run are what [predict_proba] answered. *)
Lemma try_predict_proba_source (pipeline : Pipeline) (test_data : pd.DataFrame)
    (probabilities : option np.ndarray) (has_proba : bool) (tp : trace) (a : np.ndarray) :
  try_predict_proba pipeline test_data = (Ok (probabilities, has_proba), tp) ->
  probabilities = Some a ->
  exists f, predict_proba pipeline = Some f /\ f test_data = Ok a.
Proof.
  intros H ->.
  destruct (try_predict_proba_cases pipeline test_data)
    as [(f & a' & Hf & Ha & C) | [(f & e & _ & _ & C) | [_ C]]];
    rewrite C in H; inversion H; subst. eauto.
Qed.

(** *** Pipelines that leave the table alone *)

(** When no call edits the table, every call receives the table that
    was read, and the cleaned table at line 85 is the one line 69 got. *)
Lemma table_left_alone (pipeline : Pipeline) (raw : pd.DataFrame) :
  leaves_the_table_alone pipeline raw ->
  table_after_cleaning pipeline raw = raw
  /\ table_after_predict pipeline raw = raw
  /\ table_at_assembly pipeline raw = raw.
Proof.
  intros (H1 & H2 & H3). unfold table_at_assembly, table_after_predict.
  rewrite H1, H2, H3. auto.
Qed.

Lemma cleaned_left_alone (pipeline : Pipeline) (raw cleaned : pd.DataFrame) (tc : trace) :
  leaves_the_table_alone pipeline raw ->
  get_cleaned_df_from_pipeline pipeline raw = (Ok cleaned, tc) ->
  cleaned_at_assembly pipeline raw cleaned = cleaned.
Proof.
  intros Halone Hclean. destruct (table_left_alone _ _ Halone) as (H1 & _ & H3).
  unfold cleaned_at_assembly, hands_back_the_table.
  destruct (cleaning_stage pipeline) as [cleaning|] eqn:Hstage; [|reflexivity].
  destruct (transform cleaning raw) as [[df|a|]|e] eqn:T; try reflexivity.
  rewrite H3.
  unfold table_after_cleaning in H1. rewrite Hstage in H1.
  destruct (get_cleaned_cases pipeline raw)
    as [[K _] | [(c & df & K & [T'|[_ ->]] & E) | [(c & a & df & K & T' & _)
                                                  | (c & e & K & [T'|(a & T' & _)] & _)]]];
    rewrite Hstage in K; try discriminate; inversion K; subst c; try congruence.
Qed.

Lemma no_stage_no_hand_back (pipeline : Pipeline) (raw cleaned : pd.DataFrame) :
  cleaning_stage pipeline = None ->
  table_after_cleaning pipeline raw = raw
  /\ cleaned_at_assembly pipeline raw cleaned = cleaned.
Proof.
  intro H. unfold table_after_cleaning, cleaned_at_assembly, hands_back_the_table.
  now rewrite H.
Qed.

(* ===================================================================== *)
(** ** The cleaned table *)
(* ===================================================================== *)

(** C3 as worded does not hold.  The input file has a header and no
    record, the pipeline has no cleaning stage and [predict] answers
    with one label.  Line 91 assigns that label to a frame whose index
    is empty: pandas gives the frame the index of the value and fills
    the columns it already has with NaN.  The run exits with status 0
    and the column [x] of the Results Table is [NaN], while the column
    [x] of the raw table is empty. *)
Example raw_columns_refilled_without_cleaning :
  let w := Examples.files Examples.table_without_rows Examples.one_label_pipeline in
  exists results,
    cleaning_stage Examples.one_label_pipeline = None
    /\ fst (main Examples.command_line w) = 0%Z
    /\ In (ToCsv (out Examples.command_line) results) (snd (main Examples.command_line w))
    /\ output_label (LStr "x") = false
    /\ LStr "x" <> LStr (id_col Examples.command_line)
    /\ pd.lookup Examples.table_without_rows (LStr "x") = Some []
    /\ pd.lookup results (LStr "x") = Some [CNaN]
    /\ pd.lookup results (LStr "x") <> pd.lookup Examples.table_without_rows (LStr "x").
Proof.
  cbv zeta. eexists. split; [reflexivity|]. split; [reflexivity|]. split.
  - vm_compute. do 8 right. left. reflexivity.
  - repeat split; try reflexivity; discriminate.
Qed.

(** A cleaning stage that drops a column of the table in place and then
    raises: the warning is printed, and the copy that stands for the
    cleaned table is a copy of the table as the stage left it, without
    the column. *)
Example fallback_copies_the_edited_table :
  get_cleaned_df_from_pipeline Examples.half_done_pipeline Examples.raw_table
  = (Ok (pd.mkDataFrame 2 [(LStr "x", [CInt 5; CInt 7])]),
     [Transform Examples.raw_table; Print stderr (aviso_limpio +++ "bad input")])
  /\ pd.mkDataFrame 2 [(LStr "x", [CInt 5; CInt 7])] <> Examples.raw_table.
Proof. split; [reflexivity | discriminate]. Qed.

(** C3, amended (cleaning fallback).  Deriving the cleaned table never
    raises.  Without a named cleaning stage the result is the raw table
    and nothing is printed.  When the stage raises, or when the frame
    constructor raises on the array the stage returned, the warning,
    which ends with the description of the exception, goes to the error
    stream and the result is a copy of the table as the stage left it:
    the raw table, when the stage does not edit the table it is given.
    And in a run without a cleaning stage, on a raw table that has at
    least one row (or with a pipeline that leaves the table alone and
    answers as its interface says: no label and no probability for no
    row), the columns of the Results Table other than the identifier,
    the prediction and the probability columns are those columns of the
    raw table, value for value and in the same order; when neither
    [predict] nor [predict_proba] edits the table, this holds of the
    identifier column too. *)
Theorem cleaning_falls_back_to_copy (pipeline : Pipeline) (df_raw : pd.DataFrame) :
  (exists cleaned tc,
      get_cleaned_df_from_pipeline pipeline df_raw = (Ok cleaned, tc))
  /\ (cleaning_stage pipeline = None ->
      get_cleaned_df_from_pipeline pipeline df_raw = (Ok df_raw, []))
  /\ (forall cleaning e,
         cleaning_stage pipeline = Some cleaning ->
         transform cleaning df_raw = Raise e
         \/ (exists a, transform cleaning df_raw = Ok (TArray a)
                       /\ pd.of_ndarray a
                            (pd.index_size (transform_leaves cleaning df_raw))
                          = Raise e) ->
         get_cleaned_df_from_pipeline pipeline df_raw
         = (Ok (transform_leaves cleaning df_raw),
            [Transform df_raw; Print stderr (aviso_limpio +++ description e)])
         /\ (transform_leaves cleaning df_raw = df_raw ->
             get_cleaned_df_from_pipeline pipeline df_raw
             = (Ok df_raw,
                [Transform df_raw; Print stderr (aviso_limpio +++ description e)])))
  /\ (forall args w results,
         read_csv w (csv args) = Ok df_raw ->
         joblib_load w (pkl args) = Ok pipeline ->
         cleaning_stage pipeline = None ->
         pd.index_size df_raw <> 0
         \/ (leaves_the_table_alone pipeline df_raw
             /\ honours_interface pipeline df_raw) ->
         In (ToCsv (out args) results) (snd (main args w)) ->
         feature_columns (LStr (id_col args)) results
         = feature_columns (LStr (id_col args)) df_raw
         /\ (forall l, output_label l = false -> l <> LStr (id_col args) ->
                       pd.lookup results l = pd.lookup df_raw l)
         /\ (table_at_assembly pipeline df_raw = df_raw ->
             input_columns results = input_columns df_raw
             /\ (forall l, output_label l = false ->
                           pd.lookup results l = pd.lookup df_raw l))).
Proof.
  split; [apply get_cleaned_total|]. split; [|split].
  - intro Hnone.
    destruct (get_cleaned_cases pipeline df_raw)
      as [[_ E] | [(c & df & K & _) | [(c & a & df & K & _) | (c & e & K & _)]]];
      [exact E | congruence | congruence | congruence].
  - intros cleaning e Hstage Hraise.
    assert (get_cleaned_df_from_pipeline pipeline df_raw
            = (Ok (transform_leaves cleaning df_raw),
               [Transform df_raw; Print stderr (aviso_limpio +++ description e)])) as G.
    { destruct (get_cleaned_cases pipeline df_raw)
        as [[K _] | [(c & df & K & T & _) | [(c & a & df & K & T & C & _)
                                            | (c & e' & K & R & E)]]];
        try congruence.
      - rewrite Hstage in K. inversion K; subst c.
        destruct T as [T | [T _]]; destruct Hraise as [R | (a & T' & _)]; congruence.
      - rewrite Hstage in K. inversion K; subst c.
        destruct Hraise as [R | (a' & T' & C')]; [congruence|].
        rewrite T in T'. inversion T'; subst a'. congruence.
      - rewrite Hstage in K. inversion K; subst c.
        assert (e' = e) as ->; [|exact E].
        destruct Hraise as [R1 | (a1 & T1 & C1)]; destruct R as [R2 | (a2 & T2 & C2)];
          congruence. }
    split; [exact G|]. intro Hsame. now rewrite Hsame in G.
  - intros args w results Hraw Hload Hnone Hrows Hin.
    destruct (written_is_results_table args w _ _ Hin) as [_ Hrt].
    destruct (results_table_inv args w _ _ _ Hraw Hload Hrt)
      as (cleaned & tc & preds & proba & has & tp & Hclean & Hpred & Hproba & Hres).
    assert (cleaned = df_raw) as ->.
    { destruct (get_cleaned_cases pipeline df_raw)
        as [[_ E] | [(c & df & K & _) | [(c & a & df & K & _) | (c & e & K & _)]]];
        try congruence. }
    destruct (no_stage_no_hand_back pipeline df_raw df_raw Hnone) as [Hsame Hkept].
    rewrite Hkept in Hres. rewrite Hsame in Hpred.
    assert (table_at_assembly pipeline df_raw = df_raw ->
            pd.label_in (LStr (id_col args)) (table_at_assembly pipeline df_raw)
            && negb (pd.label_in (LStr (id_col args)) df_raw) = false) as Hnot.
    { intros ->. now destruct (pd.label_in (LStr (id_col args)) df_raw). }
    assert (table_at_assembly pipeline df_raw = df_raw ->
            pd.index_size df_raw <> 0
            \/ (pd.label_in (LStr (id_col args)) (table_at_assembly pipeline df_raw)
                && negb (pd.label_in (LStr (id_col args)) df_raw) = false
                /\ len preds = 0
                /\ forall a, proba = Some a ->
                             np.well_shaped a /\ exists rest, np.shape a = 0 :: rest))
      as Hcase.
    { intro Hat. destruct (Nat.eq_dec (pd.index_size df_raw) 0) as [Z|Z]; [|now left].
      destruct Hrows as [Hne | [Halone [Hpredict Hshape]]]; [contradiction|].
      destruct (table_left_alone _ _ Halone) as (H1 & H2 & H3).
      right. split; [now apply Hnot|]. split.
      - rewrite (Hpredict preds); rewrite H1; [exact Z | exact Hpred].
      - intros a Ha.
        destruct (try_predict_proba_source _ _ _ _ _ _ Hproba Ha) as (f & Hf & Hfa).
        destruct (Hshape f a Hf Hfa) as (Hwell & rest & Hsh).
        rewrite H2, Z in Hsh. eauto. }
    assert (pd.index_size df_raw <> 0
            \/ (pd.label_in (LStr (id_col args)) (table_at_assembly pipeline df_raw)
                && negb (pd.label_in (LStr (id_col args)) df_raw) = false
                /\ len preds = 0
                /\ forall a, proba = Some a ->
                             np.well_shaped a /\ exists rest, np.shape a = 0 :: rest))
      as Hcase0.
    { destruct Hrows as [Hne | [Halone Hhon]]; [now left|].
      apply Hcase. now destruct (table_left_alone _ _ Halone) as (_ & _ & H3). }
    assert (feature_columns (LStr (id_col args)) results
            = feature_columns (LStr (id_col args)) df_raw) as Hfeat.
    { refine (proj2 (assemble_keeps
                       (fun l => negb (output_label l)
                                 && negb (label_eqb l (LStr (id_col args))))
                       eq_refl _ args _ _ _ _ _ _ _ Hres Hcase0)).
      - intros l Hl. unfold output_label. rewrite Hl. now rewrite orb_true_r.
      - intros _. rewrite label_eqb_refl. apply andb_false_r. }
    split; [exact Hfeat|]. split.
    { intros l Hl Hd.
      rewrite !(lookup_feature_columns (LStr (id_col args)) _ l Hl Hd).
      now rewrite Hfeat. }
    intro Hat.
    assert (input_columns results = input_columns df_raw) as Hcols.
    { refine (proj2 (assemble_keeps (fun l => negb (output_label l))
                       eq_refl _ args _ _ _ _ _ _ _ Hres (Hcase Hat))).
      - intros l Hl. unfold output_label. rewrite Hl. now rewrite orb_true_r.
      - intro G. rewrite (Hnot Hat) in G. discriminate. }
    split; [exact Hcols|].
    intros l Hl. rewrite !(lookup_input_columns _ l Hl). now rewrite Hcols.
Qed.

Lemma cleaning_falls_back_to_copy_witness :
  (cleaning_stage Examples.broken_cleaning_pipeline
   = Some (Examples.stage_on_copy (fun _ => raise_with ValueError "bad input"))
   /\ get_cleaned_df_from_pipeline Examples.broken_cleaning_pipeline Examples.raw_table
      = (Ok Examples.raw_table,
         [Transform Examples.raw_table;
          Print stderr (aviso_limpio +++ "bad input")]))
  /\ (cleaning_stage Examples.plain_pipeline = None
      /\ pd.index_size Examples.raw_table <> 0
      /\ exists results,
          In (ToCsv (out Examples.command_line) results)
             (snd (main Examples.command_line
                     (Examples.files Examples.raw_table Examples.plain_pipeline)))
          /\ feature_columns (LStr (id_col Examples.command_line)) results
             = [(LStr "x", [CInt 5; CInt 7])]
          /\ input_columns results = pd.cols Examples.raw_table).
Proof.
  split.
  - split; [reflexivity|].
    exact (proj2 (proj1 (proj2 (proj2 (cleaning_falls_back_to_copy
                                        Examples.broken_cleaning_pipeline
                                        Examples.raw_table)))
                   (Examples.stage_on_copy (fun _ => raise_with ValueError "bad input"))
                   (mkException ValueError "bad input")
                   eq_refl (or_introl eq_refl))
             eq_refl).
  - split; [reflexivity|].
    assert (pd.index_size Examples.raw_table <> 0) as Hne by discriminate.
    split; [exact Hne|]. eexists.
    assert (In (ToCsv (out Examples.command_line)
                  (pd.mkDataFrame 2
                     [(LStr "ID", [CInt 1; CInt 2]); (LStr "x", [CInt 5; CInt 7]);
                      (LStr "Prediccion", [CInt 0; CInt 1]);
                      (LStr "Probabilidad_No_Default", [CFloat (8 # 10); CFloat (3 # 10)]);
                      (LStr "Probabilidad_Default", [CFloat (2 # 10); CFloat (7 # 10)])]))
              (snd (main Examples.command_line
                      (Examples.files Examples.raw_table Examples.plain_pipeline)))) as H.
    { vm_compute. do 8 right. left. reflexivity. }
    split; [exact H|].
    destruct (proj2 (proj2 (proj2 (cleaning_falls_back_to_copy
                                     Examples.plain_pipeline Examples.raw_table)))
                Examples.command_line
                (Examples.files Examples.raw_table Examples.plain_pipeline) _
                eq_refl eq_refl eq_refl (or_introl Hne) H)
      as (Hfeat & _ & Hin).
    split; [exact Hfeat|]. exact (proj1 (Hin eq_refl)).
Defined.

(* ===================================================================== *)
(** ** Runs without probabilities *)
(* ===================================================================== *)

(** The columns of the frame after line 91: the identifier when it is
    inserted, the columns of the cleaned table, and [Prediccion] unless
    it is one of these already. *)
Lemma columns_after_prediction (args : arguments) (test_data cleaned : pd.DataFrame)
    (predictions : answer) (base : pd.DataFrame) :
  assemble args test_data cleaned predictions None false = Ok base ->
  let inserted :=
    pd.label_in (LStr (id_col args)) test_data
    && negb (pd.label_in (LStr (id_col args)) cleaned) in
  let with_id :=
    (if inserted then [LStr (id_col args)] else []) ++ pd.columns cleaned in
  pd.columns base
  = with_id ++ (if existsb (label_eqb Prediccion) with_id then [] else [Prediccion]).
Proof.
  intros H inserted with_id. subst inserted with_id.
  destruct (assemble_inv _ _ _ _ _ _ _ H) as (wid & wp & Hid & Hset & _ & Hsteps).
  simpl in Hsteps. subst wp.
  rewrite (setitem_answer_columns _ _ _ _ Hset). clear Hset H.
  destruct (pd.label_in (LStr (id_col args)) test_data
            && negb (pd.label_in (LStr (id_col args)) cleaned)).
  - destruct Hid as (values & _ & Hins).
    apply pd_facts.insert0_ok in Hins. destruct Hins as (_ & _ & Hc).
    assert (pd.columns wid = LStr (id_col args) :: pd.columns cleaned) as K.
    { unfold pd.columns at 1. rewrite Hc. simpl.
      fold (pd.columns (pd.ensure_valid_index cleaned values)).
      now rewrite pd_facts.ensure_valid_index_columns. }
    unfold pd.label_in. rewrite K. reflexivity.
  - subst wid. reflexivity.
Qed.

(** C4 (graceful degradation), as amended.  When [predict_proba] is
    missing or
    raises and every other step succeeds (the table is read, the pipeline
    is loaded, [predict] answers, the identifier and the predictions fit
    the cleaned table, the file can be written and the predictions can be
    counted), the run exits with status 0 and writes one file; the frame
    written is the frame after line 91, whose columns are the identifier
    when it is inserted, the columns of the cleaned table and
    [Prediccion]: the run adds no probability column, so a column of the
    Results Table labelled [Probabilidad_No_Default],
    [Probabilidad_Default] or [Probabilidad] is a column the cleaned
    table already had or the identifier column itself.  The table and
    the cleaned table are taken as they are when line 85 is reached. *)
Theorem no_probability_columns_without_predict_proba (args : arguments) (w : world)
    (test_data : pd.DataFrame) (pipeline : Pipeline) (cleaned : pd.DataFrame) (tc : trace)
    (predictions : answer) (base : pd.DataFrame) :
  let table := table_at_assembly pipeline test_data in
  let kept := cleaned_at_assembly pipeline test_data cleaned in
  path_exists w (csv args) = true ->
  path_exists w (pkl args) = true ->
  read_csv w (csv args) = Ok test_data ->
  joblib_load w (pkl args) = Ok pipeline ->
  get_cleaned_df_from_pipeline pipeline test_data = (Ok cleaned, tc) ->
  predict pipeline (table_after_cleaning pipeline test_data) = Ok predictions ->
  (predict_proba pipeline = None
   \/ exists f e, predict_proba pipeline = Some f
                  /\ f (table_after_predict pipeline test_data) = Raise e) ->
  assemble args table kept predictions None false = Ok base ->
  to_csv w (out args) base = Ok tt ->
  ((exists s, bincount_astype_int w predictions = Ok s)
   \/ (exists s, value_counts_sort_index w predictions = Ok s)) ->
  fst (main args w) = 0%Z
  /\ In (ToCsv (out args) base) (snd (main args w))
  /\ (forall path results,
         In (ToCsv path results) (snd (main args w)) ->
         path = out args /\ results = base)
  /\ pd.columns base
     = (let with_id :=
          (if pd.label_in (LStr (id_col args)) table
              && negb (pd.label_in (LStr (id_col args)) kept)
           then [LStr (id_col args)] else [])
          ++ pd.columns kept in
        with_id ++ (if existsb (label_eqb Prediccion) with_id then [] else [Prediccion]))
  /\ (forall l,
         probability_label l = true ->
         pd.label_in l base = true ->
         pd.label_in l kept = true \/ l = LStr (id_col args)).
Proof.
  intros table kept Hcsv Hpkl Hraw Hload Hclean Hpred Hno Hbase Hw Hcount.
  subst table kept.
  destruct (try_predict_proba_absent pipeline _ Hno) as (tp & Hproba).
  pose proof (main_body_from_predictions args w _ _ _ _ _ _ _ _
                Hraw Hload Hclean Hpred Hproba) as B.
  cbv zeta in B. rewrite Hbase, Hw in B.
  destruct (main_of_body args w Hcsv Hpkl) as [Hok _].
  assert (exists t1 t2,
             main args w
             = (0%Z, events_before_assembly args pipeline test_data cleaned tc tp
                       ++ [ToCsv (out args) base; t1] ++ t2)
             /\ Forall light t2) as (t1 & t2 & E & Hlight).
  { destruct (preview_of_results _ _ _ _ _ _ _ Hbase) as (shown & _ & Hprev).
    rewrite Hprev in B. cbn [snd] in B.
    destruct (bincount_astype_int w predictions) as [s|e0].
    - do 2 eexists. split; [apply Hok; exact B|]. each_event.
    - destruct (value_counts_sort_index w predictions) as [s|e1].
      + do 2 eexists. split; [apply Hok; exact B|]. each_event.
      + exfalso. destruct Hcount as [[s K]|[s K]]; discriminate. }
  pose proof (columns_after_prediction _ _ _ _ _ Hbase) as Hcols. cbv zeta in Hcols.
  rewrite E. cbn [fst snd].
  split; [reflexivity|]. split; [|split; [|split]].
  - apply in_or_app. right. simpl. auto.
  - intros path results H.
    pose proof (written_is_results_table args w path results) as K.
    rewrite E in K. cbn [snd] in K. destruct (K H) as [Hpath Hrt].
    split; [exact Hpath|].
    destruct (results_table_inv args w _ _ _ Hraw Hload Hrt)
      as (cleaned' & tc' & preds' & proba' & has' & tp'
          & Hclean' & Hpred' & Hproba' & Hres').
    congruence.
  - exact Hcols.
  - intros l Hl Hin. apply pd_facts.label_in_In in Hin. rewrite Hcols in Hin.
    apply in_app_or in Hin. destruct Hin as [Hin|Hin].
    + apply in_app_or in Hin. destruct Hin as [Hin|Hin].
      * right. destruct (_ && _); simpl in Hin; intuition.
      * left. now apply pd_facts.label_in_In.
    + exfalso. destruct (existsb _ _); simpl in Hin; [exact Hin|].
      destruct Hin as [<-|[]]. discriminate.
Qed.

Lemma no_probability_columns_without_predict_proba_witness :
  fst (main Examples.command_line
         (Examples.files Examples.raw_table Examples.no_proba_pipeline)) = 0%Z
  /\ In (ToCsv (out Examples.command_line)
           (pd.mkDataFrame 2
              [(LStr "ID", [CInt 1; CInt 2]); (LStr "x", [CInt 5; CInt 7]);
               (LStr "Prediccion", [CInt 0; CInt 1])]))
        (snd (main Examples.command_line
                (Examples.files Examples.raw_table Examples.no_proba_pipeline))).
Proof.
  destruct (no_probability_columns_without_predict_proba
              Examples.command_line
              (Examples.files Examples.raw_table Examples.no_proba_pipeline)
              Examples.raw_table Examples.no_proba_pipeline Examples.raw_table []
              (AArray [CInt 0; CInt 1])
              (pd.mkDataFrame 2
                 [(LStr "ID", [CInt 1; CInt 2]); (LStr "x", [CInt 5; CInt 7]);
                  (LStr "Prediccion", [CInt 0; CInt 1])])
              eq_refl eq_refl eq_refl eq_refl eq_refl eq_refl
              (or_intror (ex_intro _ _ (ex_intro _ _ (conj eq_refl eq_refl))))
              eq_refl eq_refl
              (or_introl (ex_intro _ _ eq_refl)))
    as (H0 & Hin & _).
  split; assumption.
Defined.

(** C4 as stated, refuted.  The input is the file written by an earlier
    run, which has the columns [Probabilidad_No_Default] and
    [Probabilidad_Default]; the pipeline has no cleaning stage and its
    [predict_proba] raises.  The run exits with status 0, writes its
    file, and the Results Table still has both probability columns, with
    the values of the input. *)
Lemma probability_label_survives_without_predict_proba :
  exists results,
    fst (main Examples.command_line
           (Examples.files Examples.previous_results Examples.no_proba_pipeline))
    = 0%Z
    /\ In (ToCsv (out Examples.command_line) results)
          (snd (main Examples.command_line
                  (Examples.files Examples.previous_results Examples.no_proba_pipeline)))
    /\ pd.lookup results Probabilidad_No_Default
       = Some [CFloat (8 # 10); CFloat (3 # 10)]
    /\ pd.lookup results Probabilidad_Default
       = Some [CFloat (2 # 10); CFloat (7 # 10)]
    /\ ~ (forall l, probability_label l = true -> pd.label_in l results = false).
Proof.
  eexists. split; [reflexivity|]. split.
  - vm_compute. do 9 right. left. reflexivity.
  - split; [reflexivity|]. split; [reflexivity|].
    intro H. specialize (H Probabilidad_Default eq_refl). vm_compute in H. discriminate.
Qed.

(* ===================================================================== *)
(** ** The identifier column and the alignment of rows *)
(* ===================================================================== *)

Lemma rectangular_lookup (df : pd.DataFrame) (key : label) (values : list cell) :
  pd.rectangular df -> pd.lookup df key = Some values ->
  length values = pd.index_size df.
Proof.
  unfold pd.rectangular, pd.lookup. intros R H.
  destruct (find _ _) as [c|] eqn:F; [|discriminate].
  inversion H; subst values. apply find_some in F. destruct F as [Hin _].
  rewrite Forall_forall in R. exact (R c Hin).
Qed.

(** The Results Table is rectangular when the cleaned table is. *)
Lemma assemble_rectangular (args : arguments) (test_data cleaned : pd.DataFrame)
    (predictions : answer) (probabilities : option np.ndarray) (has_proba : bool)
    (results : pd.DataFrame) :
  pd.rectangular cleaned ->
  assemble args test_data cleaned predictions probabilities has_proba = Ok results ->
  pd.rectangular results.
Proof.
  intros Hrect H.
  destruct (assemble_inv _ _ _ _ _ _ _ H) as (with_id & wp & Hid & Hset & _ & Hsteps).
  assert (pd.rectangular with_id) as Rid.
  { destruct (_ && _).
    - destruct Hid as (values & _ & Hins).
      exact (pd_facts.insert0_rectangular _ _ _ _ Hrect Hins).
    - now subst with_id. }
  pose proof (setitem_answer_rectangular _ _ _ _ Rid Hset) as Rwp.
  destruct has_proba; [|now subst results].
  destruct Hsteps as (p & _ & Hsteps). destruct (two_columns p).
  - destruct Hsteps as (r1 & S1 & S2).
    exact (setitem_rectangular _ _ _ _ (setitem_rectangular _ _ _ _ Rwp S1) S2).
  - exact (setitem_rectangular _ _ _ _ Rwp Hsteps).
Qed.

(** An assignment to another label that re-indexes nothing leaves the
    first column in place. *)
Lemma setitem_answer_keeps_head (df r : pd.DataFrame) (key l : label) (p : answer)
    (vs : list cell) (rest : list (label * list cell)) :
  setitem_answer df key p = Ok r ->
  pd.ensure_valid_index df (values_of p) = df ->
  pd.cols df = (l, vs) :: rest ->
  l <> key ->
  exists rest', pd.cols r = (l, vs) :: rest'.
Proof.
  intros S E Hcols Hne. apply label_eqb_neq in Hne.
  apply setitem_answer_cases in S.
  destruct S as [[_ (scalars & ->)] | (_ & column & _ & -> & _)].
  - cbn [pd.cols]. rewrite Hcols. cbn [pd.spread fst]. rewrite Hne. eauto.
  - rewrite E, pd_facts.place_cols, Hcols. destruct (pd.label_in key df).
    + cbn [map]. unfold pd.assign at 1. cbn [fst]. rewrite Hne. eauto.
    + cbn [app]. eauto.
Qed.

Lemma setitem_keeps_head (df r : pd.DataFrame) (key l : label) (v vs : list cell)
    (rest : list (label * list cell)) :
  pd.setitem df key v = Ok r ->
  pd.index_size df = length v ->
  pd.cols df = (l, vs) :: rest ->
  l <> key ->
  exists rest', pd.cols r = (l, vs) :: rest'.
Proof.
  intros S Hsize. apply (setitem_answer_keeps_head df r key l (AArray v)); [exact S|].
  now apply pd_facts.ensure_valid_index_same.
Qed.

(** What the columns of a Results Table hold when the pipeline leaves
    the table alone, answers [predict] with an array and honours its
    interface, and no label the runner writes is repeated in the cleaned
    table: the table has one row per row of the raw table, in every
    column when the cleaned table is rectangular; [Prediccion] is the
    sequence of predictions; the probability columns are columns 0 and 1
    of the probability array (or [Probabilidad] is the flattened array);
    and when the identifier is inserted under a label that is not one of
    the labels the runner writes afterwards, it is the first column and
    is the identifier column of the raw table. *)
Lemma results_columns (args : arguments) (w : world) (test_data : pd.DataFrame)
    (pipeline : Pipeline) (cleaned : pd.DataFrame) (tc : trace) (results : pd.DataFrame) :
  read_csv w (csv args) = Ok test_data ->
  joblib_load w (pkl args) = Ok pipeline ->
  get_cleaned_df_from_pipeline pipeline test_data = (Ok cleaned, tc) ->
  leaves_the_table_alone pipeline test_data ->
  honours_interface pipeline test_data ->
  answers_by_position pipeline test_data ->
  pd.rectangular test_data ->
  (forall l, output_label l = true -> not_repeated l cleaned) ->
  In (ToCsv (out args) results) (snd (main args w)) ->
  pd.index_size results = pd.index_size test_data
  /\ (pd.rectangular cleaned -> pd.rectangular results)
  /\ (exists predictions,
         predict pipeline test_data = Ok (AArray predictions)
         /\ length predictions = pd.index_size test_data
         /\ pd.lookup results Prediccion = Some predictions)
  /\ (forall f a,
         predict_proba pipeline = Some f -> f test_data = Ok a ->
         if two_columns a
         then pd.lookup results Probabilidad_No_Default = Some (np.column a 0)
              /\ pd.lookup results Probabilidad_Default = Some (np.column a 1)
              /\ forall i, i < pd.index_size test_data ->
                           nth i (np.column a 0) CNaN = np.at2 a i 0
                           /\ nth i (np.column a 1) CNaN = np.at2 a i 1
         else pd.lookup results Probabilidad = Some (np.ravel a)
              /\ length (np.ravel a) = pd.index_size test_data)
  /\ (pd.label_in (LStr (id_col args)) test_data = true ->
      pd.label_in (LStr (id_col args)) cleaned = false ->
      output_label (LStr (id_col args)) = false ->
      exists values rest,
        pd.lookup test_data (LStr (id_col args)) = Some values
        /\ length values = pd.index_size test_data
        /\ pd.cols results = (LStr (id_col args), values) :: rest
        /\ pd.lookup results (LStr (id_col args)) = Some values).
Proof.
  intros Hraw Hload Hclean Halone [Hpredict Hshape] Harray Hrect Hlabels Hin.
  destruct (table_left_alone _ _ Halone) as (A1 & A2 & A3).
  destruct (written_is_results_table args w _ _ Hin) as [_ Hrt].
  destruct (results_table_inv args w _ _ _ Hraw Hload Hrt)
    as (cleaned' & tc' & preds & proba & has & tp & Hclean' & Hpred & Hproba & Hres).
  rewrite Hclean in Hclean'. inversion Hclean'; subst cleaned' tc'. clear Hclean'.
  rewrite (cleaned_left_alone _ _ _ _ Halone Hclean), A3 in Hres.
  destruct (Harray preds Hpred) as (v & ->).
  pose proof (Hpredict _ Hpred) as Hlen. rewrite A1, len_array in Hlen.
  rewrite A1 in Hpred. rewrite A2 in Hproba. rewrite A2 in Hshape.
  destruct (assemble_inv _ _ _ _ _ _ _ Hres)
    as (with_id & wp & Hid & Hset & _ & Hsteps).
  assert (forall l, output_label l = true -> not_repeated l with_id) as Lid.
  { intros l Hl. destruct (_ && _).
    - destruct Hid as (values & _ & Hins).
      exact (insert0_not_repeated _ _ _ l _ Hins (Hlabels l Hl)).
    - subst with_id. now apply Hlabels. }
  assert (forall l, output_label l = true -> not_repeated l wp) as Lwp.
  { intros l Hl. exact (setitem_answer_not_repeated _ _ _ l _ Hset (Lid l Hl)). }
  destruct (setitem_answer_plain _ _ _ _
              (pd_facts.not_spreads _ _ _ (Lid Prediccion eq_refl)) Hset)
    as (_ & _ & Harr).
  destruct (Harr v eq_refl) as (Nwp & Pwp). clear Harr.
  assert (forall a, proba = Some a ->
                    np.well_shaped a
                    /\ exists rest, np.shape a = pd.index_size test_data :: rest) as Hsh.
  { intros a Ha.
    destruct (try_predict_proba_source _ _ _ _ _ _ Hproba Ha) as (f & Hf & Hfa).
    exact (Hshape f a Hf Hfa). }
  destruct (probability_steps_keep (fun _ => false) (fun _ _ => eq_refl)
              wp results proba has (pd.index_size test_data))
    as (Nres & _ & Keep); [congruence | right; exact Hsh | exact Hsteps |].
  split; [exact Nres|]. split; [|split; [|split]].
  - intro Rc. exact (assemble_rectangular _ _ _ _ _ _ _ Rc Hres).
  - exists v. repeat split; try assumption.
    rewrite (Keep Prediccion eq_refl). exact Pwp.
  - intros f a Hf Hfa.
    destruct (try_predict_proba_answer _ _ _ _ _ _ _ Hf Hfa Hproba) as [-> ->].
    destruct Hsteps as (p & Hp & Hsteps). inversion Hp; subst p. clear Hp.
    destruct (Hsh a eq_refl) as (Hwell & rest & Hs).
    assert (np.shape_at a 0 = pd.index_size test_data) as H0
        by (unfold np.shape_at; now rewrite Hs).
    destruct (two_columns a).
    + destruct Hsteps as (r1 & S1 & S2).
      destruct (two_probability_columns _ _ _ _ S1 S2) as (K & _).
      destruct (K (Lwp Probabilidad_No_Default eq_refl)
                  (Lwp Probabilidad_Default eq_refl)) as (K1 & K2).
      split; [exact K1|]. split; [exact K2|].
      intros i Hi. rewrite <- H0 in Hi. split; now apply column_nth.
    + destruct (one_probability_column _ _ _ Hsteps) as (K & _).
      split; [exact (K (Lwp Probabilidad eq_refl))|].
      pose proof (pd_facts.setitem_ok _ _ _ _
                    (pd_facts.not_spreads _ _ _ (Lwp Probabilidad eq_refl)) Hsteps)
        as (N & _).
      congruence.
  - intros Iraw Iclean Iout.
    rewrite Iraw, Iclean in Hid. simpl in Hid.
    destruct Hid as (values & (_ & Hv) & Hins).
    apply pd_facts.getitem_values_lookup in Hv.
    pose proof (rectangular_lookup _ _ _ Hrect Hv) as Hvlen.
    pose proof (pd_facts.insert0_ok _ _ _ _ Hins) as (_ & Nid & Cid).
    assert (LStr (id_col args) <> Prediccion) as D by (intros E; now rewrite E in Iout).
    destruct (setitem_answer_keeps_head _ _ _ _ _ _ _ Hset
                ltac:(apply pd_facts.ensure_valid_index_same; cbn [values_of]; congruence)
                Cid D)
      as (rest1 & Cwp).
    assert (probability_label (LStr (id_col args)) = false) as Iprob.
    { unfold output_label in Iout. apply orb_false_iff in Iout. tauto. }
    assert (pd.lookup wp (LStr (id_col args)) = Some values) as Lidv.
    { unfold pd.lookup. rewrite Cwp. cbn [find fst]. now rewrite label_eqb_refl. }
    assert (exists rest, pd.cols results = (LStr (id_col args), values) :: rest)
      as (rest & Cres).
    { destruct has; [|subst results; eauto].
      destruct Hsteps as (p & Hp & Hsteps).
      destruct (Hsh p Hp) as (Hwell & rs & Hs).
      assert (np.shape_at p 0 = pd.index_size test_data) as H0
          by (unfold np.shape_at; now rewrite Hs).
      destruct (two_columns p).
      - destruct Hsteps as (r1 & S1 & S2).
        pose proof (pd_facts.setitem_ok _ _ _ _
                      (pd_facts.not_spreads _ _ _ (Lwp Probabilidad_No_Default eq_refl))
                      S1) as (N1 & _).
        assert (LStr (id_col args) <> Probabilidad_No_Default) as D1
            by (intros E; now rewrite E in Iprob).
        assert (LStr (id_col args) <> Probabilidad_Default) as D2
            by (intros E; now rewrite E in Iprob).
        destruct (setitem_keeps_head _ _ _ _ _ _ _ S1
                    ltac:(rewrite column_length; congruence) Cwp D1) as (rest2 & C1).
        exact (setitem_keeps_head _ _ _ _ _ _ _ S2
                 ltac:(rewrite N1, !column_length; reflexivity) C1 D2).
      - assert (LStr (id_col args) <> Probabilidad) as D3
            by (intros E; now rewrite E in Iprob).
        assert (pd.ensure_valid_index wp (np.ravel p) = wp) as Same.
        { apply nothing_to_reindex.
          destruct (Nat.eq_dec (pd.index_size test_data) 0) as [Z|Z].
          - right. rewrite Z in Hs. exact (ravel_length_zero p rs Hwell Hs).
          - left. congruence. }
        exact (setitem_answer_keeps_head _ _ _ _ (AArray (np.ravel p)) _ _
                 Hsteps Same Cwp D3). }
    exists values, rest. repeat split; try assumption.
    rewrite (Keep _ Iprob). exact Lidv.
Qed.

Lemma column_nth_error (a : np.ndarray) (i j : nat) :
  i < np.shape_at a 0 -> nth_error (np.column a j) i = Some (np.at2 a i j).
Proof.
  intro H. rewrite <- (column_nth a i j H).
  apply nth_error_nth'. now rewrite column_length.
Qed.

(** C1 (row alignment), as amended.  In a run that writes a Results
    Table from a rectangular raw table of R rows, with a pipeline that
    leaves the table it is given as it is, answers [predict] with an
    array and honours its interface (one label and one row of
    probabilities per row of the table), and with a cleaned table in
    which none of the labels the runner writes names several columns:
    the Results Table has R rows, in every column when the cleaned table
    is rectangular, and in every row [i < R] the value under
    [Prediccion] is element [i] of the predictions; the values under
    [Probabilidad_No_Default] and [Probabilidad_Default] are the entries
    [i, 0] and [i, 1] of the probability array (or the value under
    [Probabilidad] is element [i] of the flattened array); and, when the
    identifier is inserted under a label that is not one of the labels
    the runner writes afterwards, the value under the identifier label
    is the identifier of row [i] of the raw table. *)
Theorem row_alignment (args : arguments) (w : world) (test_data : pd.DataFrame)
    (pipeline : Pipeline) (cleaned : pd.DataFrame) (tc : trace) (results : pd.DataFrame) :
  read_csv w (csv args) = Ok test_data ->
  joblib_load w (pkl args) = Ok pipeline ->
  get_cleaned_df_from_pipeline pipeline test_data = (Ok cleaned, tc) ->
  leaves_the_table_alone pipeline test_data ->
  honours_interface pipeline test_data ->
  answers_by_position pipeline test_data ->
  pd.rectangular test_data ->
  (forall l, output_label l = true -> not_repeated l cleaned) ->
  In (ToCsv (out args) results) (snd (main args w)) ->
  pd.index_size results = pd.index_size test_data
  /\ (pd.rectangular cleaned -> pd.rectangular results)
  /\ forall i, i < pd.index_size test_data ->
       (exists predictions prediction,
           predict pipeline test_data = Ok (AArray predictions)
           /\ nth_error predictions i = Some prediction
           /\ pd.iloc results Prediccion i = Some prediction)
       /\ (forall f a,
              predict_proba pipeline = Some f -> f test_data = Ok a ->
              if two_columns a
              then pd.iloc results Probabilidad_No_Default i = Some (np.at2 a i 0)
                   /\ pd.iloc results Probabilidad_Default i = Some (np.at2 a i 1)
              else exists probability,
                  nth_error (np.ravel a) i = Some probability
                  /\ pd.iloc results Probabilidad i = Some probability)
       /\ (pd.label_in (LStr (id_col args)) test_data = true ->
           pd.label_in (LStr (id_col args)) cleaned = false ->
           output_label (LStr (id_col args)) = false ->
           exists identifier,
             pd.iloc test_data (LStr (id_col args)) i = Some identifier
             /\ pd.iloc results (LStr (id_col args)) i = Some identifier).
Proof.
  intros Hraw Hload Hclean Halone Hi Harray Hrect Hlabels Hin.
  destruct (results_columns args w _ _ _ _ _
              Hraw Hload Hclean Halone Hi Harray Hrect Hlabels Hin)
    as (Hrows & Hr & (preds & Hpred & Hlen & Lpred) & Hproba & Hid).
  destruct (table_left_alone _ _ Halone) as (A1 & A2 & A3).
  split; [exact Hrows|]. split; [exact Hr|].
  intros i Hlt. split; [|split].
  - destruct (nth_error preds i) as [prediction|] eqn:E.
    + exists preds, prediction. unfold pd.iloc. rewrite Lpred. auto.
    + apply nth_error_None in E. lia.
  - intros f a Hf Ha. specialize (Hproba f a Hf Ha).
    destruct (two_columns a).
    + destruct Hproba as (L0 & L1 & _).
      destruct Hi as [_ Hshape]. rewrite A2 in Hshape.
      destruct (Hshape f a Hf Ha) as (_ & rest & Hs).
      assert (i < np.shape_at a 0) as Hlt'
          by (unfold np.shape_at; rewrite Hs; exact Hlt).
      unfold pd.iloc. rewrite L0, L1. split; now apply column_nth_error.
    + destruct Hproba as (L & Hl).
      destruct (nth_error (np.ravel a) i) as [probability|] eqn:E.
      * exists probability. unfold pd.iloc. rewrite L. auto.
      * apply nth_error_None in E. lia.
  - intros I1 I2 I3. destruct (Hid I1 I2 I3) as (values & rest & Lraw & Hl & _ & Lres).
    destruct (nth_error values i) as [identifier|] eqn:E.
    + exists identifier. unfold pd.iloc. rewrite Lraw, Lres. auto.
    + apply nth_error_None in E. lia.
Qed.

Lemma row_alignment_witness :
  exists results,
    In (ToCsv (out Examples.command_line) results)
       (snd (main Examples.command_line
               (Examples.files Examples.raw_table Examples.cleaning_pipeline)))
    /\ pd.index_size results = pd.index_size Examples.raw_table
    /\ pd.iloc results (LStr "ID") 1 = pd.iloc Examples.raw_table (LStr "ID") 1
    /\ pd.iloc results Prediccion 1 = Some (CInt 1)
    /\ pd.iloc results Probabilidad_Default 1 = Some (CFloat (7 # 10)).
Proof.
  eexists.
  assert (In (ToCsv (out Examples.command_line)
                (pd.mkDataFrame 2
                   [(LStr "ID", [CInt 1; CInt 2]); (LStr "x", [CInt 5; CInt 7]);
                    (LStr "Prediccion", [CInt 0; CInt 1]);
                    (LStr "Probabilidad_No_Default", [CFloat (8 # 10); CFloat (3 # 10)]);
                    (LStr "Probabilidad_Default", [CFloat (2 # 10); CFloat (7 # 10)])]))
            (snd (main Examples.command_line
                    (Examples.files Examples.raw_table Examples.cleaning_pipeline)))) as H.
  { vm_compute. do 9 right. left. reflexivity. }
  split; [exact H|].
  assert (leaves_the_table_alone Examples.cleaning_pipeline Examples.raw_table) as Ha
      by (repeat split).
  assert (honours_interface Examples.cleaning_pipeline Examples.raw_table) as Hi.
  { split.
    - intros predictions E. inversion E. reflexivity.
    - intros f a Ef Ea. inversion Ef; subst f. inversion Ea; subst a.
      split; [reflexivity | now exists [2]]. }
  assert (answers_by_position Examples.cleaning_pipeline Examples.raw_table) as Hp.
  { intros predictions E. inversion E. eauto. }
  assert (pd.rectangular Examples.raw_table) as Hr by (repeat constructor).
  assert (forall l, output_label l = true ->
                    not_repeated l (pd.mkDataFrame 2 [(LStr "x", [CInt 5; CInt 7])])) as Hl.
  { intros l _. apply NoDup_not_repeated. repeat constructor. intros []. }
  destruct (row_alignment Examples.command_line
              (Examples.files Examples.raw_table Examples.cleaning_pipeline)
              Examples.raw_table Examples.cleaning_pipeline
              (pd.mkDataFrame 2 [(LStr "x", [CInt 5; CInt 7])])
              [Transform Examples.raw_table] _
              eq_refl eq_refl eq_refl Ha Hi Hp Hr Hl H)
    as (Hrows & _ & Hrow).
  split; [exact Hrows|].
  destruct (Hrow 1 (le_n 2)) as ((preds & prediction & Hpred & Hnth & Hpr) & Hproba & Hid).
  destruct (Hid eq_refl eq_refl eq_refl) as (identifier & Hraw & Hres).
  split; [transitivity (Some identifier); [exact Hres | symmetry; exact Hraw]|].
  split.
  - inversion Hpred; subst preds. inversion Hnth; subst prediction. exact Hpr.
  - exact (proj2 (Hproba (fun _ => Ok Examples.two_class_proba)
                    Examples.two_class_proba eq_refl eq_refl)).
Defined.

(** Two of the hypotheses of the amended C1, at runs of line 91 that do
    not raise.  With two columns called [Prediccion] in the cleaned
    table and two predictions, pandas gives each column one prediction
    on every row: the table holds [0, 0] and [1, 1], and row 1 of the
    first column is not prediction 1. *)
Example predictions_spread_over_repeated_label :
  pd.setitem Examples.twice_Prediccion Prediccion [CInt 0; CInt 1]
  = Ok (pd.mkDataFrame 2
          [(LStr "Prediccion", [CInt 0; CInt 0]); (LStr "Prediccion", [CInt 1; CInt 1])])
  /\ ~ not_repeated Prediccion Examples.twice_Prediccion.
Proof. split; [reflexivity | vm_compute; lia]. Qed.

(** C1 as stated, refuted.  The raw table has two rows, the second with
    a missing value; the cleaning stage of the pipeline drops incomplete
    rows and the pipeline predicts on the rows that remain.  The cleaned
    table keeps the identifier column, so nothing is inserted, and the
    one prediction fits the one row of the cleaned table: the run exits
    with status 0 and the Results Table has one row, not two. *)
Lemma results_follow_cleaned_rows :
  exists results,
    fst (main Examples.command_line
           (Examples.files Examples.table_with_missing_value
              Examples.row_dropping_pipeline)) = 0%Z
    /\ In (ToCsv (out Examples.command_line) results)
          (snd (main Examples.command_line
                  (Examples.files Examples.table_with_missing_value
                     Examples.row_dropping_pipeline)))
    /\ pd.index_size Examples.table_with_missing_value = 2
    /\ pd.index_size results = 1
    /\ pd.index_size results <> pd.index_size Examples.table_with_missing_value.
Proof.
  eexists. split; [reflexivity|]. split.
  - vm_compute. do 9 right. left. reflexivity.
  - repeat split; try reflexivity. discriminate.
Qed.

(** When the table has no column of the identifier label, the columns of
    the Results Table are those of the cleaned table followed by labels
    the runner writes: no identifier column is added. *)
Lemma no_identifier_without_raw_column (args : arguments) (w : world)
    (test_data : pd.DataFrame) (pipeline : Pipeline) (cleaned : pd.DataFrame) (tc : trace)
    (results : pd.DataFrame) :
  read_csv w (csv args) = Ok test_data ->
  joblib_load w (pkl args) = Ok pipeline ->
  get_cleaned_df_from_pipeline pipeline test_data = (Ok cleaned, tc) ->
  In (ToCsv (out args) results) (snd (main args w)) ->
  pd.label_in (LStr (id_col args)) (table_at_assembly pipeline test_data) = false ->
  exists added,
    pd.columns results
    = pd.columns (cleaned_at_assembly pipeline test_data cleaned) ++ added
    /\ Forall (fun l => output_label l = true) added.
Proof.
  intros Hraw Hload Hclean Hin Iraw.
  destruct (written_is_results_table args w _ _ Hin) as [_ Hrt].
  destruct (results_table_inv args w _ _ _ Hraw Hload Hrt)
    as (cleaned' & tc' & preds & proba & has & tp & Hclean' & Hpred & Hproba & Hres).
  rewrite Hclean in Hclean'. inversion Hclean'; subst cleaned' tc'. clear Hclean'.
  destruct (assemble_inv _ _ _ _ _ _ _ Hres)
    as (with_id & wp & Hid & Hset & _ & Hsteps).
  rewrite Iraw in Hid. simpl in Hid. subst with_id.
  pose proof (setitem_answer_columns _ _ _ _ Hset) as Cwp.
  set (kept := cleaned_at_assembly pipeline test_data cleaned) in *.
  destruct has.
  - destruct Hsteps as (p & _ & Hsteps). destruct (two_columns p).
    + destruct Hsteps as (r1 & S1 & S2).
      destruct (two_probability_columns _ _ _ _ S1 S2) as (_ & C & _).
      eexists. rewrite C, Cwp, <- app_assoc. split; [reflexivity|].
      apply Forall_app. split.
      * destruct (pd.label_in Prediccion kept); repeat constructor.
      * apply Forall_forall. intros l Hl. apply filter_In in Hl.
        destruct Hl as [[<-|[<-|[]]] _]; reflexivity.
    + destruct (one_probability_column _ _ _ Hsteps) as (_ & C & _).
      eexists. rewrite C, Cwp, <- app_assoc. split; [reflexivity|].
      apply Forall_app. split.
      * destruct (pd.label_in Prediccion kept); repeat constructor.
      * apply Forall_forall. intros l Hl. apply filter_In in Hl.
        destruct Hl as [[<-|[]] _]; reflexivity.
  - subst results. eexists. rewrite Cwp. split; [reflexivity|].
    destruct (pd.label_in Prediccion kept); repeat constructor.
Qed.

(** C6 (identifier preservation), at a run with [--id-col Prediccion].
    The table has the identifier column [Prediccion] = [101, 102] and a
    feature; the cleaning stage drops the identifier; [predict] answers
    [0, 1].  The identifier exists in the raw table and is not a column of
    the cleaned table, so line 88 inserts it in front; line 91 then
    assigns the predictions to the same label.  The run exits with status
    0 and the first column of the Results Table is labelled [Prediccion]
    and holds the predictions [0, 1], not the identifiers. *)
Theorem identifier_overwritten_by_predictions :
  exists results,
    fst (main Examples.command_line_Prediccion_id
           (Examples.files Examples.table_with_Prediccion_id Examples.cleaning_pipeline))
    = 0%Z
    /\ In (ToCsv (out Examples.command_line_Prediccion_id) results)
          (snd (main Examples.command_line_Prediccion_id
                  (Examples.files Examples.table_with_Prediccion_id
                     Examples.cleaning_pipeline)))
    /\ pd.label_in (LStr (id_col Examples.command_line_Prediccion_id))
         Examples.table_with_Prediccion_id = true
    /\ get_cleaned_df_from_pipeline Examples.cleaning_pipeline
         Examples.table_with_Prediccion_id
       = (Ok Examples.cleaned_without_id, [Transform Examples.table_with_Prediccion_id])
    /\ pd.label_in (LStr (id_col Examples.command_line_Prediccion_id))
         Examples.cleaned_without_id = false
    /\ pd.lookup Examples.table_with_Prediccion_id
         (LStr (id_col Examples.command_line_Prediccion_id))
       = Some [CInt 101; CInt 102]
    /\ hd_error (pd.cols results)
       = Some (LStr (id_col Examples.command_line_Prediccion_id), [CInt 0; CInt 1]).
Proof.
  eexists. split; [reflexivity|]. split.
  - vm_compute. do 9 right. left. reflexivity.
  - repeat split; reflexivity.
Qed.

(* ===================================================================== *)
(** * Further properties of [main] and [get_cleaned_df_from_pipeline] *)
(* ===================================================================== *)

(* ===================================================================== *)
(** ** The shape of a run *)
(* ===================================================================== *)

Lemma stages_app (t1 t2 : trace) : stages (t1 ++ t2) = stages t1 ++ stages t2.
Proof. unfold stages. apply flat_map_app. Qed.

Lemma stderr_lines_app (t1 t2 : trace) :
  stderr_lines (t1 ++ t2) = stderr_lines t1 ++ stderr_lines t2.
Proof. unfold stderr_lines. apply flat_map_app. Qed.

Lemma writes_nothing_app (t1 t2 : trace) :
  writes_nothing t1 -> writes_nothing t2 -> writes_nothing (t1 ++ t2).
Proof.
  intros H1 H2 path df Hin. apply in_app_or in Hin.
  destruct Hin as [Hin|Hin]; [exact (H1 _ _ Hin) | exact (H2 _ _ Hin)].
Qed.

(** [predict_proba] is always attempted to the end: the inner handler
    catches whatever it raises. *)
Lemma try_predict_proba_total (pipeline : Pipeline) (test_data : pd.DataFrame) :
  exists probabilities has_proba tp,
    try_predict_proba pipeline test_data = (Ok (probabilities, has_proba), tp).
Proof.
  destruct (try_predict_proba_cases pipeline test_data)
    as [(f & a & _ & _ & E) | [(f & e & _ & _ & E) | [_ E]]]; rewrite E; eauto.
Qed.

(** The events of [get_cleaned_df_from_pipeline]: nothing, the call to
    [transform], or the call and the warning. *)
Lemma get_cleaned_trace (pipeline : Pipeline) (df_raw cleaned : pd.DataFrame) (tc : trace) :
  get_cleaned_df_from_pipeline pipeline df_raw = (Ok cleaned, tc) ->
  tc = []
  \/ tc = [Transform df_raw]
  \/ exists e, cleaned = table_after_cleaning pipeline df_raw
               /\ tc = [Transform df_raw; Print stderr (aviso_limpio +++ description e)].
Proof.
  intro H.
  destruct (get_cleaned_cases pipeline df_raw)
    as [[_ E] | [(c & df & _ & _ & E) | [(c & a & df & _ & _ & _ & E) | (c & e & K & _ & E)]]];
    rewrite E in H; inversion H; subst; eauto.
  right; right. exists e. unfold table_after_cleaning. rewrite K. auto.
Qed.

(** The events of [try_predict_proba]: the call, the call and the notice,
    or the notice alone. *)
Lemma try_predict_proba_trace (pipeline : Pipeline) (test_data : pd.DataFrame)
    (probabilities : option np.ndarray) (has_proba : bool) (tp : trace) :
  try_predict_proba pipeline test_data = (Ok (probabilities, has_proba), tp) ->
  tp = [PredictProba test_data]
  \/ tp = [PredictProba test_data; Print stdout aviso_proba]
  \/ tp = [Print stdout aviso_proba].
Proof.
  intro H.
  destruct (try_predict_proba_cases pipeline test_data)
    as [(f & a & _ & _ & E) | [(f & e & _ & _ & E) | [_ E]]];
    rewrite E in H; inversion H; subst; auto.
Qed.

(** The body of the [try] up to the predictions: where it stops when the
    table cannot be read, the pipeline cannot be loaded or [predict]
    raises, and what it has gathered otherwise. *)
Lemma main_body_until_predictions (args : arguments) (w : world) :
  (exists e,
      read_csv w (csv args) = Raise e
      /\ main_body args w = (Raise e, [ReadCsv (csv args)]))
  \/ (exists test_data e,
         read_csv w (csv args) = Ok test_data
         /\ joblib_load w (pkl args) = Raise e
         /\ main_body args w = (Raise e, events_of_loading args test_data))
  \/ (exists test_data pipeline cleaned tc e,
         read_csv w (csv args) = Ok test_data
         /\ joblib_load w (pkl args) = Ok pipeline
         /\ get_cleaned_df_from_pipeline pipeline test_data = (Ok cleaned, tc)
         /\ predict pipeline (table_after_cleaning pipeline test_data) = Raise e
         /\ main_body args w
            = (Raise e,
               events_of_loading args test_data ++ tc
               ++ [Print stdout ("Forma del archivo de prueba (limpio): "
                                 +++ pd.show_shape cleaned);
                   Predict (table_after_cleaning pipeline test_data)]))
  \/ (exists test_data pipeline cleaned tc predictions probabilities has_proba tp,
         read_csv w (csv args) = Ok test_data
         /\ joblib_load w (pkl args) = Ok pipeline
         /\ get_cleaned_df_from_pipeline pipeline test_data = (Ok cleaned, tc)
         /\ predict pipeline (table_after_cleaning pipeline test_data) = Ok predictions
         /\ try_predict_proba pipeline (table_after_predict pipeline test_data)
            = (Ok (probabilities, has_proba), tp)).
Proof.
  destruct (read_csv w (csv args)) as [test_data|e] eqn:Hraw.
  2:{ left. exists e. split; [reflexivity|].
      unfold main_body, call. rewrite Hraw. reflexivity. }
  right.
  destruct (joblib_load w (pkl args)) as [pipeline|e] eqn:Hload.
  2:{ left. exists test_data, e. split; [reflexivity|]. split; [reflexivity|].
      unfold main_body, call, print, emit. rewrite Hraw. cbn [bind app].
      rewrite Hload. reflexivity. }
  right.
  destruct (get_cleaned_total pipeline test_data) as (cleaned & tc & Hclean).
  destruct (predict pipeline (table_after_cleaning pipeline test_data))
    as [predictions|e] eqn:Hpred.
  2:{ left. exists test_data, pipeline, cleaned, tc, e.
      repeat (split; [assumption || reflexivity|]).
      unfold main_body, events_of_loading, call, print, emit.
      rewrite Hraw. cbn [bind app]. rewrite Hload. cbn [bind app].
      rewrite Hclean. cbn [bind app]. rewrite Hpred. cbn [bind app].
      repeat rewrite app_nil_r. repeat rewrite <- app_assoc. reflexivity. }
  right.
  destruct (try_predict_proba_total pipeline (table_after_predict pipeline test_data))
    as (probabilities & has_proba & tp & Hproba).
  exists test_data, pipeline, cleaned, tc, predictions, probabilities, has_proba, tp.
  auto 10.
Qed.

(* ===================================================================== *)
(** ** How the assembly of the Results Table can fail *)
(* ===================================================================== *)

Lemma sanitize_column_raise (df : pd.DataFrame) (v : list cell) (e : exception) :
  pd.sanitize_column df v = Raise e -> exc_class e = ValueError.
Proof.
  unfold pd.sanitize_column. destruct (length v =? _); [discriminate|].
  unfold raise_with. intro H. now inversion H.
Qed.

Lemma setitem_raise (df : pd.DataFrame) (key : label) (v : list cell) (e : exception) :
  pd.setitem df key v = Raise e -> exc_class e = ValueError.
Proof.
  unfold pd.setitem. destruct (pd.spreads df key (length v)); [discriminate|].
  destruct (pd.sanitize_column df v) as [df'|e'] eqn:S; [discriminate|].
  intro H. inversion H; subst e'. exact (sanitize_column_raise _ _ _ S).
Qed.

Lemma insert0_raise (df : pd.DataFrame) (column : label) (v : list cell) (e : exception) :
  pd.insert df 0 column v = Raise e -> exc_class e = ValueError.
Proof.
  unfold pd.insert. destruct (pd.label_in column df).
  - unfold raise_with. intro H. now inversion H.
  - destruct (pd.sanitize_column df v) as [df'|e'] eqn:S.
    + cbn. discriminate.
    + intro H. inversion H; subst e'. exact (sanitize_column_raise _ _ _ S).
Qed.

(** A label that is a column can be read. *)
Lemma label_in_lookup (df : pd.DataFrame) (key : label) :
  pd.label_in key df = true <-> exists v, pd.lookup df key = Some v.
Proof.
  unfold pd.label_in, pd.lookup, pd.columns.
  induction (pd.cols df) as [|c cs IH]; simpl.
  - split; [discriminate | intros [v H]; discriminate].
  - rewrite (label_eqb_sym key (fst c)).
    destruct (label_eqb (fst c) key); simpl; [|exact IH].
    split; eauto.
Qed.

(** With predictions in an array, every exception of lines 85-100 is a
    [ValueError], as long as the probabilities are there when
    [has_proba] says so. *)
Lemma assemble_raise (args : arguments) (test_data cleaned : pd.DataFrame)
    (predictions : list cell) (probabilities : option np.ndarray) (has_proba : bool)
    (e : exception) :
  (has_proba = true -> probabilities <> None) ->
  assemble args test_data cleaned (AArray predictions) probabilities has_proba = Raise e ->
  exc_class e = ValueError.
Proof.
  intro Hp. unfold assemble, pd.copy, setitem_answer.
  assert (forall with_id,
             match pd.setitem with_id Prediccion predictions with
             | Raise e => Raise e
             | Ok results =>
                 if has_proba then
                   match probabilities with
                   | None => raise_with AttributeError "ndim"
                   | Some probabilities =>
                       if two_columns probabilities then
                         match pd.setitem results Probabilidad_No_Default
                                 (np.column probabilities 0) with
                         | Raise e => Raise e
                         | Ok results =>
                             pd.setitem results Probabilidad_Default
                               (np.column probabilities 1)
                         end
                       else pd.setitem results Probabilidad (np.ravel probabilities)
                   end
                 else Ok results
             end = Raise e -> exc_class e = ValueError) as Rest.
  { intro with_id.
    destruct (pd.setitem with_id Prediccion predictions) as [wp|e1] eqn:S.
    2:{ intro H. inversion H; subst e1. exact (setitem_raise _ _ _ _ S). }
    destruct has_proba; [|discriminate].
    destruct probabilities as [p|]; [|exfalso; now apply Hp].
    destruct (two_columns p).
    - destruct (pd.setitem wp Probabilidad_No_Default (np.column p 0)) as [r1|e1] eqn:S1.
      + apply setitem_raise.
      + intro H. inversion H; subst e1. exact (setitem_raise _ _ _ _ S1).
    - apply setitem_raise. }
  destruct (pd.label_in (LStr (id_col args)) test_data
            && negb (pd.label_in (LStr (id_col args)) cleaned)) eqn:G.
  - destruct (pd.count_label (LStr (id_col args)) test_data =? 1).
    2:{ destruct (pd_facts.insert_2d_raises cleaned (LStr (id_col args))
                    (pd.index_size test_data)
                    (pd.count_label (LStr (id_col args)) test_data)) as (e1 & -> & He1).
        intro H. now inversion H; subst e1. }
    apply andb_true_iff in G. destruct G as [G _].
    apply label_in_lookup in G. destruct G as [values G].
    apply pd_facts.getitem_values_lookup in G. rewrite G.
    destruct (pd.insert cleaned 0 (LStr (id_col args)) values) as [with_id|e1] eqn:I.
    + apply Rest.
    + intro H. inversion H; subst e1. exact (insert0_raise _ _ _ _ I).
  - apply Rest.
Qed.

(** The events of a run before the assembly write no file. *)
Lemma writes_nothing_before_assembly (args : arguments) (pipeline : Pipeline)
    (test_data cleaned : pd.DataFrame) (tc : trace)
    (probabilities : option np.ndarray) (has_proba : bool) (tp : trace) :
  get_cleaned_df_from_pipeline pipeline test_data = (Ok cleaned, tc) ->
  try_predict_proba pipeline (table_after_predict pipeline test_data)
  = (Ok (probabilities, has_proba), tp) ->
  writes_nothing (events_before_assembly args pipeline test_data cleaned tc tp).
Proof.
  intros Hclean Hproba path df. unfold events_before_assembly.
  destruct (get_cleaned_trace _ _ _ _ Hclean) as [-> | [-> | (e' & _ & ->)]];
    destruct (try_predict_proba_trace _ _ _ _ _ Hproba) as [-> | [-> | ->]];
    cbn [app In]; intro H;
    repeat (destruct H as [H|H]; [discriminate|]); exact H.
Qed.

(** A run whose assembly raises, with predictions in an array: status 2,
    no file, and the closing message of the generic handler. *)
Lemma run_stops_at_assembly (args : arguments) (w : world) (test_data : pd.DataFrame)
    (pipeline : Pipeline) (cleaned : pd.DataFrame) (tc : trace) (predictions : list cell) :
  path_exists w (csv args) = true ->
  path_exists w (pkl args) = true ->
  read_csv w (csv args) = Ok test_data ->
  joblib_load w (pkl args) = Ok pipeline ->
  get_cleaned_df_from_pipeline pipeline test_data = (Ok cleaned, tc) ->
  predict pipeline (table_after_cleaning pipeline test_data) = Ok (AArray predictions) ->
  (forall probabilities has_proba tp results,
      try_predict_proba pipeline (table_after_predict pipeline test_data)
      = (Ok (probabilities, has_proba), tp) ->
      assemble args (table_at_assembly pipeline test_data)
        (cleaned_at_assembly pipeline test_data cleaned)
        (AArray predictions) probabilities has_proba <> Ok results) ->
  fst (main args w) = 2%Z
  /\ writes_nothing (snd (main args w))
  /\ exists e before,
      exc_class e = ValueError
      /\ snd (main args w)
         = before ++ [Print stderr (nl +++ "Error al procesar inferencia: "
                                    +++ description e)].
Proof.
  intros Hcsv Hpkl Hraw Hload Hclean Hpred Hfail.
  destruct (try_predict_proba_total pipeline (table_after_predict pipeline test_data))
    as (probabilities & has_proba & tp & Hproba).
  pose proof (main_body_from_predictions args w _ _ _ _ _ _ _ _
                Hraw Hload Hclean Hpred Hproba) as B.
  cbv zeta in B.
  destruct (assemble args (table_at_assembly pipeline test_data)
              (cleaned_at_assembly pipeline test_data cleaned)
              (AArray predictions) probabilities has_proba)
    as [results|e] eqn:Hres; [exfalso; exact (Hfail _ _ _ _ Hproba Hres)|].
  assert (exc_class e = ValueError) as Hclass.
  { refine (assemble_raise _ _ _ _ _ _ _ _ Hres).
    destruct (try_predict_proba_cases pipeline (table_after_predict pipeline test_data))
      as [(f & a & _ & _ & C) | [(f & e' & _ & _ & C) | [_ C]]];
      rewrite C in Hproba; inversion Hproba; subst; discriminate. }
  assert (is_FileNotFoundError e = false) as Hnot
      by (unfold is_FileNotFoundError; now rewrite Hclass).
  unfold main. rewrite Hcsv, Hpkl, B, Hnot. cbn [negb fst snd].
  split; [reflexivity|]. split.
  - apply writes_nothing_app.
    + exact (writes_nothing_before_assembly args _ _ _ _ _ _ _ Hclean Hproba).
    + intros path df [H|[]]. discriminate.
  - eauto.
Qed.

(* ===================================================================== *)
(** ** The table a run writes *)
(* ===================================================================== *)

(** The frame a run writes, in terms of the table, the pipeline, the
    cleaned table and the predictions of the run. *)
Lemma written_table_inv (args : arguments) (w : world) (test_data : pd.DataFrame)
    (pipeline : Pipeline) (cleaned : pd.DataFrame) (tc : trace) (predictions : answer)
    (path : string) (results : pd.DataFrame) :
  read_csv w (csv args) = Ok test_data ->
  joblib_load w (pkl args) = Ok pipeline ->
  get_cleaned_df_from_pipeline pipeline test_data = (Ok cleaned, tc) ->
  predict pipeline (table_after_cleaning pipeline test_data) = Ok predictions ->
  In (ToCsv path results) (snd (main args w)) ->
  exists probabilities has_proba tp,
    try_predict_proba pipeline (table_after_predict pipeline test_data)
    = (Ok (probabilities, has_proba), tp)
    /\ assemble args (table_at_assembly pipeline test_data)
         (cleaned_at_assembly pipeline test_data cleaned)
         predictions probabilities has_proba = Ok results.
Proof.
  intros Hraw Hload Hclean Hpred Hin.
  destruct (written_is_results_table args w _ _ Hin) as [_ Hrt].
  destruct (results_table_inv args w _ _ _ Hraw Hload Hrt)
    as (cleaned' & tc' & preds & probabilities & has_proba & tp
        & Hclean' & Hpred' & Hproba & Hres).
  rewrite Hclean in Hclean'. inversion Hclean'; subst cleaned' tc'.
  rewrite Hpred in Hpred'. inversion Hpred'; subst preds.
  eauto.
Qed.

(** A column of a frame without rows, after the frame took the index of
    a non-empty value: as many NaN as the value has elements. *)
Lemma lookup_refilled (df : pd.DataFrame) (v : list cell) (l : label) :
  pd.index_size df = 0 -> 0 < length v -> pd.label_in l df = true ->
  pd.lookup (pd.ensure_valid_index df v) l = Some (repeat CNaN (length v)).
Proof.
  intros H0 Hv Hl. unfold pd.ensure_valid_index.
  apply Nat.eqb_eq in H0. apply Nat.ltb_lt in Hv. rewrite H0, Hv. cbn [andb].
  unfold pd.lookup. cbn [pd.cols].
  unfold pd.label_in, pd.columns in Hl.
  induction (pd.cols df) as [|c cs IH]; [discriminate|].
  cbn [map find fst existsb] in *. rewrite (label_eqb_sym l (fst c)) in Hl.
  destruct (label_eqb (fst c) l); [reflexivity|]. now apply IH.
Qed.

Lemma insert0_lookup_other (df r : pd.DataFrame) (column l : label) (v : list cell) :
  pd.insert df 0 column v = Ok r -> l <> column ->
  pd.lookup r l = pd.lookup (pd.ensure_valid_index df v) l.
Proof.
  intros H Hne. apply pd_facts.insert0_ok in H. destruct H as (_ & _ & C).
  unfold pd.lookup. rewrite C. cbn [find fst].
  assert (label_eqb column l = false) as N by (apply label_eqb_neq; congruence).
  now rewrite N.
Qed.

Lemma insert0_label_in (df r : pd.DataFrame) (column l : label) (v : list cell) :
  pd.insert df 0 column v = Ok r ->
  pd.label_in l r = label_eqb l column || pd.label_in l df.
Proof.
  intro H. apply pd_facts.insert0_ok in H. destruct H as (_ & _ & C).
  unfold pd.label_in at 1. unfold pd.columns. rewrite C. cbn [map existsb fst].
  fold (pd.columns (pd.ensure_valid_index df v)).
  now rewrite pd_facts.ensure_valid_index_columns.
Qed.

(** The insertion at the front keeps labels distinct, as assignments
    do. *)
Lemma insert0_NoDup (df r : pd.DataFrame) (column : label) (v : list cell) :
  pd.insert df 0 column v = Ok r -> NoDup (pd.columns df) -> NoDup (pd.columns r).
Proof.
  intros H Hnd. pose proof (pd_facts.insert0_ok _ _ _ _ H) as (K & _ & C).
  unfold pd.columns at 1. rewrite C. cbn [map fst].
  fold (pd.columns (pd.ensure_valid_index df v)).
  rewrite pd_facts.ensure_valid_index_columns.
  constructor; [|exact Hnd]. intro Hin. apply pd_facts.label_in_In in Hin. congruence.
Qed.

(* ===================================================================== *)
(** ** When a run succeeds, and the order of its outside calls *)
(* ===================================================================== *)

(** X1 (what success needs).  A run exits with status 0 exactly when both
    paths exist, the table is read, the pipeline is loaded, [predict]
    answers, the Results Table can be assembled and written, and one of
    the two ways of counting the predictions works.  Nothing else can
    fail a run: not the cleaning stage, not [predict_proba], not
    [np.bincount] alone, not the preview. *)
Theorem run_succeeds_iff (args : arguments) (w : world) :
  fst (main args w) = 0%Z
  <-> path_exists w (csv args) = true
      /\ path_exists w (pkl args) = true
      /\ exists test_data pipeline predictions results,
           read_csv w (csv args) = Ok test_data
           /\ joblib_load w (pkl args) = Ok pipeline
           /\ predict pipeline (table_after_cleaning pipeline test_data) = Ok predictions
           /\ results_table args w results
           /\ to_csv w (out args) results = Ok tt
           /\ ((exists s, bincount_astype_int w predictions = Ok s)
               \/ (exists s, value_counts_sort_index w predictions = Ok s)).
Proof.
  split.
  - intro H. destruct (main_ok_inv args w H) as (Hcsv & Hpkl & B).
    split; [exact Hcsv|]. split; [exact Hpkl|].
    destruct (main_body_ok_inv args w _ B)
      as (test_data & pipeline & cleaned & tc & predictions & probabilities & has_proba
          & tp & results & binc_str & tv
          & Hraw & Hload & Hclean & Hpred & Hproba & Hres & Hw & Hcount & _).
    exists test_data, pipeline, predictions, results.
    repeat (split; [assumption|]). split.
    + exists test_data, pipeline, cleaned, tc, predictions, probabilities, has_proba, tp.
      auto 10.
    + split; [exact Hw|]. destruct Hcount as [K | [_ K]]; eauto.
  - intros (Hcsv & Hpkl & test_data & pipeline & predictions & results
            & Hraw & Hload & Hpred & Hrt & Hw & Hcount).
    destruct (results_table_inv args w _ _ _ Hraw Hload Hrt)
      as (cleaned & tc & preds & probabilities & has_proba & tp
          & Hclean & Hpred' & Hproba & Hres).
    rewrite Hpred in Hpred'. inversion Hpred'; subst preds. clear Hpred'.
    pose proof (main_body_from_predictions args w _ _ _ _ _ _ _ _
                  Hraw Hload Hclean Hpred Hproba) as B.
    cbv zeta in B. rewrite Hres, Hw in B.
    destruct (main_of_body args w Hcsv Hpkl) as [Hok _].
    destruct (bincount_astype_int w predictions) as [s|e0].
    + rewrite (Hok _ B). reflexivity.
    + destruct (value_counts_sort_index w predictions) as [s|e1].
      * rewrite (Hok _ B). reflexivity.
      * exfalso. destruct Hcount as [[s K]|[s K]]; discriminate.
Qed.

(** Closes a goal [StronglySorted lt (stages t)] for a trace [t] that is
    written out event by event. *)
Ltac in_order :=
  cbn [snd]; unfold events_before_assembly, events_of_loading;
  repeat rewrite stages_app; cbn [stages flat_map stage app];
  repeat (apply SSorted_cons || apply SSorted_nil || apply Forall_cons || apply Forall_nil);
  lia.

Lemma main_body_in_order (args : arguments) (w : world) :
  StronglySorted lt (stages (snd (main_body args w))).
Proof.
  destruct (main_body_until_predictions args w)
    as [(e & _ & B)
       | [(test_data & e & _ & _ & B)
         | [(test_data & pipeline & cleaned & tc & e & _ & _ & Hclean & _ & B)
           | (test_data & pipeline & cleaned & tc & predictions & probabilities & has_proba
              & tp & Hraw & Hload & Hclean & Hpred & Hproba)]]].
  - rewrite B. in_order.
  - rewrite B. in_order.
  - rewrite B. cbn [snd].
    destruct (get_cleaned_trace _ _ _ _ Hclean) as [-> | [-> | (e' & _ & ->)]]; in_order.
  - pose proof (main_body_from_predictions args w _ _ _ _ _ _ _ _
                  Hraw Hload Hclean Hpred Hproba) as B.
    cbv zeta in B. rewrite B. clear B.
    destruct (get_cleaned_trace _ _ _ _ Hclean) as [-> | [-> | (e' & _ & ->)]];
      destruct (try_predict_proba_trace _ _ _ _ _ Hproba) as [-> | [-> | ->]];
      (destruct (assemble args (table_at_assembly pipeline test_data)
                   (cleaned_at_assembly pipeline test_data cleaned)
                   predictions probabilities has_proba)
         as [results|e] eqn:Hres; [|in_order]);
      destruct (preview_of_results _ _ _ _ _ _ _ Hres) as (shown & _ & ->);
      (destruct (to_csv w (out args) results); [|in_order]);
      (destruct (bincount_astype_int w predictions); [in_order|]);
      (destruct (value_counts_sort_index w predictions); in_order).
Qed.

Lemma sorted_between (l1 l2 l3 : list nat) (i j : nat) :
  StronglySorted lt (l1 ++ i :: l2 ++ j :: l3) -> i < j.
Proof.
  induction l1 as [|x l1 IH]; cbn [app]; intro S; apply StronglySorted_inv in S.
  - destruct S as [_ F]. rewrite Forall_app in F. destruct F as [_ F].
    now inversion F.
  - destruct S as [S _]. now apply IH.
Qed.

(** X2 (order of the outside calls).  In every run the outside calls are
    made in the order [read_csv], [joblib.load], [transform] of the
    cleaning stage, [predict], [predict_proba], [to_csv], and none is
    made twice: of two outside calls of a run, the earlier one stands
    earlier in this list. *)
Theorem outside_calls_in_order (args : arguments) (w : world) :
  StronglySorted lt (stages (snd (main args w)))
  /\ forall t1 ev1 t2 ev2 t3 i j,
      snd (main args w) = t1 ++ ev1 :: t2 ++ ev2 :: t3 ->
      stage ev1 = Some i -> stage ev2 = Some j -> i < j.
Proof.
  assert (StronglySorted lt (stages (snd (main args w)))) as S.
  { unfold main.
    destruct (path_exists w (csv args)); cbn [negb]; [|in_order].
    destruct (path_exists w (pkl args)); cbn [negb]; [|in_order].
    pose proof (main_body_in_order args w) as H.
    destruct (main_body args w) as [[u|e] t]; cbn [snd] in *; [exact H|].
    destruct (is_FileNotFoundError e); cbn [snd]; rewrite stages_app;
      cbn [stages flat_map stage app]; now rewrite app_nil_r. }
  split; [exact S|].
  intros t1 ev1 t2 ev2 t3 i j E Hi Hj. rewrite E in S.
  change (ev1 :: t2 ++ ev2 :: t3) with ([ev1] ++ t2 ++ [ev2] ++ t3) in S.
  repeat rewrite stages_app in S.
  cbn [stages flat_map app] in S. rewrite Hi, Hj in S. cbn [app] in S.
  exact (sorted_between _ _ _ _ _ S).
Qed.

(* ===================================================================== *)
(** ** What a run prints *)
(* ===================================================================== *)

(** X3 (transcript of a successful run).  A run that exits with status 0
    did, in this order: read the table; print the banner, the input path
    and the shape of the raw table; load the pipeline; derive the cleaned
    table; print its shape; call [predict] on the table that was read;
    try [predict_proba]; write the Results Table to [--out]; print where it
    was saved, how many predictions were made (their number, not the
    number of rows of the table) and their distribution, rendered by
    [np.bincount] when it works and by [value_counts] otherwise; and
    print the heading and the frame of the preview.  Nothing comes after
    the preview. *)
Theorem successful_run_transcript (args : arguments) (w : world) :
  fst (main args w) = 0%Z ->
  exists test_data pipeline cleaned tc predictions probabilities has_proba tp
         results binc_str shown,
    read_csv w (csv args) = Ok test_data
    /\ joblib_load w (pkl args) = Ok pipeline
    /\ get_cleaned_df_from_pipeline pipeline test_data = (Ok cleaned, tc)
    /\ predict pipeline (table_after_cleaning pipeline test_data) = Ok predictions
    /\ try_predict_proba pipeline (table_after_predict pipeline test_data)
       = (Ok (probabilities, has_proba), tp)
    /\ assemble args (table_at_assembly pipeline test_data)
         (cleaned_at_assembly pipeline test_data cleaned)
         predictions probabilities has_proba = Ok results
    /\ (bincount_astype_int w predictions = Ok binc_str
        \/ (exists e, bincount_astype_int w predictions = Raise e)
           /\ value_counts_sort_index w predictions = Ok binc_str)
    /\ pd.getitem_list results (cols_show args results probabilities has_proba) = Ok shown
    /\ snd (main args w)
       = events_of_loading args test_data
         ++ tc
         ++ [Print stdout ("Forma del archivo de prueba (limpio): "
                           +++ pd.show_shape cleaned);
             Predict (table_after_cleaning pipeline test_data)]
         ++ tp
         ++ [ToCsv (out args) results;
             Print stdout ("Resultados (LIMPIO) guardados en '" +++ out args +++ "'");
             Print stdout ("Predicciones realizadas: " +++ show_nat (len predictions));
             Print stdout ("Distribución de predicciones: " +++ binc_str);
             Print stdout (nl +++ "Primeras " +++ show_Z (head args) +++ " filas:");
             PrintFrame PreferredColumns (pd.head shown (head args))].
Proof.
  intro H. destruct (main_ok_inv args w H) as (_ & _ & B).
  destruct (main_body_ok_inv args w _ B)
    as (test_data & pipeline & cleaned & tc & predictions & probabilities & has_proba
        & tp & results & binc_str & tv
        & Hraw & Hload & Hclean & Hpred & Hproba & Hres & Hw & Hcount & Hprev & E).
  destruct (preview_of_results _ _ _ _ _ _ _ Hres) as (shown & Hshown & Hprev').
  rewrite Hprev in Hprev'. inversion Hprev'; subst tv. clear Hprev'.
  exists test_data, pipeline, cleaned, tc, predictions, probabilities, has_proba, tp,
    results, binc_str, shown.
  repeat (split; [assumption|]).
  rewrite E. unfold events_of_loading. reflexivity.
Qed.

Lemma successful_run_transcript_witness :
  fst (main Examples.command_line
         (Examples.files Examples.raw_table Examples.no_proba_pipeline)) = 0%Z
  /\ exists predictions binc_str,
      predict Examples.no_proba_pipeline Examples.raw_table = Ok predictions
      /\ In (Print stdout ("Predicciones realizadas: " +++ show_nat (len predictions)))
            (snd (main Examples.command_line
                    (Examples.files Examples.raw_table Examples.no_proba_pipeline)))
      /\ In (Print stdout ("Distribución de predicciones: " +++ binc_str))
            (snd (main Examples.command_line
                    (Examples.files Examples.raw_table Examples.no_proba_pipeline))).
Proof.
  split; [reflexivity|].
  destruct (successful_run_transcript Examples.command_line
              (Examples.files Examples.raw_table Examples.no_proba_pipeline) eq_refl)
    as (test_data & pipeline & cleaned & tc & predictions & probabilities & has_proba
        & tp & results & binc_str & shown
        & Hraw & Hload & _ & Hpred & _ & _ & _ & _ & E).
  inversion Hraw; subst test_data. inversion Hload; subst pipeline.
  exists predictions, binc_str. split; [exact Hpred|].
  rewrite E. split; do 4 (apply in_or_app; right); simpl; auto.
Defined.

(** X4 (a failure after the file is written).  When the Results Table
    has been written and both ways of counting the predictions raise, the
    run ends with the status of the second exception (1 for a
    [FileNotFoundError], 2 otherwise) although the output file exists:
    the last three events are the call to [to_csv], the line that says
    where the results were saved, and the closing message on the error
    stream, which carries the description of the exception of
    [value_counts]; the exception of [np.bincount] is dropped, and
    neither the counts nor the preview are printed. *)
Theorem counting_failure_after_writing (args : arguments) (w : world)
    (test_data : pd.DataFrame) (pipeline : Pipeline) (predictions : answer)
    (results : pd.DataFrame) (e0 e : exception) :
  path_exists w (csv args) = true ->
  path_exists w (pkl args) = true ->
  read_csv w (csv args) = Ok test_data ->
  joblib_load w (pkl args) = Ok pipeline ->
  predict pipeline (table_after_cleaning pipeline test_data) = Ok predictions ->
  results_table args w results ->
  to_csv w (out args) results = Ok tt ->
  bincount_astype_int w predictions = Raise e0 ->
  value_counts_sort_index w predictions = Raise e ->
  fst (main args w) = status_of e
  /\ exists cleaned tc tp,
      get_cleaned_df_from_pipeline pipeline test_data = (Ok cleaned, tc)
      /\ snd (main args w)
         = events_before_assembly args pipeline test_data cleaned tc tp
           ++ [ToCsv (out args) results;
               Print stdout ("Resultados (LIMPIO) guardados en '" +++ out args +++ "'");
               Print stderr ((if is_FileNotFoundError e
                              then nl +++ "Archivo no encontrado: "
                              else nl +++ "Error al procesar inferencia: ")
                             +++ description e)].
Proof.
  intros Hcsv Hpkl Hraw Hload Hpred Hrt Hw Hb Hv.
  destruct (results_table_inv args w _ _ _ Hraw Hload Hrt)
    as (cleaned & tc & preds & probabilities & has_proba & tp
        & Hclean & Hpred' & Hproba & Hres).
  rewrite Hpred in Hpred'. inversion Hpred'; subst preds. clear Hpred'.
  pose proof (main_body_from_predictions args w _ _ _ _ _ _ _ _
                Hraw Hload Hclean Hpred Hproba) as B.
  cbv zeta in B. rewrite Hres, Hw, Hb, Hv in B.
  unfold main, status_of. rewrite Hcsv, Hpkl, B. cbn [negb].
  destruct (is_FileNotFoundError e); cbn [fst snd];
    (split; [reflexivity|]); exists cleaned, tc, tp; (split; [exact Hclean|]);
    rewrite <- app_assoc; reflexivity.
Qed.

Lemma counting_failure_after_writing_witness :
  fst (main Examples.command_line
         (Examples.files_uncountable Examples.raw_table Examples.no_proba_pipeline)) = 2%Z
  /\ In (ToCsv "resultados_inferencia_limpio.csv"
           (pd.mkDataFrame 2
              [(LStr "ID", [CInt 1; CInt 2]); (LStr "x", [CInt 5; CInt 7]);
               (LStr "Prediccion", [CInt 0; CInt 1])]))
        (snd (main Examples.command_line
                (Examples.files_uncountable Examples.raw_table Examples.no_proba_pipeline))).
Proof.
  destruct (counting_failure_after_writing Examples.command_line
              (Examples.files_uncountable Examples.raw_table Examples.no_proba_pipeline)
              Examples.raw_table Examples.no_proba_pipeline (AArray [CInt 0; CInt 1])
              (pd.mkDataFrame 2
                 [(LStr "ID", [CInt 1; CInt 2]); (LStr "x", [CInt 5; CInt 7]);
                  (LStr "Prediccion", [CInt 0; CInt 1])])
              (mkException ValueError "object too deep for desired array")
              (mkException ValueError "Data must be 1-dimensional")
              eq_refl eq_refl eq_refl eq_refl eq_refl
              (ex_intro _ Examples.raw_table
                 (ex_intro _ Examples.no_proba_pipeline
                    (ex_intro _ Examples.raw_table
                       (ex_intro _ []
                          (ex_intro _ (AArray [CInt 0; CInt 1])
                             (ex_intro _ None
                                (ex_intro _ false
                                   (ex_intro _ [PredictProba Examples.raw_table;
                                                Print stdout aviso_proba]
                                      (conj eq_refl
                                         (conj eq_refl
                                            (conj eq_refl
                                               (conj eq_refl
                                                  (conj eq_refl eq_refl)))))))))))))
              eq_refl eq_refl eq_refl)
    as (Hstatus & cleaned & tc & tp & _ & E).
  split; [exact Hstatus|].
  rewrite E. apply in_or_app. right. simpl. auto.
Defined.

(** Closes a goal about [stderr_lines t] for a trace [t] that is written
    out event by event. *)
Ltac on_error_stream :=
  cbn [snd]; unfold events_before_assembly, events_of_loading;
  repeat rewrite stderr_lines_app; cbn [stderr_lines flat_map app];
  solve [eauto].

(** The body of the [try] sends at most the cleaning warning to the error
    stream. *)
Lemma main_body_error_stream (args : arguments) (w : world) :
  stderr_lines (snd (main_body args w)) = []
  \/ exists e, stderr_lines (snd (main_body args w)) = [aviso_limpio +++ description e].
Proof.
  destruct (main_body_until_predictions args w)
    as [(e & _ & B)
       | [(test_data & e & _ & _ & B)
         | [(test_data & pipeline & cleaned & tc & e & _ & _ & Hclean & _ & B)
           | (test_data & pipeline & cleaned & tc & predictions & probabilities & has_proba
              & tp & Hraw & Hload & Hclean & Hpred & Hproba)]]].
  - rewrite B. on_error_stream.
  - rewrite B. on_error_stream.
  - rewrite B. cbn [snd].
    destruct (get_cleaned_trace _ _ _ _ Hclean) as [-> | [-> | (e' & _ & ->)]];
      on_error_stream.
  - pose proof (main_body_from_predictions args w _ _ _ _ _ _ _ _
                  Hraw Hload Hclean Hpred Hproba) as B.
    cbv zeta in B. rewrite B. clear B.
    destruct (get_cleaned_trace _ _ _ _ Hclean) as [-> | [-> | (e' & _ & ->)]];
      destruct (try_predict_proba_trace _ _ _ _ _ Hproba) as [-> | [-> | ->]];
      (destruct (assemble args (table_at_assembly pipeline test_data)
                   (cleaned_at_assembly pipeline test_data cleaned)
                   predictions probabilities has_proba)
         as [results|e] eqn:Hres; [|on_error_stream]);
      destruct (preview_of_results _ _ _ _ _ _ _ Hres) as (shown & _ & ->);
      (destruct (to_csv w (out args) results); [|on_error_stream]);
      (destruct (bincount_astype_int w predictions); [on_error_stream|]);
      (destruct (value_counts_sort_index w predictions); on_error_stream).
Qed.

(** X5 (the error stream of a run).  A run sends at most two lines to the
    error stream: the warning of the cleaning stage, at most once, and
    then, exactly when the exit status is not 0, one closing message,
    which is the last thing the run does.  A run that exits with status 0
    leaves on the error stream at most the cleaning warning. *)
Theorem error_stream_of_a_run (args : arguments) (w : world) :
  exists warning closing,
    stderr_lines (snd (main args w)) = warning ++ closing
    /\ (warning = [] \/ exists e, warning = [aviso_limpio +++ description e])
    /\ (if (fst (main args w) =? 0)%Z
        then closing = []
        else exists text before,
            closing = [text] /\ snd (main args w) = before ++ [Print stderr text]).
Proof.
  unfold main.
  destruct (path_exists w (csv args)); cbn [negb].
  2:{ exists [], [msg_csv_missing args]. cbn [fst snd Z.eqb].
      split; [reflexivity|]. split; [now left|].
      exists (msg_csv_missing args), []. auto. }
  destruct (path_exists w (pkl args)); cbn [negb].
  2:{ exists [], [msg_pkl_missing args]. cbn [fst snd Z.eqb].
      split; [reflexivity|]. split; [now left|].
      exists (msg_pkl_missing args), []. auto. }
  pose proof (main_body_error_stream args w) as H.
  destruct (main_body args w) as [[u|e] t]; cbn [snd] in H.
  - exists (stderr_lines t), []. cbn [fst snd Z.eqb]. rewrite app_nil_r. auto.
  - destruct (is_FileNotFoundError e); cbn [fst snd Z.eqb]; rewrite stderr_lines_app;
      eexists (stderr_lines t), [_]; (split; [reflexivity|]); (split; [exact H|]);
      eauto.
Qed.

(* ===================================================================== *)
(** ** Runs that stop before the file is written *)
(* ===================================================================== *)

(** The label [Prediccion], when it is not repeated in the cleaned
    table, is not repeated in the frame that receives the predictions
    either; the same holds of every label. *)
Lemma with_id_not_repeated (args : arguments) (test_data cleaned with_id : pd.DataFrame)
    (l : label) :
  (if pd.label_in (LStr (id_col args)) test_data
      && negb (pd.label_in (LStr (id_col args)) cleaned)
   then exists values,
       (pd.count_label (LStr (id_col args)) test_data = 1
        /\ pd.getitem_values test_data (LStr (id_col args)) = Ok values)
       /\ pd.insert cleaned 0 (LStr (id_col args)) values = Ok with_id
   else with_id = cleaned) ->
  not_repeated l cleaned -> not_repeated l with_id.
Proof.
  intros Hid Hl. destruct (_ && _).
  - destruct Hid as (values & _ & Hins). exact (insert0_not_repeated _ _ _ l _ Hins Hl).
  - now subst.
Qed.

(** X6 (predictions that do not fit the cleaned table).  When the
    cleaned table has rows and at most one column called [Prediccion],
    and [predict] answers with an array whose number of labels is not
    the number of rows of the cleaned table (a cleaning stage that drops
    rows under a model that answers for every raw row, say), the
    assignment of line 91, or the insertion of line 88 before it, raises
    a [ValueError]: the run exits with status 2, writes no file, and
    ends with the message of the generic handler on the error stream.
    The cleaned table is taken as it is when line 85 is reached. *)
Theorem length_mismatch_stops_before_writing (args : arguments) (w : world)
    (test_data : pd.DataFrame) (pipeline : Pipeline) (cleaned : pd.DataFrame) (tc : trace)
    (predictions : list cell) :
  let kept := cleaned_at_assembly pipeline test_data cleaned in
  path_exists w (csv args) = true ->
  path_exists w (pkl args) = true ->
  read_csv w (csv args) = Ok test_data ->
  joblib_load w (pkl args) = Ok pipeline ->
  get_cleaned_df_from_pipeline pipeline test_data = (Ok cleaned, tc) ->
  predict pipeline (table_after_cleaning pipeline test_data) = Ok (AArray predictions) ->
  pd.index_size kept <> 0 ->
  not_repeated Prediccion kept ->
  length predictions <> pd.index_size kept ->
  fst (main args w) = 2%Z
  /\ writes_nothing (snd (main args w))
  /\ exists e before,
      exc_class e = ValueError
      /\ snd (main args w)
         = before ++ [Print stderr (nl +++ "Error al procesar inferencia: "
                                    +++ description e)].
Proof.
  intros kept Hcsv Hpkl Hraw Hload Hclean Hpred Hne Hone Hlen. subst kept.
  apply (run_stops_at_assembly args w _ _ _ _ _ Hcsv Hpkl Hraw Hload Hclean Hpred).
  intros probabilities has_proba tp results _ Hres.
  destruct (assemble_inv _ _ _ _ _ _ _ Hres) as (with_id & wp & Hid & Hset & _).
  pose proof (with_id_index _ _ _ _ Hid Hne) as N.
  pose proof (with_id_not_repeated _ _ _ _ _ Hid Hone) as Hone'.
  assert (pd.index_size with_id = length predictions) as K.
  { apply (setitem_nonempty _ _ _ _ (pd_facts.not_spreads _ _ _ Hone') Hset).
    congruence. }
  congruence.
Qed.

Lemma length_mismatch_stops_before_writing_witness :
  get_cleaned_df_from_pipeline Examples.misaligned_pipeline
    Examples.table_with_missing_value
  = (Ok (pd.mkDataFrame 1 [(LStr "ID", [CInt 1]); (LStr "x", [CInt 5])]),
     [Transform Examples.table_with_missing_value])
  /\ predict Examples.misaligned_pipeline Examples.table_with_missing_value
     = Ok (AArray [CInt 0; CInt 0])
  /\ fst (main Examples.command_line
            (Examples.files Examples.table_with_missing_value
               Examples.misaligned_pipeline)) = 2%Z
  /\ writes_nothing
       (snd (main Examples.command_line
               (Examples.files Examples.table_with_missing_value
                  Examples.misaligned_pipeline))).
Proof.
  split; [reflexivity|]. split; [reflexivity|].
  destruct (length_mismatch_stops_before_writing Examples.command_line
              (Examples.files Examples.table_with_missing_value
                 Examples.misaligned_pipeline)
              Examples.table_with_missing_value Examples.misaligned_pipeline
              (pd.mkDataFrame 1 [(LStr "ID", [CInt 1]); (LStr "x", [CInt 5])])
              [Transform Examples.table_with_missing_value]
              [CInt 0; CInt 0]
              eq_refl eq_refl eq_refl eq_refl eq_refl eq_refl
              ltac:(simpl; lia) ltac:(vm_compute; lia) ltac:(simpl; lia))
    as (H2 & Hw & _).
  split; assumption.
Defined.

(** The same table and cleaning stage under a [predict] that answers
    with a Series of two labels: line 91 aligns the Series on the index
    of the one-row cleaned table, nothing is raised, and the run exits
    with status 0 and writes a Results Table of one row. *)
Example series_of_another_length_is_aligned :
  let w := Examples.files Examples.table_with_missing_value Examples.series_pipeline in
  fst (main Examples.command_line w) = 0%Z
  /\ In (ToCsv (out Examples.command_line)
           (pd.mkDataFrame 1
              [(LStr "ID", [CInt 1]); (LStr "x", [CInt 5]);
               (LStr "Prediccion", [CInt 0])]))
        (snd (main Examples.command_line w)).
Proof.
  cbv zeta. split; [reflexivity|].
  vm_compute. do 9 right. left. reflexivity.
Qed.

(** X7 (probabilities that do not fit the predictions).  When the
    cleaned table has no label the runner writes more than once,
    [predict] answers with an array of at least one label and
    [predict_proba] answers with an array that has not one row per label
    (for a 2-D array with at least two columns) or not one element per
    label once flattened (for any other array: a 1-D array of another
    length, a 3-D array), the assignment of line 96 or line 100 raises a
    [ValueError], or an earlier step of the assembly already did: the
    run exits with status 2 and writes no file. *)
Theorem misshapen_probabilities_stop_before_writing (args : arguments) (w : world)
    (test_data : pd.DataFrame) (pipeline : Pipeline) (cleaned : pd.DataFrame) (tc : trace)
    (predictions : list cell) (f : pd.DataFrame -> outcome np.ndarray) (a : np.ndarray) :
  path_exists w (csv args) = true ->
  path_exists w (pkl args) = true ->
  read_csv w (csv args) = Ok test_data ->
  joblib_load w (pkl args) = Ok pipeline ->
  get_cleaned_df_from_pipeline pipeline test_data = (Ok cleaned, tc) ->
  predict pipeline (table_after_cleaning pipeline test_data) = Ok (AArray predictions) ->
  predict_proba pipeline = Some f ->
  f (table_after_predict pipeline test_data) = Ok a ->
  (forall l, output_label l = true ->
             not_repeated l (cleaned_at_assembly pipeline test_data cleaned)) ->
  predictions <> [] ->
  (if two_columns a then np.shape_at a 0 else length (np.ravel a)) <> length predictions ->
  fst (main args w) = 2%Z
  /\ writes_nothing (snd (main args w))
  /\ exists e before,
      exc_class e = ValueError
      /\ snd (main args w)
         = before ++ [Print stderr (nl +++ "Error al procesar inferencia: "
                                    +++ description e)].
Proof.
  intros Hcsv Hpkl Hraw Hload Hclean Hpred Hf Ha Hlabels Hsome Hshape.
  apply (run_stops_at_assembly args w _ _ _ _ _ Hcsv Hpkl Hraw Hload Hclean Hpred).
  intros probabilities has_proba tp results Hproba Hres.
  destruct (try_predict_proba_answer _ _ _ _ _ _ _ Hf Ha Hproba) as [-> ->].
  destruct (assemble_inv _ _ _ _ _ _ _ Hres) as (with_id & wp & Hid & Hset & _ & Hsteps).
  destruct Hsteps as (p & Hp & Hsteps). inversion Hp; subst p. clear Hp.
  assert (forall l, output_label l = true -> not_repeated l wp) as Lwp.
  { intros l Hl.
    apply (setitem_answer_not_repeated _ _ _ l _ Hset).
    exact (with_id_not_repeated _ _ _ _ _ Hid (Hlabels l Hl)). }
  pose proof (pd_facts.setitem_ok _ _ _ _
                (pd_facts.not_spreads _ _ _
                   (with_id_not_repeated _ _ _ _ _ Hid (Hlabels Prediccion eq_refl)))
                Hset) as (N & _).
  assert (pd.index_size wp <> 0) as Hne.
  { rewrite N. destruct predictions; [congruence | discriminate]. }
  destruct (two_columns a).
  - destruct Hsteps as (r1 & S1 & _).
    pose proof (setitem_nonempty _ _ _ _
                  (pd_facts.not_spreads _ _ _ (Lwp Probabilidad_No_Default eq_refl))
                  S1 Hne) as K.
    rewrite column_length in K. congruence.
  - pose proof (setitem_nonempty _ _ _ _
                  (pd_facts.not_spreads _ _ _ (Lwp Probabilidad eq_refl))
                  Hsteps Hne) as K.
    congruence.
Qed.

Lemma misshapen_probabilities_stop_before_writing_witness :
  fst (main Examples.command_line
         (Examples.files Examples.raw_table Examples.flat_proba_pipeline)) = 2%Z
  /\ writes_nothing
       (snd (main Examples.command_line
               (Examples.files Examples.raw_table Examples.flat_proba_pipeline))).
Proof.
  assert (forall l, output_label l = true -> not_repeated l Examples.raw_table) as Hl.
  { intros l _. apply NoDup_not_repeated. repeat constructor.
    - intros [E|[]]. discriminate E.
    - intros []. }
  destruct (misshapen_probabilities_stop_before_writing Examples.command_line
              (Examples.files Examples.raw_table Examples.flat_proba_pipeline)
              Examples.raw_table Examples.flat_proba_pipeline
              Examples.raw_table [] [CInt 0; CInt 1]
              (fun _ => Ok (np.mk_ndarray [3]
                              [CFloat (8 # 10); CFloat (3 # 10); CFloat (5 # 10)]))
              (np.mk_ndarray [3] [CFloat (8 # 10); CFloat (3 # 10); CFloat (5 # 10)])
              eq_refl eq_refl eq_refl eq_refl eq_refl eq_refl eq_refl eq_refl
              Hl ltac:(discriminate) ltac:(simpl; lia))
    as (H2 & Hw & _).
  split; assumption.
Defined.

(* ===================================================================== *)
(** ** A cleaning stage that returns an array *)
(* ===================================================================== *)

Lemma find_in_numbered {X : Type} (g : nat -> X) (start len j : nat) :
  start <= j < start + len ->
  find (fun c => label_eqb (fst c) (LInt (Z.of_nat j)))
       (map (fun k => (LInt (Z.of_nat k), g k)) (seq start len))
  = Some (LInt (Z.of_nat j), g j).
Proof.
  revert start. induction len as [|len IH]; intros start H; [lia|].
  cbn [seq map find fst label_eqb].
  destruct (Z.of_nat start =? Z.of_nat j)%Z eqn:E.
  - apply Z.eqb_eq in E. apply Nat2Z.inj in E. now subst.
  - apply Z.eqb_neq in E. apply IH.
    assert (start <> j) by (intros ->; now apply E). lia.
Qed.

Lemma of_ndarray_raise (a : np.ndarray) (index : nat) (e : exception) :
  pd.of_ndarray a index = Raise e -> exc_class e = ValueError.
Proof.
  unfold pd.of_ndarray, raise_with.
  destruct (np.shape a) as [|r [|c [|x rest]]];
    try destruct (r =? index); intro H; inversion H; reflexivity.
Qed.

Lemma of_ndarray_ok (a : np.ndarray) (index : nat) (df : pd.DataFrame) :
  pd.of_ndarray a index = Ok df ->
  np.shape a = [index] \/ exists c, np.shape a = [index; c].
Proof.
  unfold pd.of_ndarray, raise_with.
  destruct (np.shape a) as [|r [|c [|x rest]]]; try discriminate;
    destruct (r =? index) eqn:E; try discriminate; apply Nat.eqb_eq in E; subst; eauto.
Qed.

(** X8 (an array from the cleaning stage).  When the cleaning stage
    returns a 2-D array with one row per row of the raw table (the table
    as the stage left it: line 34 reads its index after the call), the
    cleaned table is that array as a frame: it has the rows of the raw
    table and one column per column of the array, labelled with the
    integers 0, 1, ... in place of names; the value in row [i] of column
    [j] is the entry [i, j] of the array; nothing is printed.  No column
    of such a cleaned table has a string label, so the names of the raw
    columns are gone and the identifier label is never found in it. *)
Theorem array_from_cleaning_is_wrapped (pipeline : Pipeline) (df_raw : pd.DataFrame)
    (cleaning : step) (a : np.ndarray) (c : nat) :
  let rows := pd.index_size (transform_leaves cleaning df_raw) in
  cleaning_stage pipeline = Some cleaning ->
  transform cleaning df_raw = Ok (TArray a) ->
  np.shape a = [rows; c] ->
  exists cleaned,
    get_cleaned_df_from_pipeline pipeline df_raw = (Ok cleaned, [Transform df_raw])
    /\ pd.shape cleaned = (rows, c)
    /\ pd.columns cleaned = map (fun j => LInt (Z.of_nat j)) (seq 0 c)
    /\ pd.rectangular cleaned
    /\ (forall i j, i < rows -> j < c ->
                    pd.iloc cleaned (LInt (Z.of_nat j)) i = Some (np.at2 a i j))
    /\ (forall s, pd.label_in (LStr s) cleaned = false).
Proof.
  intros rows Hstage Ht Hshape.
  assert (np.shape_at a 0 = rows) as H0
      by (unfold np.shape_at; now rewrite Hshape).
  exists (pd.mkDataFrame rows
            (map (fun j => (LInt (Z.of_nat j), np.column a j)) (seq 0 c))).
  split; [|split; [|split; [|split; [|split]]]].
  - unfold get_cleaned_df_from_pipeline. unfold cleaning_stage in Hstage.
    destruct (named_steps pipeline) as [steps|]; [|discriminate].
    rewrite Hstage. unfold call. rewrite Ht. cbn [bind try_except lift app].
    unfold pd.of_ndarray. fold rows. rewrite Hshape, Nat.eqb_refl. reflexivity.
  - unfold pd.shape. cbn [pd.index_size pd.cols]. now rewrite length_map, length_seq.
  - unfold pd.columns. cbn [pd.cols]. rewrite map_map. reflexivity.
  - unfold pd.rectangular. cbn [pd.index_size pd.cols].
    apply Forall_forall. intros x Hx. apply in_map_iff in Hx.
    destruct Hx as (j & <- & _). cbn [snd]. now rewrite column_length.
  - intros i j Hi Hj. unfold pd.iloc, pd.lookup. cbn [pd.cols].
    rewrite (find_in_numbered (np.column a) 0 c j) by lia.
    cbn [option_map snd]. apply column_nth_error. now rewrite H0.
  - intro s. unfold pd.label_in, pd.columns. cbn [pd.cols]. rewrite map_map.
    cbn [fst]. induction (seq 0 c) as [|k ks IH]; [reflexivity | exact IH].
Qed.

Lemma array_from_cleaning_is_wrapped_witness :
  get_cleaned_df_from_pipeline Examples.array_cleaning_pipeline Examples.raw_table
  = (Ok (pd.mkDataFrame 2 [(LInt 0, [CInt 1; CInt 2]); (LInt 1, [CInt 5; CInt 7])]),
     [Transform Examples.raw_table])
  /\ pd.label_in (LStr "ID")
       (pd.mkDataFrame 2 [(LInt 0, [CInt 1; CInt 2]); (LInt 1, [CInt 5; CInt 7])])
     = false.
Proof.
  destruct (array_from_cleaning_is_wrapped Examples.array_cleaning_pipeline
              Examples.raw_table
              (Examples.stage_on_copy (fun df => Ok (TArray (Examples.to_numpy df))))
              (Examples.to_numpy Examples.raw_table) 2
              eq_refl eq_refl eq_refl)
    as (cleaned & Hclean & _ & _ & _ & _ & Hnames).
  split; [reflexivity|].
  assert (cleaned
          = pd.mkDataFrame 2 [(LInt 0, [CInt 1; CInt 2]); (LInt 1, [CInt 5; CInt 7])]) as E.
  { assert (get_cleaned_df_from_pipeline Examples.array_cleaning_pipeline
              Examples.raw_table
            = (Ok (pd.mkDataFrame 2
                     [(LInt 0, [CInt 1; CInt 2]); (LInt 1, [CInt 5; CInt 7])]),
               [Transform Examples.raw_table])) as K by reflexivity.
    rewrite K in Hclean. now inversion Hclean. }
  rewrite <- E. apply Hnames.
Defined.

(** X9 (an array of the wrong shape).  When the cleaning stage returns
    an array that is neither 1-D nor 2-D with one row per row of the raw
    table, the frame constructor of line 34 raises a [ValueError], which
    the handler of line 38 catches: the cleaned table is the raw table
    (a copy of the table as the stage left it) and the warning, which
    ends with the description of that exception, is the only thing
    printed. *)
Theorem array_of_wrong_shape_falls_back (pipeline : Pipeline) (df_raw : pd.DataFrame)
    (cleaning : step) (a : np.ndarray) :
  let left := transform_leaves cleaning df_raw in
  cleaning_stage pipeline = Some cleaning ->
  transform cleaning df_raw = Ok (TArray a) ->
  np.shape a <> [pd.index_size left] ->
  (forall c, np.shape a <> [pd.index_size left; c]) ->
  exists e,
    exc_class e = ValueError
    /\ get_cleaned_df_from_pipeline pipeline df_raw
       = (Ok left,
          [Transform df_raw; Print stderr (aviso_limpio +++ description e)]).
Proof.
  intros left Hstage Ht H1 H2.
  destruct (pd.of_ndarray a (pd.index_size left)) as [df|e] eqn:C.
  - exfalso. destruct (of_ndarray_ok _ _ _ C) as [K | [c K]];
      [exact (H1 K) | exact (H2 c K)].
  - exists e. split; [exact (of_ndarray_raise _ _ _ C)|].
    pose proof Hstage as Hstage'.
    unfold get_cleaned_df_from_pipeline, table_after_cleaning.
    rewrite Hstage'. unfold cleaning_stage in Hstage.
    destruct (named_steps pipeline) as [steps|]; [|discriminate].
    rewrite Hstage. unfold call. rewrite Ht. cbn [bind try_except lift app].
    fold left. rewrite C. reflexivity.
Qed.

Lemma array_of_wrong_shape_falls_back_witness :
  exists e,
    get_cleaned_df_from_pipeline Examples.one_row_cleaning_pipeline Examples.raw_table
    = (Ok Examples.raw_table,
       [Transform Examples.raw_table; Print stderr (aviso_limpio +++ description e)]).
Proof.
  destruct (array_of_wrong_shape_falls_back Examples.one_row_cleaning_pipeline
              Examples.raw_table
              (Examples.stage_on_copy (fun _ => Ok (TArray (np.array2 1 [[CInt 5]]))))
              (np.array2 1 [[CInt 5]])
              eq_refl eq_refl ltac:(discriminate) ltac:(discriminate))
    as (e & _ & H).
  exists e. exact H.
Defined.

(** X10 (the predictions reach the file as they are).  Whatever the
    pipeline and the cleaning stage do, a run that writes a file after
    [predict] answered with an array of at least one label, on a cleaned
    table with at most one column called [Prediccion], wrote a table
    with exactly one row per label, whose column [Prediccion] is the
    answer of [predict], element for element.  The cleaned table is
    taken as it is when line 85 is reached. *)
Theorem predictions_stored_verbatim (args : arguments) (w : world)
    (test_data : pd.DataFrame) (pipeline : Pipeline) (cleaned : pd.DataFrame) (tc : trace)
    (predictions : list cell) (results : pd.DataFrame) :
  read_csv w (csv args) = Ok test_data ->
  joblib_load w (pkl args) = Ok pipeline ->
  get_cleaned_df_from_pipeline pipeline test_data = (Ok cleaned, tc) ->
  predict pipeline (table_after_cleaning pipeline test_data) = Ok (AArray predictions) ->
  not_repeated Prediccion (cleaned_at_assembly pipeline test_data cleaned) ->
  predictions <> [] ->
  In (ToCsv (out args) results) (snd (main args w)) ->
  pd.index_size results = length predictions
  /\ pd.lookup results Prediccion = Some predictions.
Proof.
  intros Hraw Hload Hclean Hpred Hone Hsome Hin.
  destruct (written_table_inv args w _ _ _ _ _ _ _ Hraw Hload Hclean Hpred Hin)
    as (probabilities & has_proba & tp & _ & Hres).
  destruct (assemble_inv _ _ _ _ _ _ _ Hres) as (with_id & wp & Hid & Hset & _ & Hsteps).
  pose proof (pd_facts.setitem_ok _ _ _ _
                (pd_facts.not_spreads _ _ _ (with_id_not_repeated _ _ _ _ _ Hid Hone))
                Hset) as (N & L & _).
  assert (length predictions <> 0) as Hne
      by (destruct predictions; [congruence | discriminate]).
  destruct (probability_steps_keep (fun _ => false) (fun _ _ => eq_refl)
              wp results probabilities has_proba (length predictions)
              N (or_introl Hne) Hsteps) as (Nres & _ & Keep).
  split; [exact Nres|]. rewrite (Keep Prediccion eq_refl). exact L.
Qed.

Lemma predictions_stored_verbatim_witness :
  exists results,
    In (ToCsv (out Examples.command_line) results)
       (snd (main Examples.command_line
               (Examples.files Examples.raw_table Examples.plain_pipeline)))
    /\ pd.index_size results = 2
    /\ pd.lookup results Prediccion = Some [CInt 0; CInt 1].
Proof.
  eexists.
  assert (In (ToCsv (out Examples.command_line)
                (pd.mkDataFrame 2
                   [(LStr "ID", [CInt 1; CInt 2]); (LStr "x", [CInt 5; CInt 7]);
                    (LStr "Prediccion", [CInt 0; CInt 1]);
                    (LStr "Probabilidad_No_Default", [CFloat (8 # 10); CFloat (3 # 10)]);
                    (LStr "Probabilidad_Default", [CFloat (2 # 10); CFloat (7 # 10)])]))
            (snd (main Examples.command_line
                    (Examples.files Examples.raw_table Examples.plain_pipeline)))) as H.
  { vm_compute. do 8 right. left. reflexivity. }
  split; [exact H|].
  exact (predictions_stored_verbatim Examples.command_line
           (Examples.files Examples.raw_table Examples.plain_pipeline)
           Examples.raw_table Examples.plain_pipeline Examples.raw_table []
           [CInt 0; CInt 1] _
           eq_refl eq_refl eq_refl eq_refl ltac:(vm_compute; lia) ltac:(discriminate) H).
Defined.

(** X11 (the cleaned columns reach the file as they are).  When the
    cleaned table has rows, every column of it whose label is not one of
    the four labels the runner writes is in the table the run writes,
    with the same values: the insertion of the identifier and the
    assignments of lines 91-100 leave it alone.  The cleaned table is
    taken as it is when line 85 is reached. *)
Theorem cleaned_columns_exported_unchanged (args : arguments) (w : world)
    (test_data : pd.DataFrame) (pipeline : Pipeline) (cleaned : pd.DataFrame) (tc : trace)
    (results : pd.DataFrame) :
  let kept := cleaned_at_assembly pipeline test_data cleaned in
  read_csv w (csv args) = Ok test_data ->
  joblib_load w (pkl args) = Ok pipeline ->
  get_cleaned_df_from_pipeline pipeline test_data = (Ok cleaned, tc) ->
  pd.index_size kept <> 0 ->
  In (ToCsv (out args) results) (snd (main args w)) ->
  pd.index_size results = pd.index_size kept
  /\ forall l, pd.label_in l kept = true -> output_label l = false ->
               pd.lookup results l = pd.lookup kept l.
Proof.
  intros kept Hraw Hload Hclean Hne Hin. subst kept.
  destruct (written_is_results_table args w _ _ Hin) as [_ Hrt].
  destruct (results_table_inv args w _ _ _ Hraw Hload Hrt)
    as (cleaned' & tc' & predictions & probabilities & has_proba & tp
        & Hclean' & Hpred & Hproba & Hres).
  rewrite Hclean in Hclean'. inversion Hclean'; subst cleaned' tc'. clear Hclean'.
  set (kept := cleaned_at_assembly pipeline test_data cleaned) in *.
  destruct (assemble_inv _ _ _ _ _ _ _ Hres) as (with_id & wp & Hid & Hset & _ & Hsteps).
  pose proof (with_id_index _ _ _ _ Hid Hne) as Nid.
  assert (pd.ensure_valid_index with_id (values_of predictions) = with_id) as Same
      by (apply ensure_valid_index_nonempty; congruence).
  destruct (setitem_answer_gentle _ _ _ _ Hset Same) as (Nwp & Owp).
  assert (pd.index_size wp = pd.index_size kept) as Nc by congruence.
  destruct (probability_steps_keep (fun _ => false) (fun _ _ => eq_refl)
              wp results probabilities has_proba (pd.index_size kept)
              Nc (or_introl Hne) Hsteps) as (Nres & _ & Keep).
  split; [exact Nres|].
  intros l Hl Hout.
  assert (probability_label l = false) as Hprob.
  { unfold output_label in Hout. apply orb_false_iff in Hout. tauto. }
  assert (l <> Prediccion) as D by (intros ->; discriminate).
  rewrite (Keep l Hprob), (Owp l D).
  destruct (pd.label_in (LStr (id_col args)) (table_at_assembly pipeline test_data)
            && negb (pd.label_in (LStr (id_col args)) kept)) eqn:G.
  - destruct Hid as (values & _ & Hins).
    apply andb_true_iff in G. destruct G as [_ G]. apply negb_true_iff in G.
    assert (l <> LStr (id_col args)) as Did by (intros ->; congruence).
    rewrite (insert0_lookup_other _ _ _ _ _ Hins Did).
    now rewrite (ensure_valid_index_nonempty _ _ Hne).
  - now subst with_id.
Qed.

Lemma cleaned_columns_exported_unchanged_witness :
  exists results,
    In (ToCsv (out Examples.command_line) results)
       (snd (main Examples.command_line
               (Examples.files Examples.raw_table Examples.cleaning_pipeline)))
    /\ pd.lookup results (LStr "x") = Some [CInt 5; CInt 7].
Proof.
  eexists.
  assert (In (ToCsv (out Examples.command_line)
                (pd.mkDataFrame 2
                   [(LStr "ID", [CInt 1; CInt 2]); (LStr "x", [CInt 5; CInt 7]);
                    (LStr "Prediccion", [CInt 0; CInt 1]);
                    (LStr "Probabilidad_No_Default", [CFloat (8 # 10); CFloat (3 # 10)]);
                    (LStr "Probabilidad_Default", [CFloat (2 # 10); CFloat (7 # 10)])]))
            (snd (main Examples.command_line
                    (Examples.files Examples.raw_table Examples.cleaning_pipeline)))) as H.
  { vm_compute. do 9 right. left. reflexivity. }
  split; [exact H|].
  destruct (cleaned_columns_exported_unchanged Examples.command_line
              (Examples.files Examples.raw_table Examples.cleaning_pipeline)
              Examples.raw_table Examples.cleaning_pipeline
              (pd.mkDataFrame 2 [(LStr "x", [CInt 5; CInt 7])])
              [Transform Examples.raw_table] _
              eq_refl eq_refl eq_refl ltac:(discriminate) H)
    as (_ & K).
  exact (K (LStr "x") eq_refl eq_refl).
Defined.

(** X12 (a cleaned table without rows).  When the cleaned table has no
    row (a cleaning stage that drops every row, say) and at most one
    column called [Prediccion], and [predict] answers with an array of
    at least one label: pandas gives the table the index of the first
    non-empty value assigned to it.  So when no identifier is to be
    inserted, lines 85-91 raise nothing; and whenever the run writes its
    file, the table written has one row per label and every column that
    came from the cleaned table, whatever it held, is filled with NaN.
    The cleaned table is taken as it is when line 85 is reached. *)
Theorem empty_cleaned_table_is_refilled (args : arguments) (w : world)
    (test_data : pd.DataFrame) (pipeline : Pipeline) (cleaned : pd.DataFrame) (tc : trace)
    (predictions : list cell) :
  let table := table_at_assembly pipeline test_data in
  let kept := cleaned_at_assembly pipeline test_data cleaned in
  read_csv w (csv args) = Ok test_data ->
  joblib_load w (pkl args) = Ok pipeline ->
  get_cleaned_df_from_pipeline pipeline test_data = (Ok cleaned, tc) ->
  predict pipeline (table_after_cleaning pipeline test_data) = Ok (AArray predictions) ->
  pd.index_size kept = 0 ->
  not_repeated Prediccion kept ->
  predictions <> [] ->
  (pd.label_in (LStr (id_col args)) table
   && negb (pd.label_in (LStr (id_col args)) kept) = false ->
   exists base,
     assemble args table kept (AArray predictions) None false = Ok base
     /\ pd.index_size base = length predictions)
  /\ (forall results,
         In (ToCsv (out args) results) (snd (main args w)) ->
         pd.index_size results = length predictions
         /\ forall l, pd.label_in l kept = true -> output_label l = false ->
                      pd.lookup results l = Some (repeat CNaN (length predictions))).
Proof.
  intros table kept Hraw Hload Hclean Hpred Hzero Hone Hsome. subst table kept.
  set (table := table_at_assembly pipeline test_data).
  set (kept := cleaned_at_assembly pipeline test_data cleaned) in *.
  assert (0 < length predictions) as Hpos
      by (destruct predictions; [congruence | simpl; lia]).
  split.
  - intro G. unfold assemble, pd.copy. rewrite G. cbn [setitem_answer].
    unfold pd.setitem. rewrite (pd_facts.not_spreads _ _ _ Hone).
    unfold pd.sanitize_column, pd.ensure_valid_index.
    apply Nat.eqb_eq in Hzero. apply Nat.ltb_lt in Hpos. rewrite Hzero, Hpos.
    cbn [andb pd.index_size]. rewrite Nat.eqb_refl.
    eexists. split; [reflexivity|]. now rewrite pd_facts.place_index.
  - intros results Hin.
    destruct (written_table_inv args w _ _ _ _ _ _ _ Hraw Hload Hclean Hpred Hin)
      as (probabilities & has_proba & tp & _ & Hres).
    destruct (assemble_inv _ _ _ _ _ _ _ Hres)
      as (with_id & wp & Hid & Hset & _ & Hsteps).
    fold table kept in Hid.
    pose proof (with_id_not_repeated _ _ _ _ _ Hid Hone) as Hone'.
    pose proof (pd_facts.setitem_ok _ _ _ _ (pd_facts.not_spreads _ _ _ Hone') Hset)
      as (Nwp & _ & _ & Owp & _).
    assert (length predictions <> 0) as Hne by lia.
    destruct (probability_steps_keep (fun _ => false) (fun _ _ => eq_refl)
                wp results probabilities has_proba (length predictions)
                Nwp (or_introl Hne) Hsteps) as (Nres & _ & Keep).
    split; [exact Nres|].
    intros l Hl Hout.
    assert (probability_label l = false) as Hprob.
    { unfold output_label in Hout. apply orb_false_iff in Hout. tauto. }
    assert (l <> Prediccion) as D by (intros ->; discriminate).
    rewrite (Keep l Hprob), (Owp l D). clear Keep Owp Hsteps.
    destruct (pd.label_in (LStr (id_col args)) table
              && negb (pd.label_in (LStr (id_col args)) kept)) eqn:G.
    2:{ subst with_id. now apply lookup_refilled. }
    destruct Hid as (values & _ & Hins).
    apply andb_true_iff in G. destruct G as [_ G]. apply negb_true_iff in G.
    assert (l <> LStr (id_col args)) as Did by (intros ->; congruence).
    pose proof (pd_facts.insert0_ok _ _ _ _ Hins) as (_ & Nid & _).
    assert (pd.label_in l with_id = true) as Lid.
    { rewrite (insert0_label_in _ _ _ l _ Hins), Hl. apply orb_true_r. }
    destruct (length values) as [|n] eqn:Hv.
    + now apply lookup_refilled.
    + assert (pd.index_size with_id = length predictions) as Same.
      { apply (setitem_nonempty _ _ _ _ (pd_facts.not_spreads _ _ _ Hone') Hset).
        lia. }
      rewrite (pd_facts.ensure_valid_index_same _ _ Same).
      rewrite (insert0_lookup_other _ _ _ _ _ Hins Did).
      rewrite (lookup_refilled kept values l Hzero ltac:(lia) Hl).
      f_equal. f_equal. congruence.
Qed.

Lemma empty_cleaned_table_is_refilled_witness :
  get_cleaned_df_from_pipeline Examples.misaligned_pipeline
    Examples.table_without_complete_rows
  = (Ok (pd.mkDataFrame 0 [(LStr "ID", []); (LStr "x", [])]),
     [Transform Examples.table_without_complete_rows])
  /\ exists results,
      In (ToCsv (out Examples.command_line) results)
         (snd (main Examples.command_line
                 (Examples.files Examples.table_without_complete_rows
                    Examples.misaligned_pipeline)))
      /\ pd.lookup results (LStr "ID") = Some [CNaN; CNaN]
      /\ pd.lookup results (LStr "x") = Some [CNaN; CNaN].
Proof.
  split; [reflexivity|]. eexists.
  assert (In (ToCsv (out Examples.command_line)
                (pd.mkDataFrame 2
                   [(LStr "ID", [CNaN; CNaN]); (LStr "x", [CNaN; CNaN]);
                    (LStr "Prediccion", [CInt 0; CInt 0])]))
            (snd (main Examples.command_line
                    (Examples.files Examples.table_without_complete_rows
                       Examples.misaligned_pipeline)))) as H.
  { vm_compute. do 9 right. left. reflexivity. }
  split; [exact H|].
  pose proof (proj2 (proj2 (empty_cleaned_table_is_refilled Examples.command_line
                (Examples.files Examples.table_without_complete_rows
                   Examples.misaligned_pipeline)
                Examples.table_without_complete_rows Examples.misaligned_pipeline
                (pd.mkDataFrame 0 [(LStr "ID", []); (LStr "x", [])])
                [Transform Examples.table_without_complete_rows]
                [CInt 0; CInt 0]
                eq_refl eq_refl eq_refl eq_refl eq_refl
                ltac:(vm_compute; lia) ltac:(discriminate)) _ H)) as K.
  split; [exact (K (LStr "ID") eq_refl eq_refl) | exact (K (LStr "x") eq_refl eq_refl)].
Defined.

(** The same cleaned table under an identifier taken from a table of
    two rows and a [predict] that answers with three labels: line 88
    gives the frame two rows and line 91 raises.  The run exits with
    status 2 and writes nothing. *)
Example refilled_table_rejects_other_length :
  let kept := pd.mkDataFrame 0 [(LStr "x", [])] in
  exists e,
    assemble Examples.command_line Examples.raw_table kept
      (AArray [CInt 0; CInt 0; CInt 0]) None false = Raise e
    /\ exc_class e = ValueError.
Proof. cbv zeta. eexists. split; reflexivity. Qed.

(* ===================================================================== *)
(** ** The header of the written table *)
(* ===================================================================== *)

(** X13 (the header of the written table).  The labels of the table a
    run writes are, in this order: the identifier label when the table
    that was read has it and the cleaned table does not, both as they
    are when line 87 is reached (after the calls to the pipeline, which
    may have edited the table in place); the labels of the cleaned
    table; [Prediccion]; and, when [predict_proba] answers,
    [Probabilidad_No_Default] and [Probabilidad_Default] for a 2-D array
    with at least two columns and [Probabilidad] for any other array.
    Each label the runner writes is appended only if the table does not
    have it yet; one it already has keeps its place. *)
Theorem header_of_the_written_table (args : arguments) (w : world)
    (test_data : pd.DataFrame) (pipeline : Pipeline) (cleaned : pd.DataFrame) (tc : trace)
    (results : pd.DataFrame) :
  read_csv w (csv args) = Ok test_data ->
  joblib_load w (pkl args) = Ok pipeline ->
  get_cleaned_df_from_pipeline pipeline test_data = (Ok cleaned, tc) ->
  In (ToCsv (out args) results) (snd (main args w)) ->
  let table := table_at_assembly pipeline test_data in
  let kept := cleaned_at_assembly pipeline test_data cleaned in
  let with_id :=
    (if pd.label_in (LStr (id_col args)) table
        && negb (pd.label_in (LStr (id_col args)) kept)
     then [LStr (id_col args)] else [])
    ++ pd.columns kept in
  let base :=
    with_id ++ (if existsb (label_eqb Prediccion) with_id then [] else [Prediccion]) in
  let added :=
    match predict_proba pipeline with
    | Some f =>
        match f (table_after_predict pipeline test_data) with
        | Ok a => if two_columns a
                  then [Probabilidad_No_Default; Probabilidad_Default]
                  else [Probabilidad]
        | Raise _ => []
        end
    | None => []
    end in
  pd.columns results
  = base ++ filter (fun l => negb (existsb (label_eqb l) base)) added.
Proof.
  intros Hraw Hload Hclean Hin table kept with_id base added.
  destruct (written_is_results_table args w _ _ Hin) as [_ Hrt].
  destruct (results_table_inv args w _ _ _ Hraw Hload Hrt)
    as (cleaned' & tc' & predictions & probabilities & has_proba & tp
        & Hclean' & Hpred & Hproba & Hres).
  rewrite Hclean in Hclean'. inversion Hclean'; subst cleaned' tc'. clear Hclean'.
  destruct (assemble_inv _ _ _ _ _ _ _ Hres) as (wid & wp & _ & _ & Hbase & Hsteps).
  pose proof (columns_after_prediction _ _ _ _ _ Hbase) as Hcols. cbv zeta in Hcols.
  fold table kept in Hcols. fold with_id in Hcols. fold base in Hcols.
  assert (forall l, pd.label_in l wp = existsb (label_eqb l) base) as Hlabel
      by (intro l; unfold pd.label_in; now rewrite Hcols).
  subst added.
  destruct (try_predict_proba_cases pipeline (table_after_predict pipeline test_data))
    as [(f & a & Hf & Ha & C) | [(f & e & Hf & He & C) | [Hn C]]];
    rewrite C in Hproba; inversion Hproba; subst probabilities has_proba; clear Hproba.
  - rewrite Hf, Ha. destruct Hsteps as (p & Hp & Hsteps). inversion Hp; subst p.
    destruct (two_columns a).
    + destruct Hsteps as (r1 & S1 & S2).
      destruct (two_probability_columns _ _ _ _ S1 S2) as (_ & K & _).
      rewrite K, Hcols. f_equal. apply filter_ext. intro l. now rewrite Hlabel.
    + destruct (one_probability_column _ _ _ Hsteps) as (_ & K & _).
      rewrite K, Hcols. f_equal. apply filter_ext. intro l. now rewrite Hlabel.
  - rewrite Hf, He. subst results. cbn [filter]. now rewrite app_nil_r.
  - rewrite Hn. subst results. cbn [filter]. now rewrite app_nil_r.
Qed.

Lemma header_of_the_written_table_witness :
  exists results,
    In (ToCsv (out Examples.command_line) results)
       (snd (main Examples.command_line
               (Examples.files Examples.raw_table Examples.cleaning_pipeline)))
    /\ pd.columns results
       = [LStr "ID"; LStr "x"; Prediccion; Probabilidad_No_Default; Probabilidad_Default].
Proof.
  eexists.
  assert (In (ToCsv (out Examples.command_line)
                (pd.mkDataFrame 2
                   [(LStr "ID", [CInt 1; CInt 2]); (LStr "x", [CInt 5; CInt 7]);
                    (LStr "Prediccion", [CInt 0; CInt 1]);
                    (LStr "Probabilidad_No_Default", [CFloat (8 # 10); CFloat (3 # 10)]);
                    (LStr "Probabilidad_Default", [CFloat (2 # 10); CFloat (7 # 10)])]))
            (snd (main Examples.command_line
                    (Examples.files Examples.raw_table Examples.cleaning_pipeline)))) as H.
  { vm_compute. do 9 right. left. reflexivity. }
  split; [exact H|].
  exact (header_of_the_written_table Examples.command_line
           (Examples.files Examples.raw_table Examples.cleaning_pipeline)
           Examples.raw_table Examples.cleaning_pipeline
           (pd.mkDataFrame 2 [(LStr "x", [CInt 5; CInt 7])])
           [Transform Examples.raw_table] _
           eq_refl eq_refl eq_refl H).
Defined.

(** The header when the cleaning stage drops the identifier from the
    table itself and hands the table back: at line 87 the table that was
    read has no identifier any more, nothing is inserted, and the file
    starts with [x]. *)
Example header_after_cleaning_in_place :
  In (ToCsv (out Examples.command_line)
        (pd.mkDataFrame 2
           [(LStr "x", [CInt 5; CInt 7]);
            (LStr "Prediccion", [CInt 0; CInt 1]);
            (LStr "Probabilidad_No_Default", [CFloat (8 # 10); CFloat (3 # 10)]);
            (LStr "Probabilidad_Default", [CFloat (2 # 10); CFloat (7 # 10)])]))
     (snd (main Examples.command_line
             (Examples.files Examples.raw_table Examples.in_place_pipeline)))
  /\ pd.label_in (LStr (id_col Examples.command_line)) Examples.raw_table = true.
Proof. split; [vm_compute; do 9 right; left; reflexivity | reflexivity]. Qed.

(** X14 (labels stay distinct).  When no two columns of the cleaned
    table (as it is when line 85 is reached) share a label, no two
    columns of the table a run writes do:
    the identifier is inserted only under a label the table does not
    have, and an assignment to a label the table has replaces the column
    instead of adding one. *)
Theorem labels_stay_distinct (args : arguments) (w : world)
    (test_data : pd.DataFrame) (pipeline : Pipeline) (cleaned : pd.DataFrame) (tc : trace)
    (results : pd.DataFrame) :
  read_csv w (csv args) = Ok test_data ->
  joblib_load w (pkl args) = Ok pipeline ->
  get_cleaned_df_from_pipeline pipeline test_data = (Ok cleaned, tc) ->
  NoDup (pd.columns (cleaned_at_assembly pipeline test_data cleaned)) ->
  In (ToCsv (out args) results) (snd (main args w)) ->
  NoDup (pd.columns results).
Proof.
  intros Hraw Hload Hclean Hnd Hin.
  destruct (written_is_results_table args w _ _ Hin) as [_ Hrt].
  destruct (results_table_inv args w _ _ _ Hraw Hload Hrt)
    as (cleaned' & tc' & predictions & probabilities & has_proba & tp
        & Hclean' & Hpred & Hproba & Hres).
  rewrite Hclean in Hclean'. inversion Hclean'; subst cleaned' tc'. clear Hclean'.
  destruct (assemble_inv _ _ _ _ _ _ _ Hres) as (with_id & wp & Hid & Hset & _ & Hsteps).
  assert (NoDup (pd.columns with_id)) as Nid.
  { destruct (_ && _).
    - destruct Hid as (values & _ & Hins). exact (insert0_NoDup _ _ _ _ Hins Hnd).
    - now subst with_id. }
  pose proof (setitem_answer_NoDup _ _ _ _ Hset Nid) as Nwp.
  destruct has_proba; [|now subst results].
  destruct Hsteps as (p & _ & Hsteps). destruct (two_columns p).
  - destruct Hsteps as (r1 & S1 & S2).
    exact (setitem_NoDup _ _ _ _ S2 (setitem_NoDup _ _ _ _ S1 Nwp)).
  - exact (setitem_NoDup _ _ _ _ Hsteps Nwp).
Qed.

Lemma labels_stay_distinct_witness :
  exists results,
    In (ToCsv (out Examples.command_line) results)
       (snd (main Examples.command_line
               (Examples.files Examples.previous_results Examples.plain_pipeline)))
    /\ NoDup (pd.columns results).
Proof.
  eexists.
  assert (In (ToCsv (out Examples.command_line)
                (pd.mkDataFrame 2
                   [(LStr "ID", [CInt 1; CInt 2]); (LStr "x", [CInt 5; CInt 7]);
                    (LStr "Prediccion", [CInt 0; CInt 1]);
                    (LStr "Probabilidad_No_Default", [CFloat (8 # 10); CFloat (3 # 10)]);
                    (LStr "Probabilidad_Default", [CFloat (2 # 10); CFloat (7 # 10)])]))
            (snd (main Examples.command_line
                    (Examples.files Examples.previous_results Examples.plain_pipeline)))) as H.
  { vm_compute. do 8 right. left. reflexivity. }
  split; [exact H|].
  refine (labels_stay_distinct Examples.command_line
            (Examples.files Examples.previous_results Examples.plain_pipeline)
            Examples.previous_results Examples.plain_pipeline
            Examples.previous_results [] _
            eq_refl eq_refl eq_refl _ H).
  repeat constructor; simpl; intuition discriminate.
Defined.

(* ===================================================================== *)
(** ** The preview *)
(* ===================================================================== *)

Lemma find_filter_same (l : label) (cs : list (label * list cell)) :
  find (fun c => label_eqb (fst c) l) (filter (fun c => label_eqb (fst c) l) cs)
  = find (fun c => label_eqb (fst c) l) cs.
Proof.
  induction cs as [|c cs IH]; [reflexivity|]. cbn [filter find].
  destruct (label_eqb (fst c) l) eqn:E; [|exact IH].
  cbn [find]. now rewrite E.
Qed.

Lemma find_filter_other (k l : label) (cs : list (label * list cell)) :
  k <> l ->
  find (fun c => label_eqb (fst c) l) (filter (fun c => label_eqb (fst c) k) cs) = None.
Proof.
  intro Hne. induction cs as [|c cs IH]; [reflexivity|]. cbn [filter].
  destruct (label_eqb (fst c) k) eqn:E; [|exact IH].
  cbn [find]. apply label_eqb_eq in E.
  assert (label_eqb (fst c) l = false) as N by (apply label_eqb_neq; congruence).
  now rewrite N.
Qed.

Lemma find_app_split {X : Type} (f : X -> bool) (a b : list X) :
  find f (a ++ b) = match find f a with
                    | Some x => Some x
                    | None => find f b
                    end.
Proof.
  induction a as [|x a IH]; [reflexivity|]. cbn [app find].
  now destruct (f x).
Qed.

(** [df[keys][l]] is [df[l]] for a label that was asked for. *)
Lemma lookup_getitem_list (df shown : pd.DataFrame) (keys : list label) (l : label) :
  pd.getitem_list df keys = Ok shown ->
  pd.index_size shown = pd.index_size df
  /\ pd.lookup shown l = (if existsb (label_eqb l) keys then pd.lookup df l else None).
Proof.
  unfold pd.getitem_list. destruct (find _ keys); [discriminate|].
  intro H. inversion H; subst shown; clear H. split; [reflexivity|].
  unfold pd.lookup. cbn [pd.cols].
  induction keys as [|k keys IH]; [reflexivity|].
  cbn [flat_map existsb]. rewrite find_app_split.
  destruct (label_eqb l k) eqn:E.
  - apply label_eqb_eq in E. subst k. rewrite find_filter_same.
    destruct (find (fun c => label_eqb (fst c) l) (pd.cols df)) as [c|] eqn:F;
      [reflexivity|].
    rewrite IH. now destruct (existsb (label_eqb l) keys).
  - apply label_eqb_neq in E.
    rewrite (find_filter_other k l) by congruence. exact IH.
Qed.

(** [df.head(n)[l]] is the beginning of [df[l]]. *)
Lemma lookup_head (df : pd.DataFrame) (n : Z) (l : label) :
  pd.index_size (pd.head df n) = head_rows n (pd.index_size df)
  /\ pd.lookup (pd.head df n) l
     = option_map (firstn (head_rows n (pd.index_size df))) (pd.lookup df l).
Proof.
  unfold pd.head, head_rows. cbn [pd.index_size]. split; [reflexivity|].
  unfold pd.lookup. cbn [pd.cols].
  induction (pd.cols df) as [|c cs IH]; [reflexivity|].
  cbn [map find fst]. destruct (label_eqb (fst c) l); [reflexivity | exact IH].
Qed.

Lemma nth_error_firstn_lt {X : Type} (k i : nat) (v : list X) :
  i < k -> nth_error (firstn k v) i = nth_error v i.
Proof.
  revert i v. induction k as [|k IH]; intros i v H; [lia|].
  destruct v as [|x v]; [reflexivity|].
  destruct i as [|i]; [reflexivity|]. cbn [firstn nth_error]. apply IH. lia.
Qed.

(** X15 (the preview shows the rows that were written).  A run that
    exits with status 0 ends by printing a frame cut from the table it
    wrote: the frame has the first [--head] rows of that table (all of
    them when the table has fewer; all but the last [-n] for a negative
    [--head n]; none for 0), it has the column [Prediccion], each of its
    columns is a column of the written table, and in every row it shows,
    under every label it shows, the value the written table has there. *)
Theorem preview_shows_written_rows (args : arguments) (w : world) :
  fst (main args w) = 0%Z ->
  exists results shown before,
    In (ToCsv (out args) results) (snd (main args w))
    /\ snd (main args w) = before ++ [PrintFrame PreferredColumns shown]
    /\ pd.index_size shown = head_rows (head args) (pd.index_size results)
    /\ pd.label_in Prediccion shown = true
    /\ forall l, pd.label_in l shown = true ->
                 pd.label_in l results = true
                 /\ forall i, i < pd.index_size shown ->
                              pd.iloc shown l i = pd.iloc results l i.
Proof.
  intro H. destruct (main_ok_inv args w H) as (_ & _ & B).
  destruct (main_body_ok_inv args w _ B)
    as (test_data & pipeline & cleaned & tc & predictions & probabilities & has_proba
        & tp & results & binc_str & tv
        & Hraw & Hload & Hclean & Hpred & Hproba & Hres & Hw & Hcount & Hprev & E).
  destruct (preview_of_results _ _ _ _ _ _ _ Hres) as (shown & Hshown & Hprev').
  rewrite Hprev in Hprev'. inversion Hprev'; subst tv. clear Hprev'.
  destruct (lookup_head shown (head args) Prediccion) as [Nhead _].
  exists results, (pd.head shown (head args)). eexists.
  split; [|split; [|split; [|split]]].
  - rewrite E. do 4 (apply in_or_app; right). now left.
  - rewrite E. repeat rewrite app_assoc. 
    change [Print stdout (nl +++ "Primeras " +++ show_Z (head args) +++ " filas:");
            PrintFrame PreferredColumns (pd.head shown (head args))]
      with ([Print stdout (nl +++ "Primeras " +++ show_Z (head args) +++ " filas:")]
            ++ [PrintFrame PreferredColumns (pd.head shown (head args))]).
    rewrite app_assoc. reflexivity.
  - rewrite Nhead. destruct (lookup_getitem_list _ _ _ Prediccion Hshown) as [-> _].
    reflexivity.
  - apply label_in_lookup.
    destruct (lookup_head shown (head args) Prediccion) as [_ ->].
    destruct (lookup_getitem_list _ _ _ Prediccion Hshown) as [_ ->].
    assert (existsb (label_eqb Prediccion)
              (cols_show args results probabilities has_proba) = true) as K.
    { apply existsb_exists. exists Prediccion. split; [|apply label_eqb_refl].
      unfold cols_show. destruct (has_proba && _);
        destruct (pd.label_in (LStr (id_col args)) results); simpl; auto. }
    rewrite K.
    pose proof (assemble_has_Prediccion _ _ _ _ _ _ _ Hres) as P.
    apply label_in_lookup in P. destruct P as [v ->]. cbn. eauto.
  - intros l Hl. apply label_in_lookup in Hl. destruct Hl as [v Hv].
    destruct (lookup_head shown (head args) l) as [_ Hh].
    destruct (lookup_getitem_list _ _ _ l Hshown) as [Ns Hg].
    rewrite Hh, Hg in Hv.
    destruct (existsb (label_eqb l) (cols_show args results probabilities has_proba));
      [|discriminate].
    destruct (pd.lookup results l) as [u|] eqn:Hu; [|discriminate].
    split; [apply label_in_lookup; eauto|].
    intros i Hi. unfold pd.iloc. rewrite Hh, Hg, Hu. cbn [option_map].
    apply nth_error_firstn_lt. rewrite Nhead in Hi. exact Hi.
Qed.

Lemma preview_shows_written_rows_witness :
  exists results shown before,
    In (ToCsv (out Examples.command_line) results)
       (snd (main Examples.command_line
               (Examples.files Examples.raw_table Examples.plain_pipeline)))
    /\ snd (main Examples.command_line
              (Examples.files Examples.raw_table Examples.plain_pipeline))
       = before ++ [PrintFrame PreferredColumns shown]
    /\ pd.index_size shown = 2.
Proof.
  destruct (preview_shows_written_rows Examples.command_line
              (Examples.files Examples.raw_table Examples.plain_pipeline) eq_refl)
    as (results & shown & before & Hin & E & N & _).
  exists results, shown, before. split; [exact Hin|]. split; [exact E|].
  rewrite N.
  destruct (written_is_results_table _ _ _ _ Hin) as [_ Hrt].
  destruct Hrt as (td & p & cl & tc & preds & proba & has & tp
                   & Hraw & Hload & Hclean & Hpred & Hproba & Hres).
  inversion Hraw; subst td. inversion Hload; subst p.
  inversion Hclean; subst cl. inversion Hpred; subst preds.
  inversion Hproba; subst proba has.
  inversion Hres. reflexivity.
Defined.

(* ===================================================================== *)
(** ** Where a failing run stops, and a run on its own output *)
(* ===================================================================== *)

Lemma main_of_raising_body (args : arguments) (w : world) (e : exception) (t : trace) :
  path_exists w (csv args) = true ->
  path_exists w (pkl args) = true ->
  main_body args w = (Raise e, t) ->
  main args w = (status_of e, t ++ [Print stderr (closing_message e)]).
Proof.
  intros Hcsv Hpkl B. unfold main, status_of, closing_message.
  rewrite Hcsv, Hpkl, B. cbn [negb]. now destruct (is_FileNotFoundError e).
Qed.

(** X16 (where a failing run stops).  With both paths on disk: when
    [read_csv] raises, the run does nothing else than report it, and
    prints nothing on the standard output; when [joblib.load] raises, the
    banner, the input path and the shape of the raw table have been
    printed and the pipeline is never called; when [predict] raises, the
    cleaned table has been derived and its shape printed, and
    [predict_proba] is not called.  In the three cases no file is
    written, the exit status is that of the exception (1 for a
    [FileNotFoundError], 2 otherwise) and the closing message on the
    error stream is the last event. *)
Theorem early_failures_stop_the_run (args : arguments) (w : world) :
  path_exists w (csv args) = true ->
  path_exists w (pkl args) = true ->
  (forall e,
      read_csv w (csv args) = Raise e ->
      main args w
      = (status_of e, [ReadCsv (csv args); Print stderr (closing_message e)]))
  /\ (forall test_data e,
         read_csv w (csv args) = Ok test_data ->
         joblib_load w (pkl args) = Raise e ->
         main args w
         = (status_of e,
            events_of_loading args test_data ++ [Print stderr (closing_message e)]))
  /\ (forall test_data pipeline cleaned tc e,
         read_csv w (csv args) = Ok test_data ->
         joblib_load w (pkl args) = Ok pipeline ->
         get_cleaned_df_from_pipeline pipeline test_data = (Ok cleaned, tc) ->
         predict pipeline (table_after_cleaning pipeline test_data) = Raise e ->
         main args w
         = (status_of e,
            events_of_loading args test_data ++ tc
            ++ [Print stdout ("Forma del archivo de prueba (limpio): "
                              +++ pd.show_shape cleaned);
                Predict (table_after_cleaning pipeline test_data);
                Print stderr (closing_message e)])).
Proof.
  intros Hcsv Hpkl.
  pose proof (main_body_until_predictions args w) as Shape.
  split; [|split].
  - intros e Hraw.
    destruct Shape
      as [(e' & Hraw' & B)
         | [(td & e' & Hraw' & _) | [(td & p & c & tc & e' & Hraw' & _)
                                    | (td & p & c & tc & ps & pr & hp & tp & Hraw' & _)]]];
      rewrite Hraw in Hraw'; inversion Hraw'; subst.
    exact (main_of_raising_body args w _ _ Hcsv Hpkl B).
  - intros test_data e Hraw Hload.
    destruct Shape
      as [(e' & Hraw' & _)
         | [(td & e' & Hraw' & Hload' & B)
           | [(td & p & c & tc & e' & Hraw' & Hload' & _)
             | (td & p & c & tc & ps & pr & hp & tp & Hraw' & Hload' & _)]]];
      rewrite Hraw in Hraw'; inversion Hraw'; subst;
      rewrite Hload in Hload'; inversion Hload'; subst.
    exact (main_of_raising_body args w _ _ Hcsv Hpkl B).
  - intros test_data pipeline cleaned tc e Hraw Hload Hclean Hpred.
    destruct Shape
      as [(e' & Hraw' & _)
         | [(td & e' & Hraw' & Hload' & _)
           | [(td & p & c & tc' & e' & Hraw' & Hload' & Hclean' & Hpred' & B)
             | (td & p & c & tc' & ps & pr & hp & tp & Hraw' & Hload' & Hclean' & Hpred' & _)]]];
      rewrite Hraw in Hraw'; inversion Hraw'; subst;
      rewrite Hload in Hload'; inversion Hload'; subst;
      rewrite Hclean in Hclean'; inversion Hclean'; subst;
      rewrite Hpred in Hpred'; inversion Hpred'; subst.
    rewrite (main_of_raising_body args w _ _ Hcsv Hpkl B).
    f_equal. repeat rewrite <- app_assoc. reflexivity.
Qed.

Lemma early_failures_stop_the_run_witness :
  main Examples.command_line Examples.unreadable_table
  = (2%Z,
     [ReadCsv "test_inferencia.csv";
      Print stderr (nl +++ "Error al procesar inferencia: " +++ "Error tokenizing data")]).
Proof.
  destruct (early_failures_stop_the_run Examples.command_line Examples.unreadable_table
              eq_refl eq_refl) as (Hread & _).
  exact (Hread (mkException OtherException "Error tokenizing data") eq_refl).
Defined.

(** X17 (a run on its own output).  When the pipeline has no cleaning
    stage and the raw table already has the column [Prediccion] and the
    probability columns this run would add (the table is the output of
    an earlier run, say), the run adds no column of its own: the table
    it writes has the labels of the raw table, in the same order, the
    old predictions and probabilities being replaced in place.  (Were
    [predict] or [predict_proba] to put an identifier column into the
    table they are given, line 88 would still place it in front of those
    labels.) *)
Theorem rescoring_keeps_the_header (args : arguments) (w : world)
    (test_data : pd.DataFrame) (pipeline : Pipeline) (results : pd.DataFrame) :
  read_csv w (csv args) = Ok test_data ->
  joblib_load w (pkl args) = Ok pipeline ->
  cleaning_stage pipeline = None ->
  pd.label_in Prediccion test_data = true ->
  (forall f a,
      predict_proba pipeline = Some f ->
      f (table_after_predict pipeline test_data) = Ok a ->
      if two_columns a
      then pd.label_in Probabilidad_No_Default test_data = true
           /\ pd.label_in Probabilidad_Default test_data = true
      else pd.label_in Probabilidad test_data = true) ->
  In (ToCsv (out args) results) (snd (main args w)) ->
  pd.columns results
  = (if pd.label_in (LStr (id_col args)) (table_at_assembly pipeline test_data)
        && negb (pd.label_in (LStr (id_col args)) test_data)
     then [LStr (id_col args)] else [])
    ++ pd.columns test_data
  /\ (table_at_assembly pipeline test_data = test_data ->
      pd.columns results = pd.columns test_data).
Proof.
  intros Hraw Hload Hnone HP Hlabels Hin.
  assert (get_cleaned_df_from_pipeline pipeline test_data = (Ok test_data, [])) as Hclean.
  { destruct (get_cleaned_cases pipeline test_data)
      as [[_ E] | [(c & df & K & _) | [(c & a & df & K & _) | (c & e & K & _)]]];
      [exact E | congruence | congruence | congruence]. }
  destruct (written_is_results_table args w _ _ Hin) as [_ Hrt].
  destruct (results_table_inv args w _ _ _ Hraw Hload Hrt)
    as (cleaned' & tc' & predictions & probabilities & has_proba & tp
        & Hclean' & Hpred & Hproba & Hres).
  rewrite Hclean in Hclean'. inversion Hclean'; subst cleaned' tc'. clear Hclean'.
  destruct (no_stage_no_hand_back pipeline test_data test_data Hnone) as [_ Hkept].
  rewrite Hkept in Hres.
  assert (pd.columns results
          = (if pd.label_in (LStr (id_col args)) (table_at_assembly pipeline test_data)
                && negb (pd.label_in (LStr (id_col args)) test_data)
             then [LStr (id_col args)] else [])
            ++ pd.columns test_data) as Hcols.
  { destruct (assemble_inv _ _ _ _ _ _ _ Hres)
      as (with_id & wp & Hid & Hset & _ & Hsteps).
    assert (pd.columns with_id
            = (if pd.label_in (LStr (id_col args)) (table_at_assembly pipeline test_data)
                  && negb (pd.label_in (LStr (id_col args)) test_data)
               then [LStr (id_col args)] else [])
              ++ pd.columns test_data
            /\ forall l, pd.label_in l test_data = true -> pd.label_in l with_id = true)
      as [Cid Kid].
    { destruct (_ && _).
      - destruct Hid as (values & _ & Hins). split.
        + pose proof (pd_facts.insert0_ok _ _ _ _ Hins) as (_ & _ & C).
          unfold pd.columns at 1. rewrite C. cbn [map fst app].
          fold (pd.columns (pd.ensure_valid_index test_data values)).
          now rewrite pd_facts.ensure_valid_index_columns.
        + intros l Hl. rewrite (insert0_label_in _ _ _ l _ Hins), Hl.
          apply orb_true_r.
      - subst with_id. auto. }
    pose proof (setitem_answer_columns _ _ _ _ Hset) as Cwp.
    rewrite (Kid _ HP), app_nil_r in Cwp.
    assert (forall l, pd.label_in l test_data = true -> pd.label_in l wp = true) as Keep.
    { intros l Hl. rewrite (setitem_answer_label_in _ _ _ l _ Hset), (Kid l Hl).
      reflexivity. }
    destruct has_proba; [|subst results; congruence].
    destruct Hsteps as (p & Hp & Hsteps). subst probabilities.
    destruct (try_predict_proba_source _ _ _ _ _ _ Hproba eq_refl) as (f & Hf & Ha).
    specialize (Hlabels f p Hf Ha).
    destruct (two_columns p).
    - destruct Hlabels as [L1 L2]. destruct Hsteps as (r1 & S1 & S2).
      destruct (two_probability_columns _ _ _ _ S1 S2) as (_ & K & _).
      rewrite K. cbn [filter]. rewrite (Keep _ L1), (Keep _ L2). cbn [negb].
      rewrite app_nil_r. congruence.
    - destruct (one_probability_column _ _ _ Hsteps) as (_ & K & _).
      rewrite K. cbn [filter]. rewrite (Keep _ Hlabels). cbn [negb].
      rewrite app_nil_r. congruence. }
  split; [exact Hcols|].
  intro Hat. rewrite Hcols, Hat.
  now destruct (pd.label_in (LStr (id_col args)) test_data).
Qed.

Lemma rescoring_keeps_the_header_witness :
  exists results,
    In (ToCsv (out Examples.command_line) results)
       (snd (main Examples.command_line
               (Examples.files Examples.previous_results Examples.plain_pipeline)))
    /\ pd.columns results
       = [LStr "ID"; LStr "x"; Prediccion; Probabilidad_No_Default; Probabilidad_Default].
Proof.
  eexists.
  assert (In (ToCsv (out Examples.command_line)
                (pd.mkDataFrame 2
                   [(LStr "ID", [CInt 1; CInt 2]); (LStr "x", [CInt 5; CInt 7]);
                    (LStr "Prediccion", [CInt 0; CInt 1]);
                    (LStr "Probabilidad_No_Default", [CFloat (8 # 10); CFloat (3 # 10)]);
                    (LStr "Probabilidad_Default", [CFloat (2 # 10); CFloat (7 # 10)])]))
            (snd (main Examples.command_line
                    (Examples.files Examples.previous_results Examples.plain_pipeline)))) as H.
  { vm_compute. do 8 right. left. reflexivity. }
  split; [exact H|].
  refine (proj2 (rescoring_keeps_the_header Examples.command_line
                   (Examples.files Examples.previous_results Examples.plain_pipeline)
                   Examples.previous_results Examples.plain_pipeline _
                   eq_refl eq_refl eq_refl eq_refl _ H) eq_refl).
  intros f a Hf Ha. inversion Hf; subst f. inversion Ha; subst a.
  split; reflexivity.
Defined.
